(** * Arducam 64MP sensor driver: control and negotiation engine

    A shallow embedding of [drivers/media/i2c/arducam_64mp.c].  The driver
    state [struct arducam_64mp] is a record that is threaded through every
    function; a C function returning [int] and mutating the device becomes a
    function returning a pair (return value, new state).  C integers are
    [Z] with the wrap-around of their width written out. *)

From Stdlib Require Import ZArith List Bool Lia.
Import ListNotations.
Open Scope Z_scope.

(** ** Machine integers *)

Definition u8 (x : Z) : Z := x mod 2 ^ 8.
Definition u16 (x : Z) : Z := x mod 2 ^ 16.
Definition u32 (x : Z) : Z := x mod 2 ^ 32.
Definition u64 (x : Z) : Z := x mod 2 ^ 64.

(** Conversion of a 32-bit pattern to [int] (two's complement). *)
Definition s32 (x : Z) : Z :=
  let y := u32 x in if y <? 2 ^ 31 then y else y - 2 ^ 32.

Definition EIO : Z := 5.
Definition EINVAL : Z := 22.

(** ** Register map and limits (the [#define]s of the driver) *)

Definition ARDUCAM_64MP_REG_VALUE_08BIT : Z := 1.
Definition ARDUCAM_64MP_REG_VALUE_16BIT : Z := 2.

Definition ARDUCAM_64MP_REG_MODE_SELECT : Z := 0x0100.
Definition ARDUCAM_64MP_MODE_STANDBY : Z := 0x00.
Definition ARDUCAM_64MP_MODE_STREAMING : Z := 0x01.
Definition ARDUCAM_64MP_REG_ORIENTATION : Z := 0x101.

Definition ARDUCAM_64MP_PIXEL_RATE : Z := 900000000.

Definition ARDUCAM_64MP_REG_FRAME_LENGTH : Z := 0x0340.
Definition ARDUCAM_64MP_FRAME_LENGTH_MAX : Z := 0xffff.

Definition ARDUCAM_64MP_LONG_EXP_SHIFT_MAX : Z := 7.
Definition ARDUCAM_64MP_LONG_EXP_SHIFT_REG : Z := 0x3100.

Definition ARDUCAM_64MP_REG_EXPOSURE : Z := 0x0202.
Definition ARDUCAM_64MP_EXPOSURE_OFFSET : Z := 48.
Definition ARDUCAM_64MP_EXPOSURE_MIN : Z := 9.
Definition ARDUCAM_64MP_EXPOSURE_STEP : Z := 1.
Definition ARDUCAM_64MP_EXPOSURE_DEFAULT : Z := 0x3e8.
Definition ARDUCAM_64MP_EXPOSURE_MAX : Z :=
  ARDUCAM_64MP_FRAME_LENGTH_MAX - ARDUCAM_64MP_EXPOSURE_OFFSET.

Definition ARDUCAM_64MP_REG_ANALOG_GAIN : Z := 0x0204.
Definition ARDUCAM_64MP_ANA_GAIN_MIN : Z := 0.
Definition ARDUCAM_64MP_ANA_GAIN_MAX : Z := 1008.
Definition ARDUCAM_64MP_ANA_GAIN_STEP : Z := 1.
Definition ARDUCAM_64MP_ANA_GAIN_DEFAULT : Z := 0.

Definition ARDUCAM_64MP_REG_DIGITAL_GAIN : Z := 0x020e.
Definition ARDUCAM_64MP_DGTL_GAIN_MIN : Z := 0x0100.
Definition ARDUCAM_64MP_DGTL_GAIN_MAX : Z := 0x0fff.
Definition ARDUCAM_64MP_DGTL_GAIN_DEFAULT : Z := 0x0100.
Definition ARDUCAM_64MP_DGTL_GAIN_STEP : Z := 1.

Definition ARDUCAM_64MP_REG_TEST_PATTERN : Z := 0x0600.
Definition ARDUCAM_64MP_TEST_PATTERN_DISABLE : Z := 0.
Definition ARDUCAM_64MP_TEST_PATTERN_SOLID_COLOR : Z := 1.
Definition ARDUCAM_64MP_TEST_PATTERN_COLOR_BARS : Z := 2.
Definition ARDUCAM_64MP_TEST_PATTERN_GREY_COLOR : Z := 3.
Definition ARDUCAM_64MP_TEST_PATTERN_PN9 : Z := 4.

Definition ARDUCAM_64MP_REG_TEST_PATTERN_R : Z := 0x0602.
Definition ARDUCAM_64MP_REG_TEST_PATTERN_GR : Z := 0x0604.
Definition ARDUCAM_64MP_REG_TEST_PATTERN_B : Z := 0x0606.
Definition ARDUCAM_64MP_REG_TEST_PATTERN_GB : Z := 0x0608.
Definition ARDUCAM_64MP_TEST_PATTERN_COLOUR_MIN : Z := 0.
Definition ARDUCAM_64MP_TEST_PATTERN_COLOUR_MAX : Z := 0x0fff.
Definition ARDUCAM_64MP_TEST_PATTERN_COLOUR_STEP : Z := 1.

Definition ARDUCAM_64MP_EMBEDDED_LINE_WIDTH : Z := 11560 * 3.
Definition ARDUCAM_64MP_NUM_EMBEDDED_LINES : Z := 1.

Definition ARDUCAM_64MP_PIXEL_ARRAY_LEFT : Z := 48.
Definition ARDUCAM_64MP_PIXEL_ARRAY_TOP : Z := 40.
Definition ARDUCAM_64MP_PIXEL_ARRAY_WIDTH : Z := 9248.
Definition ARDUCAM_64MP_PIXEL_ARRAY_HEIGHT : Z := 6944.

(** ** The I2C adapter

    The byte transport is a collaborator of the driver, not part of it.  It
    is modelled by its observable behaviour: each call of
    [i2c_master_send] puts one message on the wire and returns either the
    number of bytes sent or something else (a negative errno, a short
    count).  [script] holds the return values the adapter will give to the
    coming calls (when it is exhausted every transfer completes); [trace]
    records every transfer attempted so far, oldest first. *)

Record i2c_event := mk_event {
  ev_buf : list Z;     (* the bytes handed to the adapter *)
  ev_ret : Z           (* what i2c_master_send returned *)
}.

Record i2c_client := mk_client {
  script : list Z;
  trace : list i2c_event
}.

Definition i2c_master_send (c : i2c_client) (buf : list Z) : Z * i2c_client :=
  match script c with
  | [] =>
      let r := Z.of_nat (length buf) in
      (r, {| script := []; trace := trace c ++ [mk_event buf r] |})
  | r :: rest =>
      (r, {| script := rest; trace := trace c ++ [mk_event buf r] |})
  end.

(** An event whose return value is the message length reached the device. *)
Definition ev_ok (e : i2c_event) : bool :=
  ev_ret e =? Z.of_nat (length (ev_buf e)).

(** The messages the device has taken, in order. *)
Definition applied (t : list i2c_event) : list (list Z) :=
  map ev_buf (filter ev_ok t).

(** ** Byte order helpers ([asm/unaligned.h]) *)

Definition put_unaligned_be16 (v : Z) : list Z :=
  [Z.land (Z.shiftr (u16 v) 8) 0xff; Z.land (u16 v) 0xff].

Definition put_unaligned_be32 (v : Z) : list Z :=
  [Z.land (Z.shiftr (u32 v) 24) 0xff; Z.land (Z.shiftr (u32 v) 16) 0xff;
   Z.land (Z.shiftr (u32 v) 8) 0xff; Z.land (u32 v) 0xff].

(** ** Static data: register lists and the mode table *)

Record arducam_64mp_reg := mk_reg {
  address : Z;      (* u16 *)
  reg_val : Z       (* u8, the field [val] of the C struct *)
}.

Record arducam_64mp_reg_list := mk_reg_list {
  num_of_regs : Z;
  regs : list arducam_64mp_reg
}.

Record v4l2_rect := mk_rect {
  r_left : Z; r_top : Z; r_width : Z; r_height : Z
}.

Record v4l2_fract := mk_fract {
  numerator : Z;    (* u32 *)
  denominator : Z   (* u32 *)
}.

(** Mode : resolution and related config & values. *)
Record arducam_64mp_mode := mk_mode {
  width : Z;
  height : Z;
  line_length_pix : Z;
  crop : v4l2_rect;
  timeperframe_default : v4l2_fract;
  reg_list : arducam_64mp_reg_list
}.

(** [ARRAY_SIZE] of a table. *)
Definition ARRAY_SIZE {A : Type} (l : list A) : Z := Z.of_nat (length l).

Definition mode_common_regs : list arducam_64mp_reg :=
  [mk_reg 0x0100 0x00; mk_reg 0x0136 0x18; mk_reg 0x0137 0x00; mk_reg 0x33f0 0x01;
   mk_reg 0x33f1 0x03; mk_reg 0x0111 0x02; mk_reg 0x3062 0x00; mk_reg 0x3063 0x30;
   mk_reg 0x3076 0x00; mk_reg 0x3077 0x30; mk_reg 0x1f06 0x06; mk_reg 0x1f07 0x82;
   mk_reg 0x1f04 0x71; mk_reg 0x1f05 0x01; mk_reg 0x1f08 0x01; mk_reg 0x5bfe 0x14;
   mk_reg 0x5c0d 0x2d; mk_reg 0x5c1c 0x30; mk_reg 0x5c2b 0x32; mk_reg 0x5c37 0x2e;
   mk_reg 0x5c40 0x30; mk_reg 0x5c50 0x14; mk_reg 0x5c5f 0x28; mk_reg 0x5c6e 0x28;
   mk_reg 0x5c7d 0x32; mk_reg 0x5c89 0x37; mk_reg 0x5c92 0x56; mk_reg 0x5bfc 0x12;
   mk_reg 0x5c0b 0x2a; mk_reg 0x5c1a 0x2c; mk_reg 0x5c29 0x2f; mk_reg 0x5c36 0x2e;
   mk_reg 0x5c3f 0x2e; mk_reg 0x5c4e 0x06; mk_reg 0x5c5d 0x1e; mk_reg 0x5c6c 0x20;
   mk_reg 0x5c7b 0x1e; mk_reg 0x5c88 0x32; mk_reg 0x5c91 0x32; mk_reg 0x5c02 0x14;
   mk_reg 0x5c11 0x2f; mk_reg 0x5c20 0x32; mk_reg 0x5c2f 0x34; mk_reg 0x5c39 0x31;
   mk_reg 0x5c42 0x31; mk_reg 0x5c8b 0x28; mk_reg 0x5c94 0x28; mk_reg 0x5c00 0x10;
   mk_reg 0x5c0f 0x2c; mk_reg 0x5c1e 0x2e; mk_reg 0x5c2d 0x32; mk_reg 0x5c38 0x2e;
   mk_reg 0x5c41 0x2b; mk_reg 0x5c61 0x0a; mk_reg 0x5c70 0x0a; mk_reg 0x5c7f 0x0a;
   mk_reg 0x5c8a 0x1e; mk_reg 0x5c93 0x2a; mk_reg 0x5bfa 0x2b; mk_reg 0x5c09 0x2d;
   mk_reg 0x5c18 0x2e; mk_reg 0x5c27 0x30; mk_reg 0x5c5b 0x28; mk_reg 0x5c6a 0x22;
   mk_reg 0x5c79 0x42; mk_reg 0x5bfb 0x2c; mk_reg 0x5c0a 0x2f; mk_reg 0x5c19 0x2e;
   mk_reg 0x5c28 0x2e; mk_reg 0x5c4d 0x20; mk_reg 0x5c5c 0x1e; mk_reg 0x5c6b 0x32;
   mk_reg 0x5c7a 0x32; mk_reg 0x5bfd 0x30; mk_reg 0x5c0c 0x32; mk_reg 0x5c1b 0x2e;
   mk_reg 0x5c2a 0x30; mk_reg 0x5c4f 0x28; mk_reg 0x5c5e 0x32; mk_reg 0x5c6d 0x37;
   mk_reg 0x5c7c 0x56; mk_reg 0x5bff 0x2e; mk_reg 0x5c0e 0x32; mk_reg 0x5c1d 0x2e;
   mk_reg 0x5c2c 0x2b; mk_reg 0x5c51 0x0a; mk_reg 0x5c60 0x0a; mk_reg 0x5c6f 0x1e;
   mk_reg 0x5c7e 0x2a; mk_reg 0x5c01 0x32; mk_reg 0x5c10 0x34; mk_reg 0x5c1f 0x31;
   mk_reg 0x5c2e 0x31; mk_reg 0x5c71 0x28; mk_reg 0x5c80 0x28; mk_reg 0x5c4c 0x2a;
   mk_reg 0x33f2 0x01; mk_reg 0x1f04 0x73; mk_reg 0x1f05 0x01; mk_reg 0x5bfa 0x35;
   mk_reg 0x5c09 0x38; mk_reg 0x5c18 0x3a; mk_reg 0x5c27 0x38; mk_reg 0x5c5b 0x25;
   mk_reg 0x5c6a 0x24; mk_reg 0x5c79 0x47; mk_reg 0x5bfc 0x15; mk_reg 0x5c0b 0x2e;
   mk_reg 0x5c1a 0x36; mk_reg 0x5c29 0x38; mk_reg 0x5c36 0x36; mk_reg 0x5c3f 0x36;
   mk_reg 0x5c4e 0x0b; mk_reg 0x5c5d 0x20; mk_reg 0x5c6c 0x2a; mk_reg 0x5c7b 0x25;
   mk_reg 0x5c88 0x25; mk_reg 0x5c91 0x22; mk_reg 0x5bfe 0x15; mk_reg 0x5c0d 0x32;
   mk_reg 0x5c1c 0x36; mk_reg 0x5c2b 0x36; mk_reg 0x5c37 0x3a; mk_reg 0x5c40 0x39;
   mk_reg 0x5c50 0x06; mk_reg 0x5c5f 0x22; mk_reg 0x5c6e 0x23; mk_reg 0x5c7d 0x2e;
   mk_reg 0x5c89 0x44; mk_reg 0x5c92 0x51; mk_reg 0x5d7f 0x0a; mk_reg 0x5c00 0x17;
   mk_reg 0x5c0f 0x36; mk_reg 0x5c1e 0x38; mk_reg 0x5c2d 0x3c; mk_reg 0x5c38 0x38;
   mk_reg 0x5c41 0x36; mk_reg 0x5c52 0x0a; mk_reg 0x5c61 0x21; mk_reg 0x5c70 0x23;
   mk_reg 0x5c7f 0x1b; mk_reg 0x5c8a 0x22; mk_reg 0x5c93 0x20; mk_reg 0x5c02 0x1a;
   mk_reg 0x5c11 0x3e; mk_reg 0x5c20 0x3f; mk_reg 0x5c2f 0x3d; mk_reg 0x5c39 0x3e;
   mk_reg 0x5c42 0x3c; mk_reg 0x5c54 0x02; mk_reg 0x5c63 0x12; mk_reg 0x5c72 0x14;
   mk_reg 0x5c81 0x24; mk_reg 0x5c8b 0x1c; mk_reg 0x5c94 0x4e; mk_reg 0x5d8a 0x09;
   mk_reg 0x5bfb 0x36; mk_reg 0x5c0a 0x38; mk_reg 0x5c19 0x36; mk_reg 0x5c28 0x36;
   mk_reg 0x5c4d 0x2a; mk_reg 0x5c5c 0x25; mk_reg 0x5c6b 0x25; mk_reg 0x5c7a 0x22;
   mk_reg 0x5bfd 0x36; mk_reg 0x5c0c 0x36; mk_reg 0x5c1b 0x3a; mk_reg 0x5c2a 0x39;
   mk_reg 0x5c4f 0x23; mk_reg 0x5c5e 0x2e; mk_reg 0x5c6d 0x44; mk_reg 0x5c7c 0x51;
   mk_reg 0x5d63 0x0a; mk_reg 0x5bff 0x38; mk_reg 0x5c0e 0x3c; mk_reg 0x5c1d 0x38;
   mk_reg 0x5c2c 0x36; mk_reg 0x5c51 0x23; mk_reg 0x5c60 0x1b; mk_reg 0x5c6f 0x22;
   mk_reg 0x5c7e 0x20; mk_reg 0x5c01 0x3f; mk_reg 0x5c10 0x3d; mk_reg 0x5c1f 0x3e;
   mk_reg 0x5c2e 0x3c; mk_reg 0x5c53 0x14; mk_reg 0x5c62 0x24; mk_reg 0x5c71 0x1c;
   mk_reg 0x5c80 0x4e; mk_reg 0x5d76 0x09; mk_reg 0x5c4c 0x2a; mk_reg 0x33f2 0x02;
   mk_reg 0x1f04 0x78; mk_reg 0x1f05 0x01; mk_reg 0x5bfa 0x37; mk_reg 0x5c09 0x36;
   mk_reg 0x5c18 0x39; mk_reg 0x5c27 0x38; mk_reg 0x5c5b 0x27; mk_reg 0x5c6a 0x2b;
   mk_reg 0x5c79 0x48; mk_reg 0x5bfc 0x16; mk_reg 0x5c0b 0x32; mk_reg 0x5c1a 0x33;
   mk_reg 0x5c29 0x37; mk_reg 0x5c36 0x36; mk_reg 0x5c3f 0x35; mk_reg 0x5c4e 0x0d;
   mk_reg 0x5c5d 0x2d; mk_reg 0x5c6c 0x23; mk_reg 0x5c7b 0x25; mk_reg 0x5c88 0x31;
   mk_reg 0x5c91 0x2e; mk_reg 0x5bfe 0x15; mk_reg 0x5c0d 0x31; mk_reg 0x5c1c 0x35;
   mk_reg 0x5c2b 0x36; mk_reg 0x5c37 0x35; mk_reg 0x5c40 0x37; mk_reg 0x5c50 0x0f;
   mk_reg 0x5c5f 0x31; mk_reg 0x5c6e 0x30; mk_reg 0x5c7d 0x33; mk_reg 0x5c89 0x36;
   mk_reg 0x5c92 0x5b; mk_reg 0x5c00 0x13; mk_reg 0x5c0f 0x2f; mk_reg 0x5c1e 0x2e;
   mk_reg 0x5c2d 0x34; mk_reg 0x5c38 0x33; mk_reg 0x5c41 0x32; mk_reg 0x5c52 0x0d;
   mk_reg 0x5c61 0x27; mk_reg 0x5c70 0x28; mk_reg 0x5c7f 0x1f; mk_reg 0x5c8a 0x25;
   mk_reg 0x5c93 0x2c; mk_reg 0x5c02 0x15; mk_reg 0x5c11 0x36; mk_reg 0x5c20 0x39;
   mk_reg 0x5c2f 0x3a; mk_reg 0x5c39 0x37; mk_reg 0x5c42 0x37; mk_reg 0x5c54 0x04;
   mk_reg 0x5c63 0x1c; mk_reg 0x5c72 0x1c; mk_reg 0x5c81 0x1c; mk_reg 0x5c8b 0x28;
   mk_reg 0x5c94 0x24; mk_reg 0x5bfb 0x33; mk_reg 0x5c0a 0x37; mk_reg 0x5c19 0x36;
   mk_reg 0x5c28 0x35; mk_reg 0x5c4d 0x23; mk_reg 0x5c5c 0x25; mk_reg 0x5c6b 0x31;
   mk_reg 0x5c7a 0x2e; mk_reg 0x5bfd 0x35; mk_reg 0x5c0c 0x36; mk_reg 0x5c1b 0x35;
   mk_reg 0x5c2a 0x37; mk_reg 0x5c4f 0x30; mk_reg 0x5c5e 0x33; mk_reg 0x5c6d 0x36;
   mk_reg 0x5c7c 0x5b; mk_reg 0x5bff 0x2e; mk_reg 0x5c0e 0x34; mk_reg 0x5c1d 0x33;
   mk_reg 0x5c2c 0x32; mk_reg 0x5c51 0x28; mk_reg 0x5c60 0x1f; mk_reg 0x5c6f 0x25;
   mk_reg 0x5c7e 0x2c; mk_reg 0x5c01 0x39; mk_reg 0x5c10 0x3a; mk_reg 0x5c1f 0x37;
   mk_reg 0x5c2e 0x37; mk_reg 0x5c53 0x1c; mk_reg 0x5c62 0x1c; mk_reg 0x5c71 0x28;
   mk_reg 0x5c80 0x24; mk_reg 0x5c4c 0x2c; mk_reg 0x33f2 0x03; mk_reg 0x1f08 0x00;
   mk_reg 0x32c8 0x00; mk_reg 0x4017 0x40; mk_reg 0x40a2 0x01; mk_reg 0x40ac 0x01;
   mk_reg 0x4328 0x00; mk_reg 0x4329 0xb3; mk_reg 0x4e15 0x10; mk_reg 0x4e19 0x2f;
   mk_reg 0x4e21 0x0f; mk_reg 0x4e2f 0x10; mk_reg 0x4e3d 0x10; mk_reg 0x4e41 0x2f;
   mk_reg 0x4e57 0x29; mk_reg 0x4ffb 0x2f; mk_reg 0x5011 0x24; mk_reg 0x501d 0x03;
   mk_reg 0x505f 0x41; mk_reg 0x5060 0xdf; mk_reg 0x5065 0xdf; mk_reg 0x5066 0x37;
   mk_reg 0x506e 0x57; mk_reg 0x5070 0xc5; mk_reg 0x5072 0x57; mk_reg 0x5075 0x53;
   mk_reg 0x5076 0x55; mk_reg 0x5077 0xc1; mk_reg 0x5078 0xc3; mk_reg 0x5079 0x53;
   mk_reg 0x507a 0x55; mk_reg 0x507d 0x57; mk_reg 0x507e 0xdf; mk_reg 0x507f 0xc5;
   mk_reg 0x5081 0x57; mk_reg 0x53c8 0x01; mk_reg 0x53c9 0xe2; mk_reg 0x53ca 0x03;
   mk_reg 0x5422 0x7a; mk_reg 0x548e 0x40; mk_reg 0x5497 0x5e; mk_reg 0x54a1 0x40;
   mk_reg 0x54a9 0x40; mk_reg 0x54b2 0x5e; mk_reg 0x54bc 0x40; mk_reg 0x57c6 0x00;
   mk_reg 0x583d 0x0e; mk_reg 0x583e 0x0e; mk_reg 0x583f 0x0e; mk_reg 0x5840 0x0e;
   mk_reg 0x5841 0x0e; mk_reg 0x5842 0x0e; mk_reg 0x5900 0x12; mk_reg 0x5901 0x12;
   mk_reg 0x5902 0x14; mk_reg 0x5903 0x12; mk_reg 0x5904 0x14; mk_reg 0x5905 0x12;
   mk_reg 0x5906 0x14; mk_reg 0x5907 0x12; mk_reg 0x590f 0x12; mk_reg 0x5911 0x12;
   mk_reg 0x5913 0x12; mk_reg 0x591c 0x12; mk_reg 0x591e 0x12; mk_reg 0x5920 0x12;
   mk_reg 0x5948 0x08; mk_reg 0x5949 0x08; mk_reg 0x594a 0x08; mk_reg 0x594b 0x08;
   mk_reg 0x594c 0x08; mk_reg 0x594d 0x08; mk_reg 0x594e 0x08; mk_reg 0x594f 0x08;
   mk_reg 0x595c 0x08; mk_reg 0x595e 0x08; mk_reg 0x5960 0x08; mk_reg 0x596e 0x08;
   mk_reg 0x5970 0x08; mk_reg 0x5972 0x08; mk_reg 0x597e 0x0f; mk_reg 0x597f 0x0f;
   mk_reg 0x599a 0x0f; mk_reg 0x59de 0x08; mk_reg 0x59df 0x08; mk_reg 0x59fa 0x08;
   mk_reg 0x5a59 0x22; mk_reg 0x5a5b 0x22; mk_reg 0x5a5d 0x1a; mk_reg 0x5a5f 0x22;
   mk_reg 0x5a61 0x1a; mk_reg 0x5a63 0x22; mk_reg 0x5a65 0x1a; mk_reg 0x5a67 0x22;
   mk_reg 0x5a77 0x22; mk_reg 0x5a7b 0x22; mk_reg 0x5a7f 0x22; mk_reg 0x5a91 0x22;
   mk_reg 0x5a95 0x22; mk_reg 0x5a99 0x22; mk_reg 0x5ae9 0x66; mk_reg 0x5aeb 0x66;
   mk_reg 0x5aed 0x5e; mk_reg 0x5aef 0x66; mk_reg 0x5af1 0x5e; mk_reg 0x5af3 0x66;
   mk_reg 0x5af5 0x5e; mk_reg 0x5af7 0x66; mk_reg 0x5b07 0x66; mk_reg 0x5b0b 0x66;
   mk_reg 0x5b0f 0x66; mk_reg 0x5b21 0x66; mk_reg 0x5b25 0x66; mk_reg 0x5b29 0x66;
   mk_reg 0x5b79 0x46; mk_reg 0x5b7b 0x3e; mk_reg 0x5b7d 0x3e; mk_reg 0x5b89 0x46;
   mk_reg 0x5b8b 0x46; mk_reg 0x5b97 0x46; mk_reg 0x5b99 0x46; mk_reg 0x5c9e 0x0a;
   mk_reg 0x5c9f 0x08; mk_reg 0x5ca0 0x0a; mk_reg 0x5ca1 0x0a; mk_reg 0x5ca2 0x0b;
   mk_reg 0x5ca3 0x06; mk_reg 0x5ca4 0x04; mk_reg 0x5ca5 0x06; mk_reg 0x5ca6 0x04;
   mk_reg 0x5cad 0x0b; mk_reg 0x5cae 0x0a; mk_reg 0x5caf 0x0c; mk_reg 0x5cb0 0x0a;
   mk_reg 0x5cb1 0x0b; mk_reg 0x5cb2 0x08; mk_reg 0x5cb3 0x06; mk_reg 0x5cb4 0x08;
   mk_reg 0x5cb5 0x04; mk_reg 0x5cbc 0x0b; mk_reg 0x5cbd 0x09; mk_reg 0x5cbe 0x08;
   mk_reg 0x5cbf 0x09; mk_reg 0x5cc0 0x0a; mk_reg 0x5cc1 0x08; mk_reg 0x5cc2 0x06;
   mk_reg 0x5cc3 0x08; mk_reg 0x5cc4 0x06; mk_reg 0x5ccb 0x0a; mk_reg 0x5ccc 0x09;
   mk_reg 0x5ccd 0x0a; mk_reg 0x5cce 0x08; mk_reg 0x5ccf 0x0a; mk_reg 0x5cd0 0x08;
   mk_reg 0x5cd1 0x08; mk_reg 0x5cd2 0x08; mk_reg 0x5cd3 0x08; mk_reg 0x5cda 0x09;
   mk_reg 0x5cdb 0x09; mk_reg 0x5cdc 0x08; mk_reg 0x5cdd 0x08; mk_reg 0x5ce3 0x09;
   mk_reg 0x5ce4 0x08; mk_reg 0x5ce5 0x08; mk_reg 0x5ce6 0x08; mk_reg 0x5cf4 0x04;
   mk_reg 0x5d04 0x04; mk_reg 0x5d13 0x06; mk_reg 0x5d22 0x06; mk_reg 0x5d23 0x04;
   mk_reg 0x5d2e 0x06; mk_reg 0x5d37 0x06; mk_reg 0x5d6f 0x09; mk_reg 0x5d72 0x0f;
   mk_reg 0x5d88 0x0f; mk_reg 0x5de6 0x01; mk_reg 0x5de7 0x01; mk_reg 0x5de8 0x01;
   mk_reg 0x5de9 0x01; mk_reg 0x5dea 0x01; mk_reg 0x5deb 0x01; mk_reg 0x5dec 0x01;
   mk_reg 0x5df2 0x01; mk_reg 0x5df3 0x01; mk_reg 0x5df4 0x01; mk_reg 0x5df5 0x01;
   mk_reg 0x5df6 0x01; mk_reg 0x5df7 0x01; mk_reg 0x5df8 0x01; mk_reg 0x5dfe 0x01;
   mk_reg 0x5dff 0x01; mk_reg 0x5e00 0x01; mk_reg 0x5e01 0x01; mk_reg 0x5e02 0x01;
   mk_reg 0x5e03 0x01; mk_reg 0x5e04 0x01; mk_reg 0x5e0a 0x01; mk_reg 0x5e0b 0x01;
   mk_reg 0x5e0c 0x01; mk_reg 0x5e0d 0x01; mk_reg 0x5e0e 0x01; mk_reg 0x5e0f 0x01;
   mk_reg 0x5e10 0x01; mk_reg 0x5e16 0x01; mk_reg 0x5e17 0x01; mk_reg 0x5e18 0x01;
   mk_reg 0x5e1e 0x01; mk_reg 0x5e1f 0x01; mk_reg 0x5e20 0x01; mk_reg 0x5e6e 0x5a;
   mk_reg 0x5e6f 0x46; mk_reg 0x5e70 0x46; mk_reg 0x5e71 0x3c; mk_reg 0x5e72 0x3c;
   mk_reg 0x5e73 0x28; mk_reg 0x5e74 0x28; mk_reg 0x5e75 0x6e; mk_reg 0x5e76 0x6e;
   mk_reg 0x5e81 0x46; mk_reg 0x5e83 0x3c; mk_reg 0x5e85 0x28; mk_reg 0x5e87 0x6e;
   mk_reg 0x5e92 0x46; mk_reg 0x5e94 0x3c; mk_reg 0x5e96 0x28; mk_reg 0x5e98 0x6e;
   mk_reg 0x5ecb 0x26; mk_reg 0x5ecc 0x26; mk_reg 0x5ecd 0x26; mk_reg 0x5ece 0x26;
   mk_reg 0x5ed2 0x26; mk_reg 0x5ed3 0x26; mk_reg 0x5ed4 0x26; mk_reg 0x5ed5 0x26;
   mk_reg 0x5ed9 0x26; mk_reg 0x5eda 0x26; mk_reg 0x5ee5 0x08; mk_reg 0x5ee6 0x08;
   mk_reg 0x5ee7 0x08; mk_reg 0x6006 0x14; mk_reg 0x6007 0x14; mk_reg 0x6008 0x14;
   mk_reg 0x6009 0x14; mk_reg 0x600a 0x14; mk_reg 0x600b 0x14; mk_reg 0x600c 0x14;
   mk_reg 0x600d 0x22; mk_reg 0x600e 0x22; mk_reg 0x600f 0x14; mk_reg 0x601a 0x14;
   mk_reg 0x601b 0x14; mk_reg 0x601c 0x14; mk_reg 0x601d 0x14; mk_reg 0x601e 0x14;
   mk_reg 0x601f 0x14; mk_reg 0x6020 0x14; mk_reg 0x6021 0x22; mk_reg 0x6022 0x22;
   mk_reg 0x6023 0x14; mk_reg 0x602e 0x14; mk_reg 0x602f 0x14; mk_reg 0x6030 0x14;
   mk_reg 0x6031 0x22; mk_reg 0x6039 0x14; mk_reg 0x603a 0x14; mk_reg 0x603b 0x14;
   mk_reg 0x603c 0x22; mk_reg 0x6132 0x0f; mk_reg 0x6133 0x0f; mk_reg 0x6134 0x0f;
   mk_reg 0x6135 0x0f; mk_reg 0x6136 0x0f; mk_reg 0x6137 0x0f; mk_reg 0x6138 0x0f;
   mk_reg 0x613e 0x0f; mk_reg 0x613f 0x0f; mk_reg 0x6140 0x0f; mk_reg 0x6141 0x0f;
   mk_reg 0x6142 0x0f; mk_reg 0x6143 0x0f; mk_reg 0x6144 0x0f; mk_reg 0x614a 0x0f;
   mk_reg 0x614b 0x0f; mk_reg 0x614c 0x0f; mk_reg 0x614d 0x0f; mk_reg 0x614e 0x0f;
   mk_reg 0x614f 0x0f; mk_reg 0x6150 0x0f; mk_reg 0x6156 0x0f; mk_reg 0x6157 0x0f;
   mk_reg 0x6158 0x0f; mk_reg 0x6159 0x0f; mk_reg 0x615a 0x0f; mk_reg 0x615b 0x0f;
   mk_reg 0x615c 0x0f; mk_reg 0x6162 0x0f; mk_reg 0x6163 0x0f; mk_reg 0x6164 0x0f;
   mk_reg 0x616a 0x0f; mk_reg 0x616b 0x0f; mk_reg 0x616c 0x0f; mk_reg 0x6226 0x00;
   mk_reg 0x84f8 0x01; mk_reg 0x8501 0x00; mk_reg 0x8502 0x01; mk_reg 0x8505 0x00;
   mk_reg 0x8744 0x00; mk_reg 0x883c 0x01; mk_reg 0x8845 0x00; mk_reg 0x8846 0x01;
   mk_reg 0x8849 0x00; mk_reg 0x9004 0x1f; mk_reg 0x9064 0x4d; mk_reg 0x9065 0x3d;
   mk_reg 0x922e 0x91; mk_reg 0x922f 0x2a; mk_reg 0x9230 0xe2; mk_reg 0x9231 0xc0;
   mk_reg 0x9232 0xe2; mk_reg 0x9233 0xc1; mk_reg 0x9234 0xe2; mk_reg 0x9235 0xc2;
   mk_reg 0x9236 0xe2; mk_reg 0x9237 0xc3; mk_reg 0x9238 0xe2; mk_reg 0x9239 0xd4;
   mk_reg 0x923a 0xe2; mk_reg 0x923b 0xd5; mk_reg 0x923c 0x90; mk_reg 0x923d 0x64;
   mk_reg 0xb0b9 0x10; mk_reg 0xbc76 0x00; mk_reg 0xbc77 0x00; mk_reg 0xbc78 0x00;
   mk_reg 0xbc79 0x00; mk_reg 0xbc7b 0x28; mk_reg 0xbc7c 0x00; mk_reg 0xbc7d 0x00;
   mk_reg 0xbc7f 0xc0; mk_reg 0xc6b9 0x01; mk_reg 0xecb5 0x04; mk_reg 0xecbf 0x04;
   mk_reg 0x0112 0x0a; mk_reg 0x0113 0x0a; mk_reg 0x0114 0x01; mk_reg 0x0301 0x08;
   mk_reg 0x0303 0x02; mk_reg 0x0305 0x04; mk_reg 0x0306 0x01; mk_reg 0x0307 0x2c;
   mk_reg 0x030b 0x02; mk_reg 0x030d 0x04; mk_reg 0x030e 0x01; mk_reg 0x030f 0x30;
   mk_reg 0x0310 0x01; mk_reg 0x4018 0x00; mk_reg 0x4019 0x00; mk_reg 0x401a 0x00;
   mk_reg 0x401b 0x00; mk_reg 0x3400 0x01; mk_reg 0x3092 0x01; mk_reg 0x3093 0x00;
   mk_reg 0x0350 0x00; mk_reg 0x3419 0x00].

Definition mode_9152x6944_regs : list arducam_64mp_reg :=
  [mk_reg 0x0342 0xb6; mk_reg 0x0343 0xb2; mk_reg 0x0340 0x1b; mk_reg 0x0341 0x76;
   mk_reg 0x0344 0x00; mk_reg 0x0345 0x00; mk_reg 0x0346 0x00; mk_reg 0x0347 0x00;
   mk_reg 0x0348 0x24; mk_reg 0x0349 0x1f; mk_reg 0x034a 0x1b; mk_reg 0x034b 0x1f;
   mk_reg 0x0900 0x00; mk_reg 0x0901 0x11; mk_reg 0x0902 0x0a; mk_reg 0x30d8 0x00;
   mk_reg 0x3200 0x01; mk_reg 0x3201 0x01; mk_reg 0x0408 0x00; mk_reg 0x0409 0x00;
   mk_reg 0x040a 0x00; mk_reg 0x040b 0x00; mk_reg 0x040c 0x23; mk_reg 0x040d 0xc0;
   mk_reg 0x040e 0x1b; mk_reg 0x040f 0x20; mk_reg 0x034c 0x23; mk_reg 0x034d 0xc0;
   mk_reg 0x034e 0x1b; mk_reg 0x034f 0x20; mk_reg 0x30d9 0x01; mk_reg 0x32d5 0x01;
   mk_reg 0x32d6 0x00; mk_reg 0x401e 0x00; mk_reg 0x40b8 0x04; mk_reg 0x40b9 0x20;
   mk_reg 0x40bc 0x02; mk_reg 0x40bd 0x58; mk_reg 0x40be 0x02; mk_reg 0x40bf 0x58;
   mk_reg 0x41a4 0x00; mk_reg 0x5a09 0x01; mk_reg 0x5a17 0x01; mk_reg 0x5a25 0x01;
   mk_reg 0x5a33 0x01; mk_reg 0x98d7 0x14; mk_reg 0x98d8 0x14; mk_reg 0x98d9 0x00;
   mk_reg 0x99c4 0x00; mk_reg 0x0202 0x03; mk_reg 0x0203 0xe8; mk_reg 0x0204 0x00;
   mk_reg 0x0205 0x00; mk_reg 0x020e 0x01; mk_reg 0x020f 0x00; mk_reg 0x341a 0x00;
   mk_reg 0x341b 0x00; mk_reg 0x341c 0x00; mk_reg 0x341d 0x00; mk_reg 0x341e 0x02;
   mk_reg 0x341f 0x3c; mk_reg 0x3420 0x02; mk_reg 0x3421 0x42].

Definition mode_8000x6000_regs : list arducam_64mp_reg :=
  [mk_reg 0x0342 0xb6; mk_reg 0x0343 0xb2; mk_reg 0x0340 0x19; mk_reg 0x0341 0x0e;
   mk_reg 0x0344 0x02; mk_reg 0x0345 0x70; mk_reg 0x0346 0x01; mk_reg 0x0347 0xd8;
   mk_reg 0x0348 0x21; mk_reg 0x0349 0xaf; mk_reg 0x034a 0x19; mk_reg 0x034b 0x47;
   mk_reg 0x0900 0x00; mk_reg 0x0901 0x11; mk_reg 0x0902 0x0a; mk_reg 0x30d8 0x00;
   mk_reg 0x3200 0x01; mk_reg 0x3201 0x01; mk_reg 0x0408 0x00; mk_reg 0x0409 0x00;
   mk_reg 0x040a 0x00; mk_reg 0x040b 0x00; mk_reg 0x040c 0x1f; mk_reg 0x040d 0x40;
   mk_reg 0x040e 0x17; mk_reg 0x040f 0x70; mk_reg 0x034c 0x1f; mk_reg 0x034d 0x40;
   mk_reg 0x034e 0x17; mk_reg 0x034f 0x70; mk_reg 0x30d9 0x01; mk_reg 0x32d5 0x01;
   mk_reg 0x32d6 0x00; mk_reg 0x401e 0x00; mk_reg 0x40b8 0x04; mk_reg 0x40b9 0x20;
   mk_reg 0x40bc 0x02; mk_reg 0x40bd 0x58; mk_reg 0x40be 0x02; mk_reg 0x40bf 0x58;
   mk_reg 0x41a4 0x00; mk_reg 0x5a09 0x01; mk_reg 0x5a17 0x01; mk_reg 0x5a25 0x01;
   mk_reg 0x5a33 0x01; mk_reg 0x98d7 0x14; mk_reg 0x98d8 0x14; mk_reg 0x98d9 0x00;
   mk_reg 0x99c4 0x00; mk_reg 0x0202 0x03; mk_reg 0x0203 0xe8; mk_reg 0x0204 0x00;
   mk_reg 0x0205 0x00; mk_reg 0x020e 0x01; mk_reg 0x020f 0x00; mk_reg 0x341a 0x00;
   mk_reg 0x341b 0x00; mk_reg 0x341c 0x00; mk_reg 0x341d 0x00; mk_reg 0x341e 0x01;
   mk_reg 0x341f 0xf4; mk_reg 0x3420 0x01; mk_reg 0x3421 0xf4].

Definition mode_4624x3472_regs : list arducam_64mp_reg :=
  [mk_reg 0x0342 0x63; mk_reg 0x0343 0x97; mk_reg 0x0340 0x0d; mk_reg 0x0341 0xca;
   mk_reg 0x0344 0x00; mk_reg 0x0345 0x00; mk_reg 0x0346 0x00; mk_reg 0x0347 0x00;
   mk_reg 0x0348 0x24; mk_reg 0x0349 0x1f; mk_reg 0x034a 0x1b; mk_reg 0x034b 0x1f;
   mk_reg 0x0900 0x01; mk_reg 0x0901 0x22; mk_reg 0x0902 0x08; mk_reg 0x30d8 0x04;
   mk_reg 0x3200 0x41; mk_reg 0x3201 0x41; mk_reg 0x0408 0x00; mk_reg 0x0409 0x00;
   mk_reg 0x040a 0x00; mk_reg 0x040b 0x00; mk_reg 0x040c 0x12; mk_reg 0x040d 0x10;
   mk_reg 0x040e 0x0d; mk_reg 0x040f 0x90; mk_reg 0x034c 0x12; mk_reg 0x034d 0x10;
   mk_reg 0x034e 0x0d; mk_reg 0x034f 0x90; mk_reg 0x30d9 0x00; mk_reg 0x32d5 0x00;
   mk_reg 0x32d6 0x00; mk_reg 0x401e 0x00; mk_reg 0x40b8 0x01; mk_reg 0x40b9 0x2c;
   mk_reg 0x40bc 0x01; mk_reg 0x40bd 0x18; mk_reg 0x40be 0x00; mk_reg 0x40bf 0x00;
   mk_reg 0x41a4 0x00; mk_reg 0x5a09 0x01; mk_reg 0x5a17 0x01; mk_reg 0x5a25 0x01;
   mk_reg 0x5a33 0x01; mk_reg 0x98d7 0xb4; mk_reg 0x98d8 0x8c; mk_reg 0x98d9 0x0a;
   mk_reg 0x99c4 0x16; mk_reg 0x341a 0x00; mk_reg 0x341b 0x00; mk_reg 0x341c 0x00;
   mk_reg 0x341d 0x00; mk_reg 0x341e 0x01; mk_reg 0x341f 0x21; mk_reg 0x3420 0x01;
   mk_reg 0x3421 0x21].

Definition mode_3840x2160_regs : list arducam_64mp_reg :=
  [mk_reg 0x0342 0x4e; mk_reg 0x0343 0xb7; mk_reg 0x0340 0x08; mk_reg 0x0341 0xb9;
   mk_reg 0x0344 0x03; mk_reg 0x0345 0x10; mk_reg 0x0346 0x05; mk_reg 0x0347 0x20;
   mk_reg 0x0348 0x21; mk_reg 0x0349 0x0f; mk_reg 0x034a 0x15; mk_reg 0x034b 0xff;
   mk_reg 0x0900 0x01; mk_reg 0x0901 0x22; mk_reg 0x0902 0x08; mk_reg 0x30d8 0x04;
   mk_reg 0x3200 0x41; mk_reg 0x3201 0x41; mk_reg 0x0408 0x00; mk_reg 0x0409 0x00;
   mk_reg 0x040a 0x00; mk_reg 0x040b 0x00; mk_reg 0x040c 0x0f; mk_reg 0x040d 0x00;
   mk_reg 0x040e 0x08; mk_reg 0x040f 0x70; mk_reg 0x034c 0x0f; mk_reg 0x034d 0x00;
   mk_reg 0x034e 0x08; mk_reg 0x034f 0x70; mk_reg 0x30d9 0x00; mk_reg 0x32d5 0x00;
   mk_reg 0x32d6 0x00; mk_reg 0x401e 0x00; mk_reg 0x40b8 0x01; mk_reg 0x40b9 0x2c;
   mk_reg 0x40bc 0x01; mk_reg 0x40bd 0x18; mk_reg 0x40be 0x00; mk_reg 0x40bf 0x00;
   mk_reg 0x41a4 0x00; mk_reg 0x5a09 0x01; mk_reg 0x5a17 0x01; mk_reg 0x5a25 0x01;
   mk_reg 0x5a33 0x01; mk_reg 0x98d7 0xb4; mk_reg 0x98d8 0x8c; mk_reg 0x98d9 0x0a;
   mk_reg 0x99c4 0x16; mk_reg 0x341a 0x00; mk_reg 0x341b 0x00; mk_reg 0x341c 0x00;
   mk_reg 0x341d 0x00; mk_reg 0x341e 0x00; mk_reg 0x341f 0xf0; mk_reg 0x3420 0x00;
   mk_reg 0x3421 0xb4].

Definition mode_2312x1736_regs : list arducam_64mp_reg :=
  [mk_reg 0x0342 0x33; mk_reg 0x0343 0x60; mk_reg 0x0340 0x08; mk_reg 0x0341 0xe9;
   mk_reg 0x0344 0x00; mk_reg 0x0345 0x00; mk_reg 0x0346 0x00; mk_reg 0x0347 0x00;
   mk_reg 0x0348 0x24; mk_reg 0x0349 0x1f; mk_reg 0x034a 0x1b; mk_reg 0x034b 0x1f;
   mk_reg 0x0900 0x01; mk_reg 0x0901 0x44; mk_reg 0x0902 0x08; mk_reg 0x30d8 0x04;
   mk_reg 0x3200 0x43; mk_reg 0x3201 0x43; mk_reg 0x0408 0x00; mk_reg 0x0409 0x00;
   mk_reg 0x040a 0x00; mk_reg 0x040b 0x00; mk_reg 0x040c 0x09; mk_reg 0x040d 0x08;
   mk_reg 0x040e 0x06; mk_reg 0x040f 0xc8; mk_reg 0x034c 0x09; mk_reg 0x034d 0x08;
   mk_reg 0x034e 0x06; mk_reg 0x034f 0xc8; mk_reg 0x30d9 0x00; mk_reg 0x32d5 0x00;
   mk_reg 0x32d6 0x00; mk_reg 0x401e 0x00; mk_reg 0x40b8 0x01; mk_reg 0x40b9 0x2c;
   mk_reg 0x40bc 0x01; mk_reg 0x40bd 0x18; mk_reg 0x40be 0x00; mk_reg 0x40bf 0x00;
   mk_reg 0x41a4 0x00; mk_reg 0x5a09 0x01; mk_reg 0x5a17 0x01; mk_reg 0x5a25 0x01;
   mk_reg 0x5a33 0x01; mk_reg 0x98d7 0xb4; mk_reg 0x98d8 0x8c; mk_reg 0x98d9 0x0a;
   mk_reg 0x99c4 0x16; mk_reg 0x341a 0x00; mk_reg 0x341b 0x00; mk_reg 0x341c 0x00;
   mk_reg 0x341d 0x00; mk_reg 0x341e 0x00; mk_reg 0x341f 0x90; mk_reg 0x3420 0x00;
   mk_reg 0x3421 0x90].

Definition mode_1920x1080_regs : list arducam_64mp_reg :=
  [mk_reg 0x0342 0x29; mk_reg 0x0343 0xe3; mk_reg 0x0340 0x05; mk_reg 0x0341 0x76;
   mk_reg 0x0344 0x03; mk_reg 0x0345 0x10; mk_reg 0x0346 0x05; mk_reg 0x0347 0x20;
   mk_reg 0x0348 0x21; mk_reg 0x0349 0x0f; mk_reg 0x034a 0x16; mk_reg 0x034b 0x0f;
   mk_reg 0x0900 0x01; mk_reg 0x0901 0x44; mk_reg 0x0902 0x08; mk_reg 0x30d8 0x04;
   mk_reg 0x3200 0x43; mk_reg 0x3201 0x43; mk_reg 0x0408 0x00; mk_reg 0x0409 0x00;
   mk_reg 0x040a 0x00; mk_reg 0x040b 0x00; mk_reg 0x040c 0x07; mk_reg 0x040d 0x80;
   mk_reg 0x040e 0x04; mk_reg 0x040f 0x38; mk_reg 0x034c 0x07; mk_reg 0x034d 0x80;
   mk_reg 0x034e 0x04; mk_reg 0x034f 0x38; mk_reg 0x30d9 0x00; mk_reg 0x32d5 0x00;
   mk_reg 0x32d6 0x00; mk_reg 0x401e 0x00; mk_reg 0x40b8 0x01; mk_reg 0x40b9 0x2c;
   mk_reg 0x40bc 0x01; mk_reg 0x40bd 0x18; mk_reg 0x40be 0x00; mk_reg 0x40bf 0x00;
   mk_reg 0x41a4 0x00; mk_reg 0x5a09 0x01; mk_reg 0x5a17 0x01; mk_reg 0x5a25 0x01;
   mk_reg 0x5a33 0x01; mk_reg 0x98d7 0xb4; mk_reg 0x98d8 0x8c; mk_reg 0x98d9 0x0a;
   mk_reg 0x99c4 0x16; mk_reg 0x341a 0x00; mk_reg 0x341b 0x00; mk_reg 0x341c 0x00;
   mk_reg 0x341d 0x00; mk_reg 0x341e 0x00; mk_reg 0x341f 0x78; mk_reg 0x3420 0x00;
   mk_reg 0x3421 0x5a].

Definition mode_1280x720_regs : list arducam_64mp_reg :=
  [mk_reg 0x0342 0x1b; mk_reg 0x0343 0x08; mk_reg 0x0340 0x04; mk_reg 0x0341 0x3b;
   mk_reg 0x0344 0x08; mk_reg 0x0345 0x10; mk_reg 0x0346 0x07; mk_reg 0x0347 0xf0;
   mk_reg 0x0348 0x1c; mk_reg 0x0349 0x0f; mk_reg 0x034a 0x13; mk_reg 0x034b 0x3f;
   mk_reg 0x0900 0x01; mk_reg 0x0901 0x44; mk_reg 0x0902 0x08; mk_reg 0x30d8 0x04;
   mk_reg 0x3200 0x43; mk_reg 0x3201 0x43; mk_reg 0x0408 0x00; mk_reg 0x0409 0x00;
   mk_reg 0x040a 0x00; mk_reg 0x040b 0x00; mk_reg 0x040c 0x05; mk_reg 0x040d 0x00;
   mk_reg 0x040e 0x02; mk_reg 0x040f 0xd0; mk_reg 0x034c 0x05; mk_reg 0x034d 0x00;
   mk_reg 0x034e 0x02; mk_reg 0x034f 0xd0; mk_reg 0x30d9 0x00; mk_reg 0x32d5 0x00;
   mk_reg 0x32d6 0x00; mk_reg 0x401e 0x00; mk_reg 0x40b8 0x01; mk_reg 0x40b9 0x2c;
   mk_reg 0x40bc 0x01; mk_reg 0x40bd 0x18; mk_reg 0x40be 0x00; mk_reg 0x40bf 0x00;
   mk_reg 0x41a4 0x00; mk_reg 0x5a09 0x01; mk_reg 0x5a17 0x01; mk_reg 0x5a25 0x01;
   mk_reg 0x5a33 0x01; mk_reg 0x98d7 0xb4; mk_reg 0x98d8 0x8c; mk_reg 0x98d9 0x0a;
   mk_reg 0x99c4 0x16; mk_reg 0x341a 0x00; mk_reg 0x341b 0x00; mk_reg 0x341c 0x00;
   mk_reg 0x341d 0x00; mk_reg 0x341e 0x00; mk_reg 0x341f 0x50; mk_reg 0x3420 0x00;
   mk_reg 0x3421 0x3c].

(** Mode configs. *)
Definition supported_modes : list arducam_64mp_mode :=
  [ {| width := 9152; height := 6944; line_length_pix := 0xb6b2;
       crop := {| r_left := ARDUCAM_64MP_PIXEL_ARRAY_LEFT;
                  r_top := ARDUCAM_64MP_PIXEL_ARRAY_TOP;
                  r_width := 9248; r_height := 6944 |};
       timeperframe_default := {| numerator := 100; denominator := 270 |};
       reg_list := {| num_of_regs := ARRAY_SIZE mode_9152x6944_regs;
                      regs := mode_9152x6944_regs |} |};
    {| width := 8000; height := 6000; line_length_pix := 0xb6b2;
       crop := {| r_left := ARDUCAM_64MP_PIXEL_ARRAY_LEFT + 624;
                  r_top := ARDUCAM_64MP_PIXEL_ARRAY_TOP + 472;
                  r_width := 9248; r_height := 6944 |};
       timeperframe_default := {| numerator := 100; denominator := 300 |};
       reg_list := {| num_of_regs := ARRAY_SIZE mode_8000x6000_regs;
                      regs := mode_8000x6000_regs |} |};
    {| width := 4624; height := 3472; line_length_pix := 0x6397;
       crop := {| r_left := ARDUCAM_64MP_PIXEL_ARRAY_LEFT;
                  r_top := ARDUCAM_64MP_PIXEL_ARRAY_TOP;
                  r_width := 9248; r_height := 6944 |};
       timeperframe_default := {| numerator := 100; denominator := 1000 |};
       reg_list := {| num_of_regs := ARRAY_SIZE mode_4624x3472_regs;
                      regs := mode_4624x3472_regs |} |};
    {| width := 3840; height := 2160; line_length_pix := 0x4eb7;
       crop := {| r_left := ARDUCAM_64MP_PIXEL_ARRAY_LEFT + 784;
                  r_top := ARDUCAM_64MP_PIXEL_ARRAY_TOP + 1312;
                  r_width := 7680; r_height := 4320 |};
       timeperframe_default := {| numerator := 100; denominator := 2000 |};
       reg_list := {| num_of_regs := ARRAY_SIZE mode_3840x2160_regs;
                      regs := mode_3840x2160_regs |} |};
    {| width := 2312; height := 1736; line_length_pix := 0x3360;
       crop := {| r_left := ARDUCAM_64MP_PIXEL_ARRAY_LEFT;
                  r_top := ARDUCAM_64MP_PIXEL_ARRAY_TOP;
                  r_width := 9248; r_height := 6944 |};
       timeperframe_default := {| numerator := 100; denominator := 3000 |};
       reg_list := {| num_of_regs := ARRAY_SIZE mode_2312x1736_regs;
                      regs := mode_2312x1736_regs |} |};
    {| width := 1920; height := 1080; line_length_pix := 0x29e3;
       crop := {| r_left := ARDUCAM_64MP_PIXEL_ARRAY_LEFT + 784;
                  r_top := ARDUCAM_64MP_PIXEL_ARRAY_TOP + 1312;
                  r_width := 7680; r_height := 4320 |};
       timeperframe_default := {| numerator := 100; denominator := 6000 |};
       reg_list := {| num_of_regs := ARRAY_SIZE mode_1920x1080_regs;
                      regs := mode_1920x1080_regs |} |};
    {| width := 1280; height := 720; line_length_pix := 0x1b08;
       crop := {| r_left := ARDUCAM_64MP_PIXEL_ARRAY_LEFT + 2064;
                  r_top := ARDUCAM_64MP_PIXEL_ARRAY_TOP + 2032;
                  r_width := 5120; r_height := 2880 |};
       timeperframe_default := {| numerator := 100; denominator := 12000 |};
       reg_list := {| num_of_regs := ARRAY_SIZE mode_1280x720_regs;
                      regs := mode_1280x720_regs |} |} ].

(** Media bus codes used by the driver ([media-bus-format.h]). *)
Inductive media_bus_fmt :=
  | MEDIA_BUS_FMT_SRGGB10_1X10
  | MEDIA_BUS_FMT_SGRBG10_1X10
  | MEDIA_BUS_FMT_SGBRG10_1X10
  | MEDIA_BUS_FMT_SBGGR10_1X10
  | MEDIA_BUS_FMT_SENSOR_DATA.

(** The supported formats.  This table MUST contain 4 entries per format,
    to cover the various flip combinations in the order: no flip, h flip,
    v flip, h&v flips. *)
Definition codes : list media_bus_fmt :=
  [ MEDIA_BUS_FMT_SRGGB10_1X10;
    MEDIA_BUS_FMT_SGRBG10_1X10;
    MEDIA_BUS_FMT_SGBRG10_1X10;
    MEDIA_BUS_FMT_SBGGR10_1X10 ].

Definition arducam_64mp_test_pattern_val : list Z :=
  [ ARDUCAM_64MP_TEST_PATTERN_DISABLE;
    ARDUCAM_64MP_TEST_PATTERN_COLOR_BARS;
    ARDUCAM_64MP_TEST_PATTERN_SOLID_COLOR;
    ARDUCAM_64MP_TEST_PATTERN_GREY_COLOR;
    ARDUCAM_64MP_TEST_PATTERN_PN9 ].

(** ** Controls

    The controls created by [arducam_64mp_init_controls], in the order of
    their creation.  (The two fwnode property controls exist only when the
    device tree gives the properties; they are read-only and have no
    register, and are left out.) *)

Inductive v4l2_cid :=
  | V4L2_CID_PIXEL_RATE
  | V4L2_CID_LINK_FREQ
  | V4L2_CID_VBLANK
  | V4L2_CID_HBLANK
  | V4L2_CID_EXPOSURE
  | V4L2_CID_ANALOGUE_GAIN
  | V4L2_CID_DIGITAL_GAIN
  | V4L2_CID_HFLIP
  | V4L2_CID_VFLIP
  | V4L2_CID_TEST_PATTERN
  | V4L2_CID_TEST_PATTERN_RED
  | V4L2_CID_TEST_PATTERN_GREENR
  | V4L2_CID_TEST_PATTERN_BLUE
  | V4L2_CID_TEST_PATTERN_GREENB.

Definition cid_eqb (a b : v4l2_cid) : bool :=
  match a, b with
  | V4L2_CID_PIXEL_RATE, V4L2_CID_PIXEL_RATE
  | V4L2_CID_LINK_FREQ, V4L2_CID_LINK_FREQ
  | V4L2_CID_VBLANK, V4L2_CID_VBLANK
  | V4L2_CID_HBLANK, V4L2_CID_HBLANK
  | V4L2_CID_EXPOSURE, V4L2_CID_EXPOSURE
  | V4L2_CID_ANALOGUE_GAIN, V4L2_CID_ANALOGUE_GAIN
  | V4L2_CID_DIGITAL_GAIN, V4L2_CID_DIGITAL_GAIN
  | V4L2_CID_HFLIP, V4L2_CID_HFLIP
  | V4L2_CID_VFLIP, V4L2_CID_VFLIP
  | V4L2_CID_TEST_PATTERN, V4L2_CID_TEST_PATTERN
  | V4L2_CID_TEST_PATTERN_RED, V4L2_CID_TEST_PATTERN_RED
  | V4L2_CID_TEST_PATTERN_GREENR, V4L2_CID_TEST_PATTERN_GREENR
  | V4L2_CID_TEST_PATTERN_BLUE, V4L2_CID_TEST_PATTERN_BLUE
  | V4L2_CID_TEST_PATTERN_GREENB, V4L2_CID_TEST_PATTERN_GREENB => true
  | _, _ => false
  end.

(** [struct v4l2_ctrl], the fields the driver reads or that the framework
    calls below write. *)
Record v4l2_ctrl := mk_ctrl {
  minimum : Z;
  maximum : Z;
  step : Z;
  default_value : Z;
  val : Z;
  read_only : bool;     (* V4L2_CTRL_FLAG_READ_ONLY *)
  grabbed : bool        (* V4L2_CTRL_FLAG_GRABBED *)
}.

(** ** Runtime power management state of the device

    [usage_count] and [runtime_active] are the PM core's book-keeping;
    [regulator_ret] and [clk_ret] are what [regulator_bulk_enable] and
    [clk_prepare_enable] will return at the next power-up (0 on success). *)
Record device := mk_device {
  usage_count : Z;
  runtime_active : bool;
  regulator_ret : Z;
  clk_ret : Z;
  supplies_on : bool;
  xclk_on : bool;
  reset_gpio : Z
}.

(** ** Driver state: [struct arducam_64mp]

    [ctrl_handler] maps every control of the handler to its descriptor; the
    pointers [exposure], [vflip], [hflip], [vblank], [hblank] of the C
    struct point into it.  [client] is the I2C client reached through
    [v4l2_get_subdevdata]; [dev] is [client->dev].  The mutex brackets each
    entry point and has no effect on a sequential run, so it is not a
    field. *)
Record arducam_64mp := mk_arducam_64mp {
  fmt_code : media_bus_fmt;
  ctrl_handler : v4l2_cid -> v4l2_ctrl;
  mode : arducam_64mp_mode;
  streaming : bool;
  common_regs_written : bool;
  long_exp_shift : Z;
  client : i2c_client;
  dev : device
}.

Definition exposure (s : arducam_64mp) := ctrl_handler s V4L2_CID_EXPOSURE.
Definition vflip (s : arducam_64mp) := ctrl_handler s V4L2_CID_VFLIP.
Definition hflip (s : arducam_64mp) := ctrl_handler s V4L2_CID_HFLIP.
Definition vblank (s : arducam_64mp) := ctrl_handler s V4L2_CID_VBLANK.
Definition hblank (s : arducam_64mp) := ctrl_handler s V4L2_CID_HBLANK.

(** Field updates. *)
Definition set_client (s : arducam_64mp) (c : i2c_client) : arducam_64mp :=
  {| fmt_code := fmt_code s; ctrl_handler := ctrl_handler s; mode := mode s;
     streaming := streaming s; common_regs_written := common_regs_written s;
     long_exp_shift := long_exp_shift s; client := c; dev := dev s |}.

Definition set_dev (s : arducam_64mp) (d : device) : arducam_64mp :=
  {| fmt_code := fmt_code s; ctrl_handler := ctrl_handler s; mode := mode s;
     streaming := streaming s; common_regs_written := common_regs_written s;
     long_exp_shift := long_exp_shift s; client := client s; dev := d |}.

Definition set_long_exp_shift (s : arducam_64mp) (k : Z) : arducam_64mp :=
  {| fmt_code := fmt_code s; ctrl_handler := ctrl_handler s; mode := mode s;
     streaming := streaming s; common_regs_written := common_regs_written s;
     long_exp_shift := k; client := client s; dev := dev s |}.

Definition set_common_regs_written (s : arducam_64mp) (b : bool) : arducam_64mp :=
  {| fmt_code := fmt_code s; ctrl_handler := ctrl_handler s; mode := mode s;
     streaming := streaming s; common_regs_written := b;
     long_exp_shift := long_exp_shift s; client := client s; dev := dev s |}.

Definition set_streaming (s : arducam_64mp) (b : bool) : arducam_64mp :=
  {| fmt_code := fmt_code s; ctrl_handler := ctrl_handler s; mode := mode s;
     streaming := b; common_regs_written := common_regs_written s;
     long_exp_shift := long_exp_shift s; client := client s; dev := dev s |}.

Definition set_mode (s : arducam_64mp) (m : arducam_64mp_mode) : arducam_64mp :=
  {| fmt_code := fmt_code s; ctrl_handler := ctrl_handler s; mode := m;
     streaming := streaming s; common_regs_written := common_regs_written s;
     long_exp_shift := long_exp_shift s; client := client s; dev := dev s |}.

Definition set_fmt_code (s : arducam_64mp) (c : media_bus_fmt) : arducam_64mp :=
  {| fmt_code := c; ctrl_handler := ctrl_handler s; mode := mode s;
     streaming := streaming s; common_regs_written := common_regs_written s;
     long_exp_shift := long_exp_shift s; client := client s; dev := dev s |}.

Definition set_ctrl_handler (s : arducam_64mp) (h : v4l2_cid -> v4l2_ctrl)
  : arducam_64mp :=
  {| fmt_code := fmt_code s; ctrl_handler := h; mode := mode s;
     streaming := streaming s; common_regs_written := common_regs_written s;
     long_exp_shift := long_exp_shift s; client := client s; dev := dev s |}.

(** Replace the descriptor of control [id]. *)
Definition update_ctrl (s : arducam_64mp) (id : v4l2_cid) (c : v4l2_ctrl)
  : arducam_64mp :=
  set_ctrl_handler s (fun j => if cid_eqb j id then c else ctrl_handler s j).

(** ** Register access *)

(** Write registers up to 2 at a time. *)
Definition arducam_64mp_write_reg (s : arducam_64mp) (reg len v : Z)
  : Z * arducam_64mp :=
  if len >? 4 then (- EINVAL, s)
  else
    let buf := put_unaligned_be16 reg
               ++ put_unaligned_be32 (Z.shiftl v (8 * (4 - len))) in
    let '(n, c) := i2c_master_send (client s)
                     (firstn (Z.to_nat (len + 2)) buf) in
    if negb (n =? len + 2) then (- EIO, set_client s c)
    else (0, set_client s c).

(** Write a list of registers: the body of the [for] loop, entry by entry. *)
Fixpoint write_regs_loop (s : arducam_64mp) (l : list arducam_64mp_reg)
  : Z * arducam_64mp :=
  match l with
  | [] => (0, s)
  | r :: rest =>
      let '(ret, s1) := arducam_64mp_write_reg s (address r) 1 (reg_val r) in
      if negb (ret =? 0) then (ret, s1)
      else write_regs_loop s1 rest
  end.

(** [regs[0] .. regs[len-1]] are visited; every caller passes the size of
    the table as [len]. *)
Definition arducam_64mp_write_regs (s : arducam_64mp)
  (rs : list arducam_64mp_reg) (len : Z) : Z * arducam_64mp :=
  write_regs_loop s (firstn (Z.to_nat len) rs).

(** Get bayer order based on flip setting. *)
Definition arducam_64mp_get_format_code (s : arducam_64mp) : media_bus_fmt :=
  let i := Z.lor (if val (vflip s) =? 0 then 0 else 2)
                 (if val (hflip s) =? 0 then 0 else 1) in
  nth (Z.to_nat i) codes MEDIA_BUS_FMT_SRGGB10_1X10.

(** ** Services of the kernel the driver calls *)

Definition clamp (lo hi x : Z) : Z := Z.max lo (Z.min hi x).

(** Modelled from the spec: [__v4l2_ctrl_modify_range] belongs to the V4L2
    control framework, which is not in the driver file.  The spec gives a
    control descriptor a minimum, maximum, step and current value and says
    that re-deriving a range clamps the current value into it. *)
Definition __v4l2_ctrl_modify_range (c : v4l2_ctrl) (min max stp def : Z)
  : v4l2_ctrl :=
  {| minimum := min; maximum := max; step := stp; default_value := def;
     val := clamp min max (val c);
     read_only := read_only c; grabbed := grabbed c |}.

(** Modelled from the spec: [__v4l2_ctrl_grab] of the control framework;
    it locks or unlocks a control. *)
Definition __v4l2_ctrl_grab (c : v4l2_ctrl) (g : bool) : v4l2_ctrl :=
  {| minimum := minimum c; maximum := maximum c; step := step c;
     default_value := default_value c; val := val c;
     read_only := read_only c; grabbed := g |}.

Definition set_val (c : v4l2_ctrl) (v : Z) : v4l2_ctrl :=
  {| minimum := minimum c; maximum := maximum c; step := step c;
     default_value := default_value c; val := v;
     read_only := read_only c; grabbed := grabbed c |}.

Definition set_usage_count (d : device) (n : Z) : device :=
  {| usage_count := n; runtime_active := runtime_active d;
     regulator_ret := regulator_ret d; clk_ret := clk_ret d;
     supplies_on := supplies_on d; xclk_on := xclk_on d;
     reset_gpio := reset_gpio d |}.

Definition set_runtime_active (d : device) (b : bool) : device :=
  {| usage_count := usage_count d; runtime_active := b;
     regulator_ret := regulator_ret d; clk_ret := clk_ret d;
     supplies_on := supplies_on d; xclk_on := xclk_on d;
     reset_gpio := reset_gpio d |}.

Definition set_rails (d : device) (sup clk : bool) (gpio : Z) : device :=
  {| usage_count := usage_count d; runtime_active := runtime_active d;
     regulator_ret := regulator_ret d; clk_ret := clk_ret d;
     supplies_on := sup; xclk_on := clk; reset_gpio := gpio |}.

(** Modelled from the spec: [pm_runtime_get_if_in_use] of the PM core.
    Register writes happen only while the device is powered: the call
    answers 1 and takes a reference when the device is active and in use,
    and 0 otherwise. *)
Definition pm_runtime_get_if_in_use (s : arducam_64mp) : Z * arducam_64mp :=
  if runtime_active (dev s) && (0 <? usage_count (dev s))
  then (1, set_dev s (set_usage_count (dev s) (usage_count (dev s) + 1)))
  else (0, s).

(** Modelled from the spec: [pm_runtime_put] (and [pm_runtime_put_noidle])
    of the PM core drop the reference; the power-down itself is run later
    by the PM core through [arducam_64mp_power_off]. *)
Definition pm_runtime_put (s : arducam_64mp) : arducam_64mp :=
  set_dev s (set_usage_count (dev s) (usage_count (dev s) - 1)).

(** ** Timing and exposure *)

Definition arducam_64mp_adjust_exposure_range (s : arducam_64mp)
  : arducam_64mp :=
  (* Honour the VBLANK limits when setting exposure. *)
  let exposure_max :=
    s32 (u32 (u32 (height (mode s)) + u32 (val (vblank s)))
         - ARDUCAM_64MP_EXPOSURE_OFFSET) in
  let exposure_def := Z.min exposure_max (val (exposure s)) in
  update_ctrl s V4L2_CID_EXPOSURE
    (__v4l2_ctrl_modify_range (exposure s) (minimum (exposure s))
       exposure_max (step (exposure s)) exposure_def).

(** The [while (val > FRAME_LENGTH_MAX)] loop on the pair
    (val, long_exp_shift); [fuel] bounds the number of iterations. *)
Fixpoint frame_length_loop (fuel : nat) (v shift : Z) : Z * Z :=
  match fuel with
  | O => (v, shift)
  | S fuel' =>
      if v >? ARDUCAM_64MP_FRAME_LENGTH_MAX
      then frame_length_loop fuel' (Z.shiftr v 1) (u32 (shift + 1))
      else (v, shift)
  end.

(** [v] is a 32-bit value, so 32 halvings always end the loop (see
    [frame_length_loop_fuel]). *)
Definition arducam_64mp_set_frame_length (s : arducam_64mp) (vblank_ : Z)
  : Z * arducam_64mp :=
  let v0 := u32 (u32 vblank_ + u32 (height (mode s))) in
  let '(v, shift) := frame_length_loop 32 v0 0 in
  let s1 := set_long_exp_shift s shift in
  let '(ret, s2) := arducam_64mp_write_reg s1 ARDUCAM_64MP_REG_FRAME_LENGTH
                      ARDUCAM_64MP_REG_VALUE_16BIT v in
  if negb (ret =? 0) then (ret, s2)
  else arducam_64mp_write_reg s2 ARDUCAM_64MP_LONG_EXP_SHIFT_REG
         ARDUCAM_64MP_REG_VALUE_08BIT (long_exp_shift s2).

(** The [switch] of [arducam_64mp_set_ctrl]: the register write of one
    control. *)
Definition set_ctrl_apply (s : arducam_64mp) (id : v4l2_cid)
  : Z * arducam_64mp :=
  let ctrl := ctrl_handler s id in
  match id with
  | V4L2_CID_ANALOGUE_GAIN =>
      arducam_64mp_write_reg s ARDUCAM_64MP_REG_ANALOG_GAIN
        ARDUCAM_64MP_REG_VALUE_16BIT (val ctrl)
  | V4L2_CID_EXPOSURE =>
      let v := u32 (Z.shiftr (val ctrl) (long_exp_shift s)) in
      arducam_64mp_write_reg s ARDUCAM_64MP_REG_EXPOSURE
        ARDUCAM_64MP_REG_VALUE_16BIT v
  | V4L2_CID_DIGITAL_GAIN =>
      arducam_64mp_write_reg s ARDUCAM_64MP_REG_DIGITAL_GAIN
        ARDUCAM_64MP_REG_VALUE_16BIT (val ctrl)
  | V4L2_CID_TEST_PATTERN =>
      let v := nth (Z.to_nat (val ctrl)) arducam_64mp_test_pattern_val 0 in
      arducam_64mp_write_reg s ARDUCAM_64MP_REG_TEST_PATTERN
        ARDUCAM_64MP_REG_VALUE_16BIT v
  | V4L2_CID_TEST_PATTERN_RED =>
      arducam_64mp_write_reg s ARDUCAM_64MP_REG_TEST_PATTERN_R
        ARDUCAM_64MP_REG_VALUE_16BIT (val ctrl)
  | V4L2_CID_TEST_PATTERN_GREENR =>
      arducam_64mp_write_reg s ARDUCAM_64MP_REG_TEST_PATTERN_GR
        ARDUCAM_64MP_REG_VALUE_16BIT (val ctrl)
  | V4L2_CID_TEST_PATTERN_BLUE =>
      arducam_64mp_write_reg s ARDUCAM_64MP_REG_TEST_PATTERN_B
        ARDUCAM_64MP_REG_VALUE_16BIT (val ctrl)
  | V4L2_CID_TEST_PATTERN_GREENB =>
      arducam_64mp_write_reg s ARDUCAM_64MP_REG_TEST_PATTERN_GB
        ARDUCAM_64MP_REG_VALUE_16BIT (val ctrl)
  | V4L2_CID_HFLIP | V4L2_CID_VFLIP =>
      arducam_64mp_write_reg s ARDUCAM_64MP_REG_ORIENTATION 1
        (Z.lor (val (hflip s)) (Z.shiftl (val (vflip s)) 1))
  | V4L2_CID_VBLANK =>
      arducam_64mp_set_frame_length s (val ctrl)
  | _ => (- EINVAL, s)
  end.

Definition arducam_64mp_set_ctrl (s : arducam_64mp) (id : v4l2_cid)
  : Z * arducam_64mp :=
  (* The VBLANK control may change the limits of usable exposure, so check
     and adjust if necessary. *)
  let s1 := if cid_eqb id V4L2_CID_VBLANK
            then arducam_64mp_adjust_exposure_range s else s in
  (* Applying V4L2 control value only happens when power is up for
     streaming. *)
  let '(in_use, s2) := pm_runtime_get_if_in_use s1 in
  if in_use =? 0 then (0, s2)
  else
    let '(ret, s3) := set_ctrl_apply s2 id in
    (ret, pm_runtime_put s3).

(** Modelled from the spec: [do_div] is a macro of the kernel headers, not
    of the driver file.  The spec gives the quotient as the floor of the
    64-bit dividend by the divisor.  The divisor must not be 0. *)
Definition do_div (n base : Z) : Z := n / base.

Definition arducam_64mp_get_frame_length (m : arducam_64mp_mode)
  (timeperframe : v4l2_fract) : Z :=
  let frame_length :=
    u64 (u64 (numerator timeperframe) * ARDUCAM_64MP_PIXEL_RATE) in
  let frame_length :=
    do_div frame_length
      (u64 (u64 (denominator timeperframe) * line_length_pix m)) in
  let frame_length :=
    if frame_length >? ARDUCAM_64MP_FRAME_LENGTH_MAX
    then ARDUCAM_64MP_FRAME_LENGTH_MAX else frame_length in
  Z.max (u32 frame_length) (u32 (height m)).

(** Modelled from the spec: [__v4l2_ctrl_s_ctrl] of the control framework.
    A value is validated against the descriptor's minimum, maximum and step
    before it is accepted (an invalid one is rejected before any device
    access); an accepted value is recorded and handed to the driver's
    [s_ctrl] operation, which is [arducam_64mp_set_ctrl]. *)
Definition __v4l2_ctrl_s_ctrl (s : arducam_64mp) (id : v4l2_cid) (v : Z)
  : Z * arducam_64mp :=
  let c := ctrl_handler s id in
  if (v <? minimum c) || (maximum c <? v)
     || negb ((v - minimum c) mod step c =? 0)
  then (- EINVAL, s)
  else arducam_64mp_set_ctrl (update_ctrl s id (set_val c v)) id.

Definition arducam_64mp_set_framing_limits (s : arducam_64mp)
  : arducam_64mp :=
  let m := mode s in
  (* The default framerate is highest possible framerate. *)
  let frm_length_min :=
    arducam_64mp_get_frame_length m (timeperframe_default m) in
  let frm_length_default :=
    arducam_64mp_get_frame_length m (timeperframe_default m) in
  (* Default to no long exposure multiplier. *)
  let s1 := set_long_exp_shift s 0 in
  (* Update limits and set FPS to default *)
  let s2 :=
    update_ctrl s1 V4L2_CID_VBLANK
      (__v4l2_ctrl_modify_range (vblank s1)
         (u32 (frm_length_min - height m))
         (u32 (Z.shiftl 1 ARDUCAM_64MP_LONG_EXP_SHIFT_MAX
               * ARDUCAM_64MP_FRAME_LENGTH_MAX - height m))
         1 (u32 (frm_length_default - height m))) in
  (* Setting this will adjust the exposure limits as well. *)
  let '(_, s3) :=
    __v4l2_ctrl_s_ctrl s2 V4L2_CID_VBLANK
      (s32 (u32 (frm_length_default - height m))) in
  (* hblank depends on mode->width only. *)
  let hblank_ := u32 (line_length_pix m - width m) in
  update_ctrl s3 V4L2_CID_HBLANK
    (__v4l2_ctrl_modify_range (hblank s3) hblank_ hblank_ 1 hblank_).

(** ** Format negotiation *)

Definition IMAGE_PAD : Z := 0.
Definition METADATA_PAD : Z := 1.
Definition NUM_PADS : Z := 2.

Inductive v4l2_subdev_format_whence :=
  | V4L2_SUBDEV_FORMAT_TRY
  | V4L2_SUBDEV_FORMAT_ACTIVE.

Inductive v4l2_field := V4L2_FIELD_ANY | V4L2_FIELD_NONE.

Inductive v4l2_colorspace := V4L2_COLORSPACE_DEFAULT | V4L2_COLORSPACE_RAW.

(** [struct v4l2_mbus_framefmt]; the encoding, quantization and transfer
    function fields are functions of [colorspace] through header macros and
    are not kept. *)
Record v4l2_mbus_framefmt := mk_framefmt {
  f_width : Z;
  f_height : Z;
  code : media_bus_fmt;
  field : v4l2_field;
  colorspace : v4l2_colorspace
}.

Record v4l2_subdev_format := mk_subdev_format {
  which : v4l2_subdev_format_whence;
  pad : Z;
  format : v4l2_mbus_framefmt
}.

(** The "try" (scratch) configuration kept per file handle. *)
Record v4l2_subdev_state := mk_subdev_state {
  try_fmt_img : v4l2_mbus_framefmt;
  try_fmt_meta : v4l2_mbus_framefmt;
  try_crop : v4l2_rect
}.

Definition v4l2_subdev_get_try_format (st : v4l2_subdev_state) (p : Z)
  : v4l2_mbus_framefmt :=
  if p =? IMAGE_PAD then try_fmt_img st else try_fmt_meta st.

(** Assignment through the pointer [v4l2_subdev_get_try_format] returns. *)
Definition store_try_format (st : v4l2_subdev_state) (p : Z)
  (f : v4l2_mbus_framefmt) : v4l2_subdev_state :=
  if p =? IMAGE_PAD
  then {| try_fmt_img := f; try_fmt_meta := try_fmt_meta st;
          try_crop := try_crop st |}
  else {| try_fmt_img := try_fmt_img st; try_fmt_meta := f;
          try_crop := try_crop st |}.

(** Total dimension distance of a mode to a requested size. *)
Definition size_error (m : arducam_64mp_mode) (w h : Z) : Z :=
  Z.abs (width m - w) + Z.abs (height m - h).

(** Scan of the rest of the table with the best entry so far. *)
Fixpoint nearest_size_loop (best : arducam_64mp_mode)
  (l : list arducam_64mp_mode) (w h : Z) : arducam_64mp_mode :=
  match l with
  | [] => best
  | m :: rest =>
      if size_error m w h <? size_error best w h
      then nearest_size_loop m rest w h
      else nearest_size_loop best rest w h
  end.

(** Modelled from the spec: [v4l2_find_nearest_size] is a helper of the
    V4L2 core, not of the driver file.  It selects the entry whose (width,
    height) is nearest to the request, minimizing a symmetric distance over
    both dimensions; ties are resolved by table order, first match wins.
    An empty table has no nearest entry. *)
Definition v4l2_find_nearest_size (l : list arducam_64mp_mode) (w h : Z)
  : option arducam_64mp_mode :=
  match l with
  | [] => None
  | m :: rest => Some (nearest_size_loop m rest w h)
  end.

Definition arducam_64mp_reset_colorspace (f : v4l2_mbus_framefmt)
  : v4l2_mbus_framefmt :=
  {| f_width := f_width f; f_height := f_height f; code := code f;
     field := field f; colorspace := V4L2_COLORSPACE_RAW |}.

Definition arducam_64mp_update_image_pad_format (m : arducam_64mp_mode)
  (fmt : v4l2_subdev_format) : v4l2_subdev_format :=
  {| which := which fmt; pad := pad fmt;
     format := arducam_64mp_reset_colorspace
                 {| f_width := width m; f_height := height m;
                    code := code (format fmt); field := V4L2_FIELD_NONE;
                    colorspace := colorspace (format fmt) |} |}.

Definition arducam_64mp_update_metadata_pad_format
  (fmt : v4l2_subdev_format) : v4l2_subdev_format :=
  {| which := which fmt; pad := pad fmt;
     format := {| f_width := ARDUCAM_64MP_EMBEDDED_LINE_WIDTH;
                  f_height := ARDUCAM_64MP_NUM_EMBEDDED_LINES;
                  code := MEDIA_BUS_FMT_SENSOR_DATA;
                  field := V4L2_FIELD_NONE;
                  colorspace := colorspace (format fmt) |} |}.

Definition set_format_code (fmt : v4l2_subdev_format) (c : media_bus_fmt)
  : v4l2_subdev_format :=
  {| which := which fmt; pad := pad fmt;
     format := {| f_width := f_width (format fmt);
                  f_height := f_height (format fmt);
                  code := c; field := field (format fmt);
                  colorspace := colorspace (format fmt) |} |}.

Definition arducam_64mp_get_pad_format (s : arducam_64mp)
  (st : v4l2_subdev_state) (fmt : v4l2_subdev_format)
  : Z * v4l2_subdev_format * v4l2_subdev_state :=
  if pad fmt >=? NUM_PADS then (- EINVAL, fmt, st)
  else
    match which fmt with
    | V4L2_SUBDEV_FORMAT_TRY =>
        let try_fmt := v4l2_subdev_get_try_format st (pad fmt) in
        (* update the code which could change due to vflip or hflip *)
        let try_fmt' :=
          {| f_width := f_width try_fmt; f_height := f_height try_fmt;
             code := if pad fmt =? IMAGE_PAD
                     then arducam_64mp_get_format_code s
                     else MEDIA_BUS_FMT_SENSOR_DATA;
             field := field try_fmt; colorspace := colorspace try_fmt |} in
        (0, {| which := which fmt; pad := pad fmt; format := try_fmt' |},
         store_try_format st (pad fmt) try_fmt')
    | V4L2_SUBDEV_FORMAT_ACTIVE =>
        if pad fmt =? IMAGE_PAD
        then (0, set_format_code
                   (arducam_64mp_update_image_pad_format (mode s) fmt)
                   (arducam_64mp_get_format_code s), st)
        else (0, arducam_64mp_update_metadata_pad_format fmt, st)
    end.

(** The result is [None] when the nearest-size search returns no entry
    (the C code would then follow a null pointer). *)
Definition arducam_64mp_set_pad_format (s : arducam_64mp)
  (st : v4l2_subdev_state) (fmt : v4l2_subdev_format)
  : option (Z * v4l2_subdev_format * v4l2_subdev_state * arducam_64mp) :=
  if pad fmt >=? NUM_PADS then Some (- EINVAL, fmt, st, s)
  else if pad fmt =? IMAGE_PAD then
    (* Bayer order varies with flips *)
    let fmt1 := set_format_code fmt (arducam_64mp_get_format_code s) in
    match v4l2_find_nearest_size supported_modes
            (f_width (format fmt1)) (f_height (format fmt1)) with
    | None => None
    | Some m =>
        let fmt2 := arducam_64mp_update_image_pad_format m fmt1 in
        match which fmt2 with
        | V4L2_SUBDEV_FORMAT_TRY =>
            Some (0, fmt2, store_try_format st (pad fmt2) (format fmt2), s)
        | V4L2_SUBDEV_FORMAT_ACTIVE =>
            let s1 := set_fmt_code (set_mode s m) (code (format fmt2)) in
            Some (0, fmt2, st, arducam_64mp_set_framing_limits s1)
        end
    end
  else
    match which fmt with
    | V4L2_SUBDEV_FORMAT_TRY =>
        Some (0, fmt, store_try_format st (pad fmt) (format fmt), s)
    | V4L2_SUBDEV_FORMAT_ACTIVE =>
        (* Only one embedded data mode is supported *)
        Some (0, arducam_64mp_update_metadata_pad_format fmt, st, s)
    end.

(** ** Power and streaming *)

(** Power/clock management functions. *)
Definition arducam_64mp_power_on (s : arducam_64mp) : Z * arducam_64mp :=
  let ret := regulator_ret (dev s) in
  if negb (ret =? 0) then (ret, s)
  else
    let s1 := set_dev s (set_rails (dev s) true (xclk_on (dev s))
                           (reset_gpio (dev s))) in
    let ret := clk_ret (dev s1) in
    if negb (ret =? 0)
    then (* reg_off *)
      (ret, set_dev s1 (set_rails (dev s1) false (xclk_on (dev s1))
                          (reset_gpio (dev s1))))
    else (0, set_dev s1 (set_rails (dev s1) true true 1)).


(** Modelled from the spec: [pm_runtime_get_sync] of the PM core takes a
    reference and powers the device on when needed, through the driver's
    [arducam_64mp_power_on]; a failure of the power-up is returned. *)
Definition pm_runtime_get_sync (s : arducam_64mp) : Z * arducam_64mp :=
  let s1 := set_dev s (set_usage_count (dev s) (usage_count (dev s) + 1)) in
  if runtime_active (dev s1) then (0, s1)
  else
    let '(ret, s2) := arducam_64mp_power_on s1 in
    if negb (ret =? 0) then (ret, s2)
    else (0, set_dev s2 (set_runtime_active (dev s2) true)).

(** The controls of the handler, in the order [arducam_64mp_init_controls]
    creates them. *)
Definition handler_ctrls : list v4l2_cid :=
  [ V4L2_CID_PIXEL_RATE; V4L2_CID_LINK_FREQ; V4L2_CID_VBLANK;
    V4L2_CID_HBLANK; V4L2_CID_EXPOSURE; V4L2_CID_ANALOGUE_GAIN;
    V4L2_CID_DIGITAL_GAIN; V4L2_CID_HFLIP; V4L2_CID_VFLIP;
    V4L2_CID_TEST_PATTERN; V4L2_CID_TEST_PATTERN_RED;
    V4L2_CID_TEST_PATTERN_GREENR; V4L2_CID_TEST_PATTERN_BLUE;
    V4L2_CID_TEST_PATTERN_GREENB ].

Fixpoint ctrl_setup_loop (s : arducam_64mp) (l : list v4l2_cid)
  : Z * arducam_64mp :=
  match l with
  | [] => (0, s)
  | id :: rest =>
      if read_only (ctrl_handler s id) then ctrl_setup_loop s rest
      else
        let '(ret, s1) := arducam_64mp_set_ctrl s id in
        if negb (ret =? 0) then (ret, s1)
        else ctrl_setup_loop s1 rest
  end.

(** Modelled from the spec: [__v4l2_ctrl_handler_setup] of the control
    framework replays every current control value through the driver's
    [s_ctrl] operation, in handler order, and stops at the first error.
    Read-only controls have nothing to apply and are passed over. *)
Definition __v4l2_ctrl_handler_setup (s : arducam_64mp) : Z * arducam_64mp :=
  ctrl_setup_loop s handler_ctrls.

(** Start streaming. *)
Definition arducam_64mp_start_streaming (s : arducam_64mp)
  : Z * arducam_64mp :=
  let '(ret, s1) :=
    if negb (common_regs_written s) then
      let '(ret, s') := arducam_64mp_write_regs s mode_common_regs
                          (ARRAY_SIZE mode_common_regs) in
      if negb (ret =? 0) then (ret, s')
      else (0, set_common_regs_written s' true)
    else (0, s) in
  if negb (ret =? 0) then (ret, s1)
  else
    (* Apply default values of current mode *)
    let rl := reg_list (mode s1) in
    let '(ret, s2) := arducam_64mp_write_regs s1 (regs rl) (num_of_regs rl) in
    if negb (ret =? 0) then (ret, s2)
    else
      (* Apply customized values from user *)
      let '(ret, s3) := __v4l2_ctrl_handler_setup s2 in
      if negb (ret =? 0) then (ret, s3)
      else
        (* set stream on register *)
        arducam_64mp_write_reg s3 ARDUCAM_64MP_REG_MODE_SELECT
          ARDUCAM_64MP_REG_VALUE_08BIT ARDUCAM_64MP_MODE_STREAMING.

(** Stop streaming; a failed write is only logged. *)
Definition arducam_64mp_stop_streaming (s : arducam_64mp) : arducam_64mp :=
  snd (arducam_64mp_write_reg s ARDUCAM_64MP_REG_MODE_SELECT
         ARDUCAM_64MP_REG_VALUE_08BIT ARDUCAM_64MP_MODE_STANDBY).

(** [enable] is the C [int]; the comparison with the [bool] field is made
    on integers, and the assignment to it converts back. *)
Definition arducam_64mp_set_stream (s : arducam_64mp) (enable : Z)
  : Z * arducam_64mp :=
  if Z.b2z (streaming s) =? enable then (0, s)
  else
    let en := negb (enable =? 0) in
    let '(ret, s1) :=
      if en then
        let '(ret, s') := pm_runtime_get_sync s in
        if ret <? 0 then (ret, pm_runtime_put s')     (* put_noidle *)
        else
          (* Apply default & customized values and then start streaming. *)
          let '(ret, s'') := arducam_64mp_start_streaming s' in
          if negb (ret =? 0) then (ret, pm_runtime_put s'')   (* err_rpm_put *)
          else (0, s'')
      else (0, pm_runtime_put (arducam_64mp_stop_streaming s)) in
    if negb (ret =? 0) then (ret, s1)
    else
      let s2 := set_streaming s1 en in
      (* vflip and hflip cannot change during streaming *)
      let s3 := update_ctrl s2 V4L2_CID_VFLIP (__v4l2_ctrl_grab (vflip s2) en) in
      let s4 := update_ctrl s3 V4L2_CID_HFLIP (__v4l2_ctrl_grab (hflip s3) en) in
      (0, s4).

Definition arducam_64mp_suspend (s : arducam_64mp) : Z * arducam_64mp :=
  if streaming s then (0, arducam_64mp_stop_streaming s) else (0, s).

Definition arducam_64mp_resume (s : arducam_64mp) : Z * arducam_64mp :=
  if streaming s then
    let '(ret, s1) := arducam_64mp_start_streaming s in
    if negb (ret =? 0)
    then (ret, set_streaming (arducam_64mp_stop_streaming s1) false)
    else (0, s1)
  else (0, s).

(** ** Initial state

    The controls as [arducam_64mp_init_controls] creates them (a new
    control starts at its default value), and the state [probe] leaves. *)

Definition v4l2_ctrl_new_std (min max stp def : Z) (ro : bool) : v4l2_ctrl :=
  {| minimum := min; maximum := max; step := stp; default_value := def;
     val := def; read_only := ro; grabbed := false |}.

Definition new_handler (id : v4l2_cid) : v4l2_ctrl :=
  match id with
  | V4L2_CID_PIXEL_RATE =>
      (* By default, PIXEL_RATE is read only *)
      v4l2_ctrl_new_std ARDUCAM_64MP_PIXEL_RATE ARDUCAM_64MP_PIXEL_RATE 1
        ARDUCAM_64MP_PIXEL_RATE true
  | V4L2_CID_LINK_FREQ =>
      (* LINK_FREQ is also read only *)
      v4l2_ctrl_new_std 0 0 1 0 true
  | V4L2_CID_VBLANK => v4l2_ctrl_new_std 0 0xffff 1 0 false
  | V4L2_CID_HBLANK =>
      (* HBLANK is read-only, but does change with mode. *)
      v4l2_ctrl_new_std 0 0xffff 1 0 true
  | V4L2_CID_EXPOSURE =>
      v4l2_ctrl_new_std ARDUCAM_64MP_EXPOSURE_MIN ARDUCAM_64MP_EXPOSURE_MAX
        ARDUCAM_64MP_EXPOSURE_STEP ARDUCAM_64MP_EXPOSURE_DEFAULT false
  | V4L2_CID_ANALOGUE_GAIN =>
      v4l2_ctrl_new_std ARDUCAM_64MP_ANA_GAIN_MIN ARDUCAM_64MP_ANA_GAIN_MAX
        ARDUCAM_64MP_ANA_GAIN_STEP ARDUCAM_64MP_ANA_GAIN_DEFAULT false
  | V4L2_CID_DIGITAL_GAIN =>
      v4l2_ctrl_new_std ARDUCAM_64MP_DGTL_GAIN_MIN ARDUCAM_64MP_DGTL_GAIN_MAX
        ARDUCAM_64MP_DGTL_GAIN_STEP ARDUCAM_64MP_DGTL_GAIN_DEFAULT false
  | V4L2_CID_HFLIP | V4L2_CID_VFLIP => v4l2_ctrl_new_std 0 1 1 0 false
  | V4L2_CID_TEST_PATTERN =>
      v4l2_ctrl_new_std 0 (ARRAY_SIZE arducam_64mp_test_pattern_val - 1) 1 0
        false
  | V4L2_CID_TEST_PATTERN_RED | V4L2_CID_TEST_PATTERN_GREENR
  | V4L2_CID_TEST_PATTERN_BLUE | V4L2_CID_TEST_PATTERN_GREENB =>
      (* The "Solid color" pattern is white by default *)
      v4l2_ctrl_new_std ARDUCAM_64MP_TEST_PATTERN_COLOUR_MIN
        ARDUCAM_64MP_TEST_PATTERN_COLOUR_MAX
        ARDUCAM_64MP_TEST_PATTERN_COLOUR_STEP
        ARDUCAM_64MP_TEST_PATTERN_COLOUR_MAX false
  end.

Definition arducam_64mp_init_controls (s : arducam_64mp) : arducam_64mp :=
  (* Setup exposure and frame/line length limits. *)
  arducam_64mp_set_framing_limits (set_ctrl_handler s new_handler).

(** A device that the PM core has put to sleep; its power-up will work. *)
Definition idle_device : device :=
  {| usage_count := 0; runtime_active := false; regulator_ret := 0;
     clk_ret := 0; supplies_on := false; xclk_on := false; reset_gpio := 0 |}.

(** The state at the end of a successful [arducam_64mp_probe], on an adapter
    whose coming return values are [sc]. *)
Definition probed (sc : list Z) : arducam_64mp :=
  arducam_64mp_init_controls
    {| fmt_code := MEDIA_BUS_FMT_SRGGB10_1X10;
       ctrl_handler := new_handler;
       (* Set default mode to max resolution *)
       mode := nth 0 supported_modes
                 (mk_mode 0 0 0 (mk_rect 0 0 0 0) (mk_fract 0 0)
                    (mk_reg_list 0 []));
       streaming := false;
       common_regs_written := false;
       long_exp_shift := 0;
       client := {| script := sc; trace := [] |};
       dev := idle_device |}.

(** * Vocabulary of the statements *)

(** The bytes of one register write: 16-bit address, then the [len] low
    bytes of the value, most significant first. *)
Definition reg_msg (reg len v : Z) : list Z :=
  firstn (Z.to_nat (len + 2))
    (put_unaligned_be16 reg ++ put_unaligned_be32 (Z.shiftl v (8 * (4 - len)))).

(** The adapter after one more call that was given [buf]. *)
Definition sent (c : i2c_client) (buf : list Z) : i2c_client :=
  {| script := tl (script c);
     trace := trace c ++ [mk_event buf (hd (Z.of_nat (length buf)) (script c))] |}.

(** The event a completed one-byte register write leaves on the trace. *)
Definition reg_event (r : arducam_64mp_reg) (ret : Z) : i2c_event :=
  mk_event (reg_msg (address r) 1 (reg_val r)) ret.

(** The messages of a register list, as the device receives them. *)
Definition reg_msgs (l : list arducam_64mp_reg) : list (list Z) :=
  map (fun r => reg_msg (address r) 1 (reg_val r)) l.

(** A powered device in use, as during streaming. *)
Definition device_in_use : device :=
  {| usage_count := 1; runtime_active := true; regulator_ret := 0;
     clk_ret := 0; supplies_on := true; xclk_on := true; reset_gpio := 1 |}.

(** The power-up and start sequence that [arducam_64mp_set_stream] runs for
    a start request, and the state updates that follow a success. *)
Definition start_attempt (s : arducam_64mp) : Z * arducam_64mp :=
  let '(ret, s') := pm_runtime_get_sync s in
  if ret <? 0 then (ret, pm_runtime_put s')
  else
    let '(ret, s'') := arducam_64mp_start_streaming s' in
    if negb (ret =? 0) then (ret, pm_runtime_put s'') else (0, s'').

Definition stream_entered (s1 : arducam_64mp) (en : bool) : arducam_64mp :=
  let s2 := set_streaming s1 en in
  let s3 := update_ctrl s2 V4L2_CID_VFLIP (__v4l2_ctrl_grab (vflip s2) en) in
  update_ctrl s3 V4L2_CID_HFLIP (__v4l2_ctrl_grab (hflip s3) en).

(** [extends s s']: the trace of [s'] is the trace of [s] with further
    transfers appended; nothing is ever removed from it. *)
Definition extends (s s' : arducam_64mp) : Prop :=
  exists l, trace (client s') = trace (client s) ++ l.

(** Frame of the code that only talks to the sensor: besides the adapter
    it may change the stored long exposure shift, and nothing else. *)
Definition reg_frame (s s' : arducam_64mp) : Prop :=
  fmt_code s' = fmt_code s
  /\ ctrl_handler s' = ctrl_handler s
  /\ mode s' = mode s
  /\ streaming s' = streaming s
  /\ common_regs_written s' = common_regs_written s
  /\ dev s' = dev s
  /\ extends s s'.

(** Frame of a control operation: it may also change the exposure
    descriptor and take and drop a PM reference. *)
Definition ctrl_frame (s s' : arducam_64mp) : Prop :=
  fmt_code s' = fmt_code s
  /\ mode s' = mode s
  /\ streaming s' = streaming s
  /\ common_regs_written s' = common_regs_written s
  /\ (forall id, read_only (ctrl_handler s' id) = read_only (ctrl_handler s id))
  /\ vblank s' = vblank s
  /\ runtime_active (dev s') = runtime_active (dev s)
  /\ usage_count (dev s') = usage_count (dev s)
  /\ extends s s'.

(** The four stages of [arducam_64mp_start_streaming]. *)
Definition stage_common (t : arducam_64mp) : Z * arducam_64mp :=
  if negb (common_regs_written t) then
    let '(ret, s') := arducam_64mp_write_regs t mode_common_regs
                        (ARRAY_SIZE mode_common_regs) in
    if negb (ret =? 0) then (ret, s')
    else (0, set_common_regs_written s' true)
  else (0, t).

Definition stage_mode (t : arducam_64mp) : Z * arducam_64mp :=
  arducam_64mp_write_regs t (regs (reg_list (mode t)))
    (num_of_regs (reg_list (mode t))).

Definition stage_select (t : arducam_64mp) : Z * arducam_64mp :=
  arducam_64mp_write_reg t ARDUCAM_64MP_REG_MODE_SELECT
    ARDUCAM_64MP_REG_VALUE_08BIT ARDUCAM_64MP_MODE_STREAMING.

Definition start_stages : list (arducam_64mp -> Z * arducam_64mp) :=
  [stage_common; stage_mode; __v4l2_ctrl_handler_setup; stage_select].

(** Run stages in order; the first nonzero return value ends the run. *)
Fixpoint run_stages (l : list (arducam_64mp -> Z * arducam_64mp))
  (t : arducam_64mp) : Z * arducam_64mp :=
  match l with
  | [] => (0, t)
  | f :: rest =>
      let '(ret, t') := f t in
      if negb (ret =? 0) then (ret, t') else run_stages rest t'
  end.

(** [first_nearest l m w h]: [m] is an entry of [l] of least distance to
    (w, h), and every entry listed before it is strictly farther. *)
Definition first_nearest (l : list arducam_64mp_mode) (m : arducam_64mp_mode)
  (w h : Z) : Prop :=
  exists l1 l2,
    l = l1 ++ m :: l2
    /\ (forall x, In x l1 -> size_error m w h < size_error x w h)
    /\ (forall x, In x l2 -> size_error m w h <= size_error x w h).

Definition request_1920x1080 : v4l2_subdev_format :=
  {| which := V4L2_SUBDEV_FORMAT_ACTIVE; pad := IMAGE_PAD;
     format := {| f_width := 1920; f_height := 1080;
                  code := MEDIA_BUS_FMT_SBGGR10_1X10;
                  field := V4L2_FIELD_ANY;
                  colorspace := V4L2_COLORSPACE_DEFAULT |} |}.

Definition blank_try_state : v4l2_subdev_state :=
  {| try_fmt_img := format request_1920x1080;
     try_fmt_meta := format request_1920x1080;
     try_crop := mk_rect 0 0 0 0 |}.

(** The tail of [arducam_64mp_set_ctrl] after the exposure range has been
    adjusted: the power check and the register write. *)
Definition set_ctrl_powered (s1 : arducam_64mp) (id : v4l2_cid)
  : Z * arducam_64mp :=
  let '(in_use, s2) := pm_runtime_get_if_in_use s1 in
  if in_use =? 0 then (0, s2)
  else
    let '(ret, s3) := set_ctrl_apply s2 id in
    (ret, pm_runtime_put s3).

(** A powered device in use, with 1000 lines of vertical blanking and the
    exposure at 7500 lines. *)
Definition long_exposure_state : arducam_64mp :=
  let s1 := snd (__v4l2_ctrl_s_ctrl (set_dev (probed []) device_in_use)
                   V4L2_CID_VBLANK 1000) in
  update_ctrl s1 V4L2_CID_EXPOSURE (set_val (exposure s1) 7500).

(** The two transfers a VBLANK value [vb] turns into on a mode of height
    [h], with the shift [k]. *)
Definition frame_length_events (vb h k : Z) : list i2c_event :=
  let w := Z.shiftr (u32 (vb + h)) k in
  [mk_event [0x03; 0x40; w / 2 ^ 8; w mod 2 ^ 8] 4;
   mk_event [0x31; 0x00; k] 3].

(** [k] is the least shift count that brings [raw] into 16 bits. *)
Definition is_long_exp_shift (raw k : Z) : Prop :=
  0 <= k <= 16
  /\ Z.shiftr raw k <= 0xFFFF
  /\ (forall j, 0 <= j < k -> 0xFFFF < Z.shiftr raw j).

(** * Further functions of the driver *)

(** ** Register reads and the chip identity *)

Definition ARDUCAM_64MP_REG_CHIP_ID : Z := 0x005E.
Definition ARDUCAM_64MP_CHIP_ID : Z := 0x4136.

(** Big-endian load of four bytes ([asm/unaligned.h]). *)
Definition get_unaligned_be32 (buf : list Z) : Z :=
  Z.lor (Z.lor (Z.lor (Z.shiftl (nth 0 buf 0) 24) (Z.shiftl (nth 1 buf 0) 16))
           (Z.shiftl (nth 2 buf 0) 8))
    (nth 3 buf 0).

(** What the adapter answers to the two-message transfer of a register
    read: the return value of [i2c_transfer] and the bytes read. *)
Record i2c_reply := mk_reply {
  rep_ret : Z;
  rep_data : list Z
}.

(** The device behind a read: from the address bytes written and the
    number of bytes asked for to the reply. *)
Definition i2c_reader : Type := list Z -> Z -> i2c_reply.

(** Read registers up to 2 at a time.  [old] is the content of [*val]
    before the call; it is what [*val] holds after a failed call.  The
    bytes read land at [data_buf[4 - len]], in a buffer of zeroes. *)
Definition arducam_64mp_read_reg (dev_ : i2c_reader) (reg len old : Z)
  : Z * Z :=
  let addr_buf := [u8 (Z.shiftr (u16 reg) 8); u8 (Z.land (u16 reg) 0xff)] in
  if len >? 4 then (- EINVAL, old)
  else
    let rep := dev_ addr_buf len in
    let data_buf :=
      firstn 4 (repeat 0 (Z.to_nat (4 - len))
                ++ map u8 (firstn (Z.to_nat len) (rep_data rep))
                ++ repeat 0 4) in
    if negb (rep_ret rep =? 2) then (- EIO, old)
    else (0, get_unaligned_be32 data_buf).

(** Verify chip ID.  [dummy] is the result of [i2c_new_dummy_device]: an
    error code, or the device at address 0x50. *)
Definition arducam_64mp_identify_module (dummy : Z + i2c_reader) : Z :=
  match dummy with
  | inl err => err
  | inr arducam_identifier =>
      let '(ret, v) :=
        arducam_64mp_read_reg arducam_identifier ARDUCAM_64MP_REG_CHIP_ID
          ARDUCAM_64MP_REG_VALUE_16BIT 0 in
      if negb (ret =? 0) then ret
      else if negb (v =? ARDUCAM_64MP_CHIP_ID) then - EIO
      else ret
  end.

(** ** Enumeration and the open hook *)

Definition fmt_eqb (a b : media_bus_fmt) : bool :=
  match a, b with
  | MEDIA_BUS_FMT_SRGGB10_1X10, MEDIA_BUS_FMT_SRGGB10_1X10
  | MEDIA_BUS_FMT_SGRBG10_1X10, MEDIA_BUS_FMT_SGRBG10_1X10
  | MEDIA_BUS_FMT_SGBRG10_1X10, MEDIA_BUS_FMT_SGBRG10_1X10
  | MEDIA_BUS_FMT_SBGGR10_1X10, MEDIA_BUS_FMT_SBGGR10_1X10
  | MEDIA_BUS_FMT_SENSOR_DATA, MEDIA_BUS_FMT_SENSOR_DATA => true
  | _, _ => false
  end.

Record v4l2_subdev_mbus_code_enum := mk_code_enum {
  ce_pad : Z;
  ce_index : Z;
  ce_code : media_bus_fmt
}.

Definition arducam_64mp_enum_mbus_code (s : arducam_64mp)
  (c : v4l2_subdev_mbus_code_enum) : Z * v4l2_subdev_mbus_code_enum :=
  if ce_pad c >=? NUM_PADS then (- EINVAL, c)
  else if ce_pad c =? IMAGE_PAD then
    if ce_index c >? 0 then (- EINVAL, c)
    else (0, {| ce_pad := ce_pad c; ce_index := ce_index c;
                ce_code := arducam_64mp_get_format_code s |})
  else
    if ce_index c >? 0 then (- EINVAL, c)
    else (0, {| ce_pad := ce_pad c; ce_index := ce_index c;
                ce_code := MEDIA_BUS_FMT_SENSOR_DATA |}).

Record v4l2_subdev_frame_size_enum := mk_size_enum {
  fse_index : Z;
  fse_pad : Z;
  fse_code : media_bus_fmt;
  min_width : Z;
  max_width : Z;
  min_height : Z;
  max_height : Z
}.

Definition fse_set_sizes (f : v4l2_subdev_frame_size_enum) (w h : Z)
  : v4l2_subdev_frame_size_enum :=
  {| fse_index := fse_index f; fse_pad := fse_pad f; fse_code := fse_code f;
     min_width := w; max_width := w; min_height := h; max_height := h |}.

Definition arducam_64mp_enum_frame_size (s : arducam_64mp)
  (fse : v4l2_subdev_frame_size_enum) : Z * v4l2_subdev_frame_size_enum :=
  if fse_pad fse >=? NUM_PADS then (- EINVAL, fse)
  else if fse_pad fse =? IMAGE_PAD then
    if fse_index fse >=? ARRAY_SIZE supported_modes then (- EINVAL, fse)
    else if negb (fmt_eqb (fse_code fse) (arducam_64mp_get_format_code s))
    then (- EINVAL, fse)
    else
      let m := nth (Z.to_nat (fse_index fse)) supported_modes (mode s) in
      (0, fse_set_sizes fse (width m) (height m))
  else
    if negb (fmt_eqb (fse_code fse) MEDIA_BUS_FMT_SENSOR_DATA)
       || (fse_index fse >? 0)
    then (- EINVAL, fse)
    else (0, fse_set_sizes fse ARDUCAM_64MP_EMBEDDED_LINE_WIDTH
               ARDUCAM_64MP_NUM_EMBEDDED_LINES).

(** The open hook: the try state a new file handle starts with.  Only the
    fields the C code assigns change. *)
Definition arducam_64mp_open (s : arducam_64mp) (st : v4l2_subdev_state)
  : Z * v4l2_subdev_state :=
  let m0 := nth 0 supported_modes (mode s) in
  (0,
   {| (* Initialize try_fmt for the image pad *)
      try_fmt_img :=
        {| f_width := width m0; f_height := height m0;
           code := arducam_64mp_get_format_code s;
           field := V4L2_FIELD_NONE;
           colorspace := colorspace (try_fmt_img st) |};
      (* Initialize try_fmt for the embedded metadata pad *)
      try_fmt_meta :=
        {| f_width := ARDUCAM_64MP_EMBEDDED_LINE_WIDTH;
           f_height := ARDUCAM_64MP_NUM_EMBEDDED_LINES;
           code := MEDIA_BUS_FMT_SENSOR_DATA;
           field := V4L2_FIELD_NONE;
           colorspace := colorspace (try_fmt_meta st) |};
      (* Initialize try_crop *)
      try_crop :=
        {| r_left := ARDUCAM_64MP_PIXEL_ARRAY_LEFT;
           r_top := ARDUCAM_64MP_PIXEL_ARRAY_TOP;
           r_width := ARDUCAM_64MP_PIXEL_ARRAY_WIDTH;
           r_height := ARDUCAM_64MP_PIXEL_ARRAY_HEIGHT |} |}).

(** ** Vocabulary of the further statements *)

(** The format an image-pad request comes back with. *)
Definition image_format (m : arducam_64mp_mode) (c : media_bus_fmt)
  : v4l2_mbus_framefmt :=
  {| f_width := width m; f_height := height m; code := c;
     field := V4L2_FIELD_NONE; colorspace := V4L2_COLORSPACE_RAW |}.

(** An image-pad request for a size, with the rest of the format as a
    caller may leave it. *)
Definition image_request (wh : v4l2_subdev_format_whence) (w h : Z)
  : v4l2_subdev_format :=
  {| which := wh; pad := IMAGE_PAD;
     format := {| f_width := w; f_height := h;
                  code := MEDIA_BUS_FMT_SENSOR_DATA;
                  field := V4L2_FIELD_ANY;
                  colorspace := V4L2_COLORSPACE_DEFAULT |} |}.

Definition size_query (p i : Z) (c : media_bus_fmt)
  : v4l2_subdev_frame_size_enum :=
  {| fse_index := i; fse_pad := p; fse_code := c;
     min_width := 0; max_width := 0; min_height := 0; max_height := 0 |}.



(** The mode-select writes. *)
Definition standby_msg : list Z := [0x01; 0x00; 0x00].

(** * Properties *)

(** ** Register access *)

Lemma i2c_master_send_eq c buf :
  i2c_master_send c buf = (hd (Z.of_nat (length buf)) (script c), sent c buf).
Proof.
  unfold i2c_master_send, sent. destruct (script c); reflexivity.
Qed.

Lemma reg_msg_length reg len v :
  0 <= len <= 4 -> Z.of_nat (length (reg_msg reg len v)) = len + 2.
Proof.
  intros H. unfold reg_msg. rewrite length_firstn.
  change (length (put_unaligned_be16 reg ++ put_unaligned_be32 _)) with 6%nat.
  lia.
Qed.

Lemma write_reg_eq s reg len v :
  0 <= len <= 4 ->
  arducam_64mp_write_reg s reg len v =
    (if hd (len + 2) (script (client s)) =? len + 2 then 0 else - EIO,
     set_client s (sent (client s) (reg_msg reg len v))).
Proof.
  intros H. unfold arducam_64mp_write_reg.
  destruct (len >? 4) eqn:E; [lia|].
  fold (reg_msg reg len v). rewrite i2c_master_send_eq.
  rewrite reg_msg_length by assumption.
  destruct (hd (len + 2) (script (client s)) =? len + 2); reflexivity.
Qed.

Lemma skipn_tl {A : Type} (n : nat) (l : list A) :
  skipn n (tl l) = skipn (S n) l.
Proof. destruct l; [destruct n|]; reflexivity. Qed.

Lemma nth_tl {A : Type} (n : nat) (l : list A) (d : A) :
  nth n (tl l) d = nth (S n) l d.
Proof. destruct l; [destruct n|]; reflexivity. Qed.

Lemma hd_nth0 {A : Type} (l : list A) (d : A) : hd d l = nth 0 l d.
Proof. destruct l; reflexivity. Qed.

Lemma write_regs_loop_done (rs : list arducam_64mp_reg) :
  forall s,
    (forall j, (j < length rs)%nat -> nth j (script (client s)) 3 = 3) ->
    write_regs_loop s rs =
      (0, set_client s
            {| script := skipn (length rs) (script (client s));
               trace := trace (client s) ++ map (fun r => reg_event r 3) rs |}).
Proof.
  induction rs as [|r rs IH]; intros s Hok.
  - simpl. rewrite app_nil_r. destruct s as [? ? ? ? ? ? [? ?] ?]. reflexivity.
  - cbn [write_regs_loop]. rewrite write_reg_eq by lia.
    change (1 + 2) with 3.
    assert (H0 : hd 3 (script (client s)) = 3).
    { rewrite hd_nth0. apply Hok. simpl. lia. }
    rewrite H0. cbn [Z.eqb Pos.eqb negb].
    rewrite IH.
    + unfold sent, set_client. cbn [client script trace length map].
      rewrite reg_msg_length by lia. change (1 + 2) with 3.
      rewrite <- app_assoc, skipn_tl, H0. reflexivity.
    + intros j Hj. unfold sent, set_client. cbn [client script].
      rewrite nth_tl. apply Hok. simpl. lia.
Qed.

Lemma write_regs_loop_fail (rs : list arducam_64mp_reg) :
  forall s i r,
    nth_error rs i = Some r ->
    (forall j, (j < i)%nat -> nth j (script (client s)) 3 = 3) ->
    nth i (script (client s)) 3 <> 3 ->
    write_regs_loop s rs =
      (- EIO,
       set_client s
         {| script := skipn (S i) (script (client s));
            trace := trace (client s)
                     ++ map (fun r => reg_event r 3) (firstn i rs)
                     ++ [reg_event r (nth i (script (client s)) 3)] |}).
Proof.
  induction rs as [|r0 rs IH]; intros s i r Hr Hok Hbad.
  - destruct i; discriminate.
  - cbn [write_regs_loop]. rewrite write_reg_eq by lia.
    change (1 + 2) with 3. rewrite hd_nth0.
    destruct i as [|i].
    + injection Hr as ->.
      destruct (Z.eqb_spec (nth 0 (script (client s)) 3) 3);
        [contradiction|].
      cbn [negb Z.eqb firstn map app]. unfold sent, set_client, reg_event.
      cbn [client]. rewrite reg_msg_length by lia. change (1 + 2) with 3.
      rewrite hd_nth0. reflexivity.
    + assert (H0 : nth 0 (script (client s)) 3 = 3) by (apply Hok; lia).
      rewrite H0. cbn [Z.eqb Pos.eqb negb].
      rewrite (IH _ i r).
      * unfold sent, set_client. cbn [client script trace firstn map].
        rewrite reg_msg_length by lia. change (1 + 2) with 3.
        rewrite <- app_assoc, nth_tl, skipn_tl, hd_nth0, H0. reflexivity.
      * exact Hr.
      * intros j Hj. unfold sent, set_client. cbn [client script].
        rewrite nth_tl. apply Hok. lia.
      * unfold sent, set_client. cbn [client script]. rewrite nth_tl.
        exact Hbad.
Qed.

Lemma applied_app t1 t2 : applied (t1 ++ t2) = applied t1 ++ applied t2.
Proof. unfold applied. rewrite filter_app, map_app. reflexivity. Qed.

Lemma ev_ok_reg_event r ret : ev_ok (reg_event r ret) = (ret =? 3).
Proof.
  unfold ev_ok, reg_event. cbn [ev_ret ev_buf].
  rewrite reg_msg_length by lia. reflexivity.
Qed.

Lemma applied_reg_events (l : list arducam_64mp_reg) :
  applied (map (fun r => reg_event r 3) l)
  = map (fun r => reg_msg (address r) 1 (reg_val r)) l.
Proof.
  induction l as [|r l IH]; [reflexivity|].
  unfold applied in *. cbn [map filter]. rewrite ev_ok_reg_event.
  cbn [Z.eqb Pos.eqb map]. rewrite IH. reflexivity.
Qed.

Lemma firstn_array_size {A : Type} (l : list A) :
  firstn (Z.to_nat (ARRAY_SIZE l)) l = l.
Proof. unfold ARRAY_SIZE. rewrite Nat2Z.id. apply firstn_all. Qed.

(** C9. [arducam_64mp_write_regs] sends the entries of a register list in
    the order of the list.  When the adapter completes the transfers of
    entries 0..i-1 and not the transfer of entry i, the function returns
    the error of that write (-EIO); the trace then holds the completed
    transfers of entries 0..i-1 followed by the failed one and nothing for
    the entries after i, the device has taken exactly entries 0..i-1 (none
    is rolled back), and no other part of the driver state has changed. *)
Theorem write_regs_aborts_at_first_failure
  (s : arducam_64mp) (rs : list arducam_64mp_reg) (i : nat)
  (r : arducam_64mp_reg) :
  nth_error rs i = Some r ->
  (forall j, (j < i)%nat -> nth j (script (client s)) 3 = 3) ->
  nth i (script (client s)) 3 <> 3 ->
  let res := arducam_64mp_write_regs s rs (ARRAY_SIZE rs) in
  fst res = - EIO
  /\ trace (client (snd res))
     = trace (client s)
       ++ map (fun r => reg_event r 3) (firstn i rs)
       ++ [reg_event r (nth i (script (client s)) 3)]
  /\ applied (trace (client (snd res)))
     = applied (trace (client s)) ++ reg_msgs (firstn i rs)
  /\ snd res = set_client s (client (snd res)).
Proof.
  intros Hr Hok Hbad res. subst res. unfold arducam_64mp_write_regs.
  rewrite firstn_array_size, (write_regs_loop_fail rs s i r Hr Hok Hbad).
  cbn [fst snd]. unfold set_client at 1 2. cbn [client trace].
  repeat split.
  rewrite !applied_app, applied_reg_events.
  replace (applied [reg_event r (nth i (script (client s)) 3)]) with
    (@nil (list Z)); [rewrite app_nil_r; reflexivity|].
  unfold applied. cbn [filter]. rewrite ev_ok_reg_event.
  destruct (Z.eqb_spec (nth i (script (client s)) 3) 3);
    [contradiction | reflexivity].
Qed.

Lemma write_regs_aborts_at_first_failure_witness :
  let s := probed [3; 3; -5] in
  let rs := mode_1280x720_regs in
  nth_error rs 2 = Some (mk_reg 0x0340 0x04)
  /\ fst (arducam_64mp_write_regs s rs (ARRAY_SIZE rs)) = - EIO
  /\ applied (trace (client (snd (arducam_64mp_write_regs s rs (ARRAY_SIZE rs)))))
     = [[0x03; 0x42; 0x1b]; [0x03; 0x43; 0x08]].
Proof.
  intros s rs.
  assert (Hr : nth_error rs 2 = Some (mk_reg 0x0340 0x04)) by reflexivity.
  assert (Hok : forall j, (j < 2)%nat -> nth j (script (client s)) 3 = 3).
  { intros j Hj. destruct j as [|[|j]]; [reflexivity | reflexivity | lia]. }
  assert (Hbad : nth 2 (script (client s)) 3 <> 3) by (vm_compute; discriminate).
  destruct (write_regs_aborts_at_first_failure s rs 2 _ Hr Hok Hbad)
    as (H1 & _ & H3 & _).
  split; [exact Hr|]. split; [exact H1|]. rewrite H3. reflexivity.
Defined.

(** ** Frame length and long exposure shift *)

Lemma land_ff x : Z.land x 0xff = x mod 2 ^ 8.
Proof. change 0xff with (Z.ones 8). apply Z.land_ones. lia. Qed.

(** A 16-bit register write carries the value in two bytes, high first. *)
Lemma reg_msg_16bit reg v :
  0 <= v < 2 ^ 16 ->
  reg_msg reg 2 v = put_unaligned_be16 reg ++ [v / 2 ^ 8; v mod 2 ^ 8].
Proof.
  intros Hv. unfold reg_msg, put_unaligned_be16, put_unaligned_be32.
  change (Z.to_nat (2 + 2)) with 4%nat. change (8 * (4 - 2)) with 16.
  cbn [app firstn]. rewrite !land_ff, Z.shiftl_mul_pow2 by lia.
  unfold u32. rewrite (Z.mod_small (v * 2 ^ 16)) by lia.
  rewrite !Z.shiftr_div_pow2 by lia.
  replace (v * 2 ^ 16 / 2 ^ 24) with (v / 2 ^ 8)
    by (change (2 ^ 24) with (2 ^ 8 * 2 ^ 16);
        rewrite Z.div_mul_cancel_r by lia; reflexivity).
  replace (v * 2 ^ 16 / 2 ^ 16) with v by (rewrite Z.div_mul by lia; reflexivity).
  rewrite (Z.mod_small (v / 2 ^ 8))
    by (split; [apply Z.div_pos; lia | apply Z.div_lt_upper_bound; lia]).
  reflexivity.
Qed.

(** An 8-bit register write carries the value in one byte. *)
Lemma reg_msg_8bit reg v :
  0 <= v < 2 ^ 8 ->
  reg_msg reg 1 v = put_unaligned_be16 reg ++ [v].
Proof.
  intros Hv. unfold reg_msg, put_unaligned_be16, put_unaligned_be32.
  change (Z.to_nat (1 + 2)) with 3%nat. change (8 * (4 - 1)) with 24.
  cbn [app firstn]. rewrite !land_ff, Z.shiftl_mul_pow2 by lia.
  unfold u32. rewrite (Z.mod_small (v * 2 ^ 24)) by lia.
  rewrite !Z.shiftr_div_pow2 by lia.
  rewrite Z.div_mul by lia. rewrite (Z.mod_small v) by lia. reflexivity.
Qed.

(** The loop stops at the first shift count that brings the value into the
    16-bit range, provided the fuel covers the bits above bit 15. *)
Lemma frame_length_loop_fuel (fuel : nat) :
  forall v sh,
    0 <= v < 2 ^ (16 + Z.of_nat fuel) ->
    0 <= sh -> sh + Z.of_nat fuel < 2 ^ 32 ->
    exists k,
      0 <= k <= Z.of_nat fuel
      /\ frame_length_loop fuel v sh = (Z.shiftr v k, sh + k)
      /\ Z.shiftr v k <= ARDUCAM_64MP_FRAME_LENGTH_MAX
      /\ (forall j, 0 <= j < k ->
                    ARDUCAM_64MP_FRAME_LENGTH_MAX < Z.shiftr v j).
Proof.
  unfold ARDUCAM_64MP_FRAME_LENGTH_MAX.
  induction fuel as [|fuel IH]; intros v sh Hv Hsh Hfit.
  - exists 0. change (16 + Z.of_nat 0) with 16 in Hv.
    rewrite Z.shiftr_0_r, Z.add_0_r. cbn [frame_length_loop].
    repeat split; try lia.
  - cbn [frame_length_loop]. unfold ARDUCAM_64MP_FRAME_LENGTH_MAX.
    destruct (Z.gtb_spec v 65535) as [Hgt|Hle].
    + assert (Hhalf : 0 <= Z.shiftr v 1 < 2 ^ (16 + Z.of_nat fuel)).
      { rewrite Z.shiftr_div_pow2 by lia. change (2 ^ 1) with 2.
        replace (16 + Z.of_nat (S fuel)) with (1 + (16 + Z.of_nat fuel)) in Hv
          by lia.
        rewrite Z.pow_add_r in Hv by lia. change (2 ^ 1) with 2 in Hv.
        split; [apply Z.div_pos; lia | apply Z.div_lt_upper_bound; lia]. }
      assert (Hu : u32 (sh + 1) = sh + 1)
        by (unfold u32; apply Z.mod_small; lia).
      rewrite Hu.
      destruct (IH (Z.shiftr v 1) (sh + 1) Hhalf) as (k & Hk & Heq & Hfin & Hmin);
        [lia | lia |].
      exists (1 + k). rewrite Heq, Z.shiftr_shiftr in * by lia.
      repeat split; try lia.
      * f_equal. lia.
      * intros j Hj. destruct (Z.eq_dec j 0) as [->|Hj0].
        -- rewrite Z.shiftr_0_r. lia.
        -- replace j with (1 + (j - 1)) by lia.
           rewrite <- Z.shiftr_shiftr by lia. apply Hmin. lia.
    + exists 0. rewrite Z.shiftr_0_r, Z.add_0_r. repeat split; try lia.
Qed.

Lemma u32_range x : 0 <= u32 x < 2 ^ 32.
Proof. unfold u32. apply Z.mod_pos_bound. lia. Qed.

Lemma u32_add_idem a b : u32 (u32 a + u32 b) = u32 (a + b).
Proof. unfold u32. symmetry. apply Z.add_mod. lia. Qed.

Lemma set_frame_length_loop_result (s : arducam_64mp) (vb : Z) :
  let raw := u32 (vb + height (mode s)) in
  exists k,
    0 <= k <= 16
    /\ frame_length_loop 32 raw 0 = (Z.shiftr raw k, k)
    /\ Z.shiftr raw k <= ARDUCAM_64MP_FRAME_LENGTH_MAX
    /\ (forall j, 0 <= j < k -> ARDUCAM_64MP_FRAME_LENGTH_MAX < Z.shiftr raw j).
Proof.
  intros raw. pose proof (u32_range (vb + height (mode s))) as Hraw.
  fold raw in Hraw.
  destruct (frame_length_loop_fuel 32 raw 0) as (k & Hk & Heq & Hfin & Hmin);
    [change (2 ^ (16 + Z.of_nat 32)) with (2 ^ 48); lia | lia
    | change (Z.of_nat 32) with 32; lia |].
  exists k. rewrite Z.add_0_l in Heq. repeat split; try assumption; try lia.
  destruct (Z_le_gt_dec k 16) as [Hle|Hgt]; [exact Hle|].
  specialize (Hmin 16 ltac:(lia)).
  assert (Z.shiftr raw 16 < 2 ^ 16).
  { rewrite Z.shiftr_div_pow2 by lia. apply Z.div_lt_upper_bound; lia. }
  unfold ARDUCAM_64MP_FRAME_LENGTH_MAX in Hmin. lia.
Qed.

(** The exact result of [arducam_64mp_set_frame_length]: the shift [k] goes
    into the state first, then come the two writes. *)
Lemma set_frame_length_eq (s : arducam_64mp) (vb : Z) :
  let raw := u32 (vb + height (mode s)) in
  let r1 := hd 4 (script (client s)) in
  let r2 := hd 3 (tl (script (client s))) in
  exists k,
    0 <= k <= 16
    /\ frame_length_loop 32 raw 0 = (Z.shiftr raw k, k)
    /\ Z.shiftr raw k <= 0xFFFF
    /\ (forall j, 0 <= j < k -> 0xFFFF < Z.shiftr raw j)
    /\ arducam_64mp_set_frame_length s vb =
       (if r1 =? 4 then if r2 =? 3 then 0 else - EIO else - EIO,
        set_client (set_long_exp_shift s k)
          {| script := if r1 =? 4 then tl (tl (script (client s)))
                       else tl (script (client s));
             trace := trace (client s)
               ++ mk_event [0x03; 0x40; Z.shiftr raw k / 2 ^ 8;
                            Z.shiftr raw k mod 2 ^ 8] r1
                  :: (if r1 =? 4 then [mk_event [0x31; 0x00; k] r2]
                      else []) |}).
Proof.
  intros raw r1 r2.
  destruct (set_frame_length_loop_result s vb) as (k0 & Hk & Heq & Hfin & Hmin).
  fold raw in Heq, Hfin, Hmin.
  assert (Hw : 0 <= Z.shiftr raw k0 < 2 ^ 16).
  { split; [apply Z.shiftr_nonneg; apply u32_range|].
    unfold ARDUCAM_64MP_FRAME_LENGTH_MAX in Hfin. lia. }
  exists k0. repeat split; try assumption; try lia.
  unfold arducam_64mp_set_frame_length.
  rewrite u32_add_idem. fold raw. rewrite Heq.
  unfold ARDUCAM_64MP_REG_VALUE_16BIT, ARDUCAM_64MP_REG_VALUE_08BIT.
  rewrite write_reg_eq by lia. change (2 + 2) with 4.
  change (client (set_long_exp_shift s k0)) with (client s). fold r1.
  rewrite reg_msg_16bit by assumption.
  change (put_unaligned_be16 ARDUCAM_64MP_REG_FRAME_LENGTH) with [0x03; 0x40].
  destruct (r1 =? 4) eqn:E1; cbn [negb Z.eqb].
  - rewrite write_reg_eq by lia. change (1 + 2) with 3.
    unfold sent, set_client, set_long_exp_shift.
    cbn [client script long_exp_shift trace fmt_code ctrl_handler mode
         streaming common_regs_written dev].
    rewrite reg_msg_8bit by lia.
    change (put_unaligned_be16 ARDUCAM_64MP_LONG_EXP_SHIFT_REG)
      with [0x31; 0x00].
    cbn [app length]. rewrite <- app_assoc. cbn [app].
    change (Z.of_nat 4) with 4. change (Z.of_nat 3) with 3.
    fold r1 r2. reflexivity.
  - unfold sent, set_client, set_long_exp_shift.
    cbn [client script long_exp_shift trace fmt_code ctrl_handler mode
         streaming common_regs_written dev app length].
    change (Z.of_nat 4) with 4. fold r1. reflexivity.
Qed.

(** C1. For every [vblank] handed to [arducam_64mp_set_frame_length], with
    raw = vblank + mode height (as the 32-bit sum the code forms, which is
    the plain sum whenever that fits 32 bits), the shift the function
    stores in the driver state is the least k >= 0 with raw >> k <= 0xFFFF;
    (at most 7 for every frame length the VBLANK control can reach); the
    first transfer is a 16-bit write of raw >> k to the frame-length
    register 0x0340; when it completes, the next transfer is an 8-bit write
    of k to the long-exposure-shift register 0x3100; the call returns 0
    when both complete and -EIO otherwise. *)
Theorem set_frame_length_shift_is_minimal (s : arducam_64mp) (vb : Z) :
  let raw := u32 (vb + height (mode s)) in
  let res := arducam_64mp_set_frame_length s vb in
  let k := long_exp_shift (snd res) in
  let r1 := hd 4 (script (client s)) in
  let r2 := hd 3 (tl (script (client s))) in
  (0 <= vb -> 0 <= height (mode s) -> vb + height (mode s) < 2 ^ 32 ->
   raw = vb + height (mode s))
  /\ 0 <= k <= 16
  /\ (raw <= 2 ^ 7 * 0xFFFF -> k <= ARDUCAM_64MP_LONG_EXP_SHIFT_MAX)
  /\ Z.shiftr raw k <= 0xFFFF
  /\ (forall j, 0 <= j < k -> 0xFFFF < Z.shiftr raw j)
  /\ trace (client (snd res))
     = trace (client s)
       ++ mk_event [0x03; 0x40; Z.shiftr raw k / 2 ^ 8; Z.shiftr raw k mod 2 ^ 8] r1
          :: (if r1 =? 4 then [mk_event [0x31; 0x00; k] r2] else [])
  /\ fst res = (if r1 =? 4 then if r2 =? 3 then 0 else - EIO else - EIO)
  /\ snd res = set_client (set_long_exp_shift s k) (client (snd res)).
Proof.
  intros raw res k r1 r2.
  split; [intros; unfold raw, u32; apply Z.mod_small; lia|].
  destruct (set_frame_length_eq s vb) as (k0 & Hk & _ & Hfin & Hmin & Hres).
  fold raw r1 r2 in Hfin, Hmin, Hres. fold res in Hres.
  assert (Hkk : k = k0) by (subst k; rewrite Hres; reflexivity).
  assert (H7 : raw <= 2 ^ 7 * 0xFFFF -> k0 <= 7).
  { intros Hraw. destruct (Z_le_gt_dec k0 7) as [Hle|Hgt]; [exact Hle|].
    specialize (Hmin 7 ltac:(lia)).
    rewrite Z.shiftr_div_pow2 in Hmin by lia.
    assert (raw / 2 ^ 7 <= 0xFFFF)
      by (apply Z.lt_succ_r, Z.div_lt_upper_bound; lia).
    lia. }
  rewrite Hkk. rewrite Hres. cbn [fst snd].
  unfold set_client at 1 3. cbn [client trace].
  unfold ARDUCAM_64MP_LONG_EXP_SHIFT_MAX.
  repeat split; try assumption; try lia.
Qed.

(** The example of the spec: a raw frame length of 200000 lines on the
    6944-line mode gives shift 2 and the register value 50000. *)
Example set_frame_length_200000 :
  let s := set_dev (probed []) (mk_device 1 true 0 0 true true 1) in
  let res := arducam_64mp_set_frame_length s (200000 - 6944) in
  fst res = 0
  /\ long_exp_shift (snd res) = 2
  /\ applied (trace (client (snd res)))
     = [[0x03; 0x40; 50000 / 256; 50000 mod 256]; [0x31; 0x00; 2]].
Proof. vm_compute. repeat split. Qed.

(** C3, as the spec states it, does not hold: when the frame-length write
    fails, the newly computed shift is already in the driver state.  Here
    the stored shift is 0, the adapter fails the first transfer, and the
    call returns -EIO with the stored shift changed to 2. *)
Lemma set_frame_length_failed_write_keeps_new_shift :
  let s := set_dev (probed [-5]) device_in_use in
  let res := arducam_64mp_set_frame_length s (200000 - 6944) in
  hd 4 (script (client s)) <> 4
  /\ fst res = - EIO
  /\ long_exp_shift s = 0
  /\ long_exp_shift (snd res) = 2
  /\ long_exp_shift (snd res) <> long_exp_shift s.
Proof. vm_compute. repeat split; discriminate. Qed.

(** C3, amended.  [arducam_64mp_set_frame_length] stores the computed shift
    k in the driver state before either register write, and no failure
    revises it.  If the frame-length write fails, the call returns the
    error with that one transfer attempted and the stored shift already k.
    If the shift-register write fails after the frame-length write
    completed, the call returns the error and the stored shift is the k of
    the value raw >> k that the frame-length register received. *)
Theorem set_frame_length_shift_stored_before_writes
  (s : arducam_64mp) (vb : Z) :
  let raw := u32 (vb + height (mode s)) in
  let res := arducam_64mp_set_frame_length s vb in
  let k := snd (frame_length_loop 32 raw 0) in
  let r1 := hd 4 (script (client s)) in
  let r2 := hd 3 (tl (script (client s))) in
  long_exp_shift (snd res) = k
  /\ (r1 <> 4 ->
      fst res = - EIO
      /\ trace (client (snd res))
         = trace (client s)
           ++ [mk_event [0x03; 0x40; Z.shiftr raw k / 2 ^ 8;
                         Z.shiftr raw k mod 2 ^ 8] r1])
  /\ (r1 = 4 -> r2 <> 3 ->
      fst res = - EIO
      /\ applied (trace (client (snd res)))
         = applied (trace (client s))
           ++ [[0x03; 0x40; Z.shiftr raw k / 2 ^ 8; Z.shiftr raw k mod 2 ^ 8]]).
Proof.
  intros raw res k r1 r2.
  destruct (set_frame_length_eq s vb) as (k0 & _ & Heq & _ & _ & Hres).
  fold raw r1 r2 in Heq, Hres. fold res in Hres.
  assert (Hk : k = k0) by (subst k; rewrite Heq; reflexivity).
  rewrite Hk, Hres. cbn [fst snd]. unfold set_client, set_long_exp_shift.
  cbn [long_exp_shift client trace].
  split; [reflexivity|]. split.
  - intros H1. destruct (Z.eqb_spec r1 4); [contradiction|]. split; reflexivity.
  - intros H1 H2. rewrite H1. cbn [Z.eqb Pos.eqb].
    destruct (Z.eqb_spec r2 3); [contradiction|]. split; [reflexivity|].
    rewrite applied_app. f_equal. unfold applied, ev_ok.
    cbn [filter ev_ret ev_buf length map]. change (Z.of_nat 4) with 4.
    change (Z.of_nat 3) with 3. cbn [Z.eqb Pos.eqb].
    destruct (Z.eqb_spec r2 3); [contradiction | reflexivity].
Qed.

Lemma set_frame_length_shift_stored_before_writes_witness :
  let s := set_dev (probed [4; -5]) device_in_use in
  let res := arducam_64mp_set_frame_length s (200000 - 6944) in
  fst res = - EIO
  /\ long_exp_shift (snd res) = 2
  /\ applied (trace (client (snd res))) = [[0x03; 0x40; 195; 80]].
Proof.
  intros s res.
  destruct (set_frame_length_shift_stored_before_writes s (200000 - 6944))
    as (H1 & _ & H3).
  destruct H3 as (H4 & H5); [reflexivity | vm_compute; discriminate |].
  split; [exact H4|].
  split; [etransitivity; [exact H1 | reflexivity]|].
  etransitivity; [exact H5 | reflexivity].
Defined.

(** ** Pixel encoding and flips *)

(** C5. For every flip pair (h, v) in {0,1}^2 the code that
    [arducam_64mp_get_format_code] returns is entry 2*v + h of [codes],
    whose order is no flip, h flip, v flip, both; the code depends on the
    state through the two flip values only, so queries between which the
    flips do not change give the same code. *)
Theorem get_format_code_flip_index (s : arducam_64mp) (h v : Z) :
  (h = 0 \/ h = 1) -> (v = 0 \/ v = 1) ->
  val (hflip s) = h -> val (vflip s) = v ->
  arducam_64mp_get_format_code s
  = nth (Z.to_nat (2 * v + h)) codes MEDIA_BUS_FMT_SRGGB10_1X10
  /\ codes = [MEDIA_BUS_FMT_SRGGB10_1X10; MEDIA_BUS_FMT_SGRBG10_1X10;
              MEDIA_BUS_FMT_SGBRG10_1X10; MEDIA_BUS_FMT_SBGGR10_1X10]
  /\ (forall s', val (hflip s') = val (hflip s) ->
                 val (vflip s') = val (vflip s) ->
                 arducam_64mp_get_format_code s'
                 = arducam_64mp_get_format_code s).
Proof.
  intros Hh Hv Eh Ev. split; [|split; [reflexivity|]].
  - unfold arducam_64mp_get_format_code. rewrite Eh, Ev.
    destruct Hh as [-> | ->], Hv as [-> | ->]; reflexivity.
  - intros s' E1 E2. unfold arducam_64mp_get_format_code.
    rewrite E1, E2. reflexivity.
Qed.

Lemma get_format_code_flip_index_witness :
  let s := update_ctrl (probed []) V4L2_CID_VFLIP
             (set_val (vflip (probed [])) 1) in
  val (hflip s) = 0 /\ val (vflip s) = 1
  /\ arducam_64mp_get_format_code s = MEDIA_BUS_FMT_SGBRG10_1X10.
Proof.
  intros s.
  assert (Eh : val (hflip s) = 0) by reflexivity.
  assert (Ev : val (vflip s) = 1) by reflexivity.
  destruct (get_format_code_flip_index s 0 1 (or_introl eq_refl)
              (or_intror eq_refl) Eh Ev) as (H & _ & _).
  split; [exact Eh|]. split; [exact Ev|]. rewrite H. reflexivity.
Defined.

(** ** Frame length from a frame interval *)

(** C6. For every mode and every frame interval with 32-bit fields and a
    nonzero divisor, [arducam_64mp_get_frame_length] returns
    floor(numerator * PIXEL_RATE / (denominator * line_length_pix)),
    clamped to at most FRAME_LENGTH_MAX and then to at least the mode
    height. *)
Theorem get_frame_length_formula (m : arducam_64mp_mode) (t : v4l2_fract) :
  0 <= numerator t < 2 ^ 32 ->
  0 < denominator t < 2 ^ 32 ->
  0 < line_length_pix m < 2 ^ 32 ->
  0 <= height m < 2 ^ 32 ->
  arducam_64mp_get_frame_length m t
  = Z.max (height m)
      (Z.min ARDUCAM_64MP_FRAME_LENGTH_MAX
         (numerator t * ARDUCAM_64MP_PIXEL_RATE
          / (denominator t * line_length_pix m))).
Proof.
  intros Hn Hd Hl Hh. unfold arducam_64mp_get_frame_length, do_div.
  unfold ARDUCAM_64MP_PIXEL_RATE, ARDUCAM_64MP_FRAME_LENGTH_MAX.
  assert (Hnum : u64 (u64 (numerator t) * 900000000)
                 = numerator t * 900000000).
  { unfold u64. rewrite (Z.mod_small (numerator t)) by lia.
    apply Z.mod_small. nia. }
  assert (Hden : u64 (u64 (denominator t) * line_length_pix m)
                 = denominator t * line_length_pix m).
  { unfold u64. rewrite (Z.mod_small (denominator t)) by lia.
    apply Z.mod_small. nia. }
  rewrite Hnum, Hden.
  set (q := numerator t * 900000000 / (denominator t * line_length_pix m)).
  assert (Hq : 0 <= q) by (apply Z.div_pos; nia).
  assert (Hu : u32 (height m) = height m)
    by (unfold u32; apply Z.mod_small; lia).
  rewrite Hu, Z.max_comm. f_equal.
  destruct (Z.gtb_spec q 65535).
  - rewrite Z.min_l by lia. reflexivity.
  - rewrite Z.min_r by lia. unfold u32. apply Z.mod_small. lia.
Qed.

Lemma get_frame_length_formula_witness :
  let m := nth 6 supported_modes (mode (probed [])) in
  let t := timeperframe_default m in
  arducam_64mp_get_frame_length m t = 1083.
Proof.
  intros m t.
  rewrite (get_frame_length_formula m t);
    [reflexivity | vm_compute; split; [discriminate | reflexivity]
    | vm_compute; split; reflexivity | vm_compute; split; reflexivity
    | vm_compute; split; [discriminate | reflexivity]].
Defined.

(** ** Stream on/off requests *)

Lemma set_stream_on_eq (s : arducam_64mp) :
  streaming s = false ->
  arducam_64mp_set_stream s 1 =
    (if negb (fst (start_attempt s) =? 0) then start_attempt s
     else (0, stream_entered (snd (start_attempt s)) true)).
Proof.
  intros Hs. unfold arducam_64mp_set_stream, start_attempt. rewrite Hs.
  change (Z.b2z false =? 1) with false. change (negb (1 =? 0)) with true.
  cbv iota.
  destruct (pm_runtime_get_sync s) as [r t].
  destruct (r <? 0).
  - cbn [fst snd]. destruct (negb (r =? 0)); reflexivity.
  - destruct (arducam_64mp_start_streaming t) as [r' t'].
    destruct (negb (r' =? 0)) eqn:E; cbn [fst snd].
    + rewrite E. reflexivity.
    + reflexivity.
Qed.

(** C8. A call of [arducam_64mp_set_stream] whose [enable] equals the
    current streaming flag returns 0 and leaves the whole state, the I2C
    trace included, as it was: no register is written.  In particular a
    second start request after a successful one changes nothing. *)
Theorem set_stream_same_state_is_noop (s : arducam_64mp) :
  arducam_64mp_set_stream s (Z.b2z (streaming s)) = (0, s)
  /\ (forall s1, arducam_64mp_set_stream s 1 = (0, s1) ->
                 streaming s = false ->
                 arducam_64mp_set_stream s1 1 = (0, s1)).
Proof.
  split.
  - unfold arducam_64mp_set_stream. rewrite Z.eqb_refl. reflexivity.
  - intros s1 H Hs.
    assert (Hon : streaming s1 = true).
    { rewrite (set_stream_on_eq s Hs) in H.
      destruct (start_attempt s) as [r t]. cbn [fst snd] in H.
      destruct (Z.eqb_spec r 0) as [->|Hr]; cbn [negb] in H.
      - injection H as <-. reflexivity.
      - injection H as H _. contradiction. }
    unfold arducam_64mp_set_stream. rewrite Hon. reflexivity.
Qed.

(** ** What the register-writing code leaves alone *)

Lemma extends_refl s : extends s s.
Proof. exists []. symmetry. apply app_nil_r. Qed.

Lemma extends_trans s1 s2 s3 : extends s1 s2 -> extends s2 s3 -> extends s1 s3.
Proof.
  intros [l1 H1] [l2 H2]. exists (l1 ++ l2). rewrite H2, H1. symmetry. apply app_assoc.
Qed.

Lemma reg_frame_refl s : reg_frame s s.
Proof. unfold reg_frame. repeat split; apply extends_refl. Qed.

Lemma reg_frame_trans s1 s2 s3 :
  reg_frame s1 s2 -> reg_frame s2 s3 -> reg_frame s1 s3.
Proof.
  unfold reg_frame. intros (A1 & A2 & A3 & A4 & A5 & A6 & A7)
    (B1 & B2 & B3 & B4 & B5 & B6 & B7).
  repeat split; try congruence. eapply extends_trans; eassumption.
Qed.

Lemma ctrl_frame_refl s : ctrl_frame s s.
Proof. unfold ctrl_frame. repeat split; apply extends_refl. Qed.

Lemma ctrl_frame_trans s1 s2 s3 :
  ctrl_frame s1 s2 -> ctrl_frame s2 s3 -> ctrl_frame s1 s3.
Proof.
  unfold ctrl_frame.
  intros (A1 & A2 & A3 & A4 & A5 & A6 & A7 & A8 & A9)
    (B1 & B2 & B3 & B4 & B5 & B6 & B7 & B8 & B9).
  split; [congruence|]. split; [congruence|]. split; [congruence|].
  split; [congruence|]. split; [intros id; rewrite B5; apply A5|].
  split; [congruence|]. split; [congruence|]. split; [congruence|].
  eapply extends_trans; eassumption.
Qed.

Lemma reg_frame_ctrl_frame s s' : reg_frame s s' -> ctrl_frame s s'.
Proof.
  unfold reg_frame, ctrl_frame, vblank.
  intros (A1 & A2 & A3 & A4 & A5 & A6 & A7).
  rewrite A2, A6. repeat split; assumption.
Qed.

Lemma write_reg_frame s reg len v :
  reg_frame s (snd (arducam_64mp_write_reg s reg len v)).
Proof.
  unfold arducam_64mp_write_reg.
  destruct (len >? 4); [apply reg_frame_refl|].
  rewrite i2c_master_send_eq.
  destruct (negb _); cbn [snd]; unfold reg_frame, extends, set_client, sent;
    cbn [fmt_code ctrl_handler mode streaming common_regs_written dev client
         trace]; repeat split; eexists; reflexivity.
Qed.

Lemma write_regs_loop_frame (l : list arducam_64mp_reg) :
  forall s, reg_frame s (snd (write_regs_loop s l)).
Proof.
  induction l as [|r l IH]; intros s; cbn [write_regs_loop].
  - apply reg_frame_refl.
  - pose proof (write_reg_frame s (address r) 1 (reg_val r)) as H.
    destruct (arducam_64mp_write_reg s (address r) 1 (reg_val r)) as [ret s1].
    cbn [snd] in H. destruct (negb (ret =? 0)); [exact H|].
    eapply reg_frame_trans; [exact H | apply IH].
Qed.

Lemma write_regs_frame s rs len :
  reg_frame s (snd (arducam_64mp_write_regs s rs len)).
Proof. apply write_regs_loop_frame. Qed.

Lemma set_long_exp_shift_frame s k : reg_frame s (set_long_exp_shift s k).
Proof.
  unfold reg_frame, extends. repeat split.
  exists []. symmetry. apply app_nil_r.
Qed.

Lemma set_frame_length_frame s vb :
  reg_frame s (snd (arducam_64mp_set_frame_length s vb)).
Proof.
  unfold arducam_64mp_set_frame_length.
  destruct (frame_length_loop _ _ _) as [v sh].
  pose proof (write_reg_frame (set_long_exp_shift s sh)
                ARDUCAM_64MP_REG_FRAME_LENGTH ARDUCAM_64MP_REG_VALUE_16BIT v)
    as H.
  destruct (arducam_64mp_write_reg (set_long_exp_shift s sh) _ _ v)
    as [ret s2].
  cbn [snd] in H.
  assert (H' : reg_frame s s2)
    by (eapply reg_frame_trans; [apply set_long_exp_shift_frame | exact H]).
  destruct (negb (ret =? 0)); [exact H'|].
  eapply reg_frame_trans; [exact H' | apply write_reg_frame].
Qed.

Lemma set_ctrl_apply_frame s id : reg_frame s (snd (set_ctrl_apply s id)).
Proof.
  unfold set_ctrl_apply.
  destruct id; try apply write_reg_frame; try apply reg_frame_refl.
  apply set_frame_length_frame.
Qed.

Lemma adjust_exposure_range_frame s :
  ctrl_frame s (arducam_64mp_adjust_exposure_range s).
Proof.
  unfold ctrl_frame, arducam_64mp_adjust_exposure_range, update_ctrl,
    set_ctrl_handler, vblank, extends.
  cbn [fmt_code ctrl_handler mode streaming common_regs_written dev client
       cid_eqb].
  split; [reflexivity|]. split; [reflexivity|]. split; [reflexivity|].
  split; [reflexivity|].
  split; [intros id; destruct id; reflexivity|].
  split; [reflexivity|]. split; [reflexivity|]. split; [reflexivity|].
  exists []. symmetry. apply app_nil_r.
Qed.

Lemma pm_get_put_frame s1 s3 :
  reg_frame
    (set_dev s1 (set_usage_count (dev s1) (usage_count (dev s1) + 1))) s3 ->
  ctrl_frame s1 (pm_runtime_put s3).
Proof.
  unfold reg_frame, ctrl_frame, pm_runtime_put, set_dev, set_usage_count,
    vblank, extends.
  cbn [fmt_code ctrl_handler mode streaming common_regs_written dev client
       usage_count runtime_active].
  intros (A1 & A2 & A3 & A4 & A5 & A6 & A7).
  rewrite A6. cbn [usage_count runtime_active]. rewrite A2.
  split; [assumption|]. split; [assumption|]. split; [assumption|].
  split; [assumption|]. split; [reflexivity|]. split; [reflexivity|].
  split; [reflexivity|]. split; [lia | assumption].
Qed.

Lemma set_ctrl_frame s id : ctrl_frame s (snd (arducam_64mp_set_ctrl s id)).
Proof.
  unfold arducam_64mp_set_ctrl.
  set (s1 := if cid_eqb id V4L2_CID_VBLANK
             then arducam_64mp_adjust_exposure_range s else s).
  assert (F1 : ctrl_frame s s1).
  { subst s1. destruct (cid_eqb id V4L2_CID_VBLANK);
      [apply adjust_exposure_range_frame | apply ctrl_frame_refl]. }
  unfold pm_runtime_get_if_in_use.
  destruct (runtime_active (dev s1) && (0 <? usage_count (dev s1))).
  - change (1 =? 0) with false. cbv iota.
    pose proof (set_ctrl_apply_frame
      (set_dev s1 (set_usage_count (dev s1) (usage_count (dev s1) + 1))) id)
      as H.
    destruct (set_ctrl_apply _ id) as [ret s3]. cbn [snd] in *.
    eapply ctrl_frame_trans; [exact F1 | apply pm_get_put_frame; exact H].
  - exact F1.
Qed.

Lemma ctrl_setup_loop_frame (l : list v4l2_cid) :
  forall s, ctrl_frame s (snd (ctrl_setup_loop s l)).
Proof.
  induction l as [|id l IH]; intros s; cbn [ctrl_setup_loop].
  - apply ctrl_frame_refl.
  - destruct (read_only (ctrl_handler s id)); [apply IH|].
    pose proof (set_ctrl_frame s id) as H.
    destruct (arducam_64mp_set_ctrl s id) as [ret s1]. cbn [snd] in H.
    destruct (negb (ret =? 0)); [exact H|].
    eapply ctrl_frame_trans; [exact H | apply IH].
Qed.

(** [arducam_64mp_start_streaming] never touches the streaming flag, the
    mode or the format code. *)
Lemma start_streaming_frame s :
  let s' := snd (arducam_64mp_start_streaming s) in
  streaming s' = streaming s /\ mode s' = mode s /\ fmt_code s' = fmt_code s
  /\ extends s s'.
Proof.
  unfold arducam_64mp_start_streaming.
  set (st1 := if negb (common_regs_written s) then _ else _).
  assert (F1 : streaming (snd st1) = streaming s /\ mode (snd st1) = mode s
               /\ fmt_code (snd st1) = fmt_code s /\ extends s (snd st1)).
  { subst st1. destruct (negb (common_regs_written s));
      [|cbn [snd]; repeat split; apply extends_refl].
    pose proof (write_regs_frame s mode_common_regs
                  (ARRAY_SIZE mode_common_regs)) as H.
    destruct (arducam_64mp_write_regs s mode_common_regs _) as [ret s'].
    cbn [snd] in H. destruct H as (A1 & A2 & A3 & A4 & A5 & A6 & A7).
    destruct (negb (ret =? 0)); cbn [snd]; repeat split; assumption. }
  destruct st1 as [ret1 s1]. cbn [snd] in F1.
  destruct F1 as (B1 & B2 & B3 & B4).
  destruct (negb (ret1 =? 0)); [cbn [snd]; repeat split; assumption|].
  pose proof (write_regs_frame s1 (regs (reg_list (mode s1)))
                (num_of_regs (reg_list (mode s1)))) as H.
  destruct (arducam_64mp_write_regs s1 _ _) as [ret2 s2]. cbn [snd] in H.
  destruct H as (A1 & A2 & A3 & A4 & A5 & A6 & A7).
  assert (E2 : extends s s2) by (eapply extends_trans; eassumption).
  destruct (negb (ret2 =? 0));
    [cbn [snd]; repeat split; congruence || assumption|].
  pose proof (ctrl_setup_loop_frame handler_ctrls s2) as H.
  unfold __v4l2_ctrl_handler_setup.
  destruct (ctrl_setup_loop s2 handler_ctrls) as [ret3 s3]. cbn [snd] in H.
  destruct H as (C1 & C2 & C3 & C4 & C5 & C6 & C7 & C8 & C9).
  assert (E3 : extends s s3) by (eapply extends_trans; eassumption).
  destruct (negb (ret3 =? 0));
    [cbn [snd]; repeat split; congruence || assumption|].
  pose proof (write_reg_frame s3 ARDUCAM_64MP_REG_MODE_SELECT
                ARDUCAM_64MP_REG_VALUE_08BIT ARDUCAM_64MP_MODE_STREAMING) as H.
  destruct H as (D1 & D2 & D3 & D4 & D5 & D6 & D7).
  repeat split; try congruence. eapply extends_trans; eassumption.
Qed.

(** ** Failures while starting the stream *)

Lemma start_streaming_stages (t : arducam_64mp) :
  arducam_64mp_start_streaming t = run_stages start_stages t.
Proof.
  unfold arducam_64mp_start_streaming, start_stages.
  cbn [run_stages]. fold (stage_common t).
  destruct (stage_common t) as [r1 t1].
  destruct (negb (r1 =? 0)); [reflexivity|].
  fold (stage_mode t1). destruct (stage_mode t1) as [r2 t2].
  destruct (negb (r2 =? 0)); [reflexivity|].
  destruct (__v4l2_ctrl_handler_setup t2) as [r3 t3].
  destruct (negb (r3 =? 0)); [reflexivity|].
  fold (stage_select t3). destruct (stage_select t3) as [r4 t4].
  destruct (Z.eqb_spec r4 0) as [->|]; reflexivity.
Qed.

Lemma run_stages_first_failure (pre : list (arducam_64mp -> Z * arducam_64mp)) :
  forall f post t t',
    run_stages pre t = (0, t') ->
    fst (f t') <> 0 ->
    run_stages (pre ++ f :: post) t = f t'.
Proof.
  induction pre as [|g pre IH]; intros f post t t' Hpre Hf.
  - injection Hpre as <-. cbn [app run_stages].
    destruct (f t) as [r t1]. cbn [fst] in Hf.
    destruct (Z.eqb_spec r 0); [contradiction | reflexivity].
  - cbn [app run_stages] in *. destruct (g t) as [r t1].
    destruct (Z.eqb_spec r 0) as [->|Hr]; cbn [negb] in *.
    + apply IH; assumption.
    + injection Hpre as Hr0 _. contradiction.
Qed.

Lemma pm_runtime_get_sync_dev_only (s : arducam_64mp) :
  exists d, snd (pm_runtime_get_sync s) = set_dev s d.
Proof.
  unfold pm_runtime_get_sync, arducam_64mp_power_on.
  cbn [dev set_dev].
  destruct (runtime_active _); [eexists; reflexivity|].
  destruct (negb (regulator_ret _ =? 0)); cbn [snd negb];
    [destruct (negb (regulator_ret _ =? 0)); eexists; reflexivity|].
  destruct (negb (clk_ret _ =? 0)); cbn [snd negb];
    [destruct (negb (clk_ret _ =? 0)); eexists; reflexivity|].
  eexists; reflexivity.
Qed.

Lemma start_attempt_flags (s : arducam_64mp) :
  streaming (snd (start_attempt s)) = streaming s
  /\ ((fst (pm_runtime_get_sync s) <? 0) = false ->
      fst (arducam_64mp_start_streaming (snd (pm_runtime_get_sync s))) <> 0 ->
      fst (start_attempt s)
      = fst (arducam_64mp_start_streaming (snd (pm_runtime_get_sync s)))
      /\ common_regs_written (snd (start_attempt s))
         = common_regs_written
             (snd (arducam_64mp_start_streaming (snd (pm_runtime_get_sync s))))).
Proof.
  unfold start_attempt.
  destruct (pm_runtime_get_sync_dev_only s) as [d Hd].
  destruct (pm_runtime_get_sync s) as [r t]. cbn [fst snd] in *. subst t.
  pose proof (start_streaming_frame (set_dev s d)) as (F1 & _).
  destruct (arducam_64mp_start_streaming (set_dev s d)) as [r' t'].
  cbn [fst snd] in *.
  split.
  - destruct (r <? 0); [reflexivity|].
    destruct (negb (r' =? 0)); cbn [snd]; exact F1.
  - intros Hr Hr'. rewrite Hr.
    destruct (Z.eqb_spec r' 0); [contradiction|]. split; reflexivity.
Qed.

(** C4. A start request on a device that is not streaming: whenever
    [arducam_64mp_set_stream] returns an error the streaming flag is still
    false.  Whatever stage of [arducam_64mp_start_streaming] is the first
    to fail (common registers, mode registers, control replay, mode
    select), its error is what [arducam_64mp_start_streaming] returns, with
    the state as that stage left it and the streaming flag untouched, and
    it is what [arducam_64mp_set_stream] returns.  When the failing stage
    is the common-register block, [common_regs_written] is false
    afterwards. *)
Theorem start_streaming_failure_stays_not_streaming (s : arducam_64mp) :
  streaming s = false ->
  let res := arducam_64mp_set_stream s 1 in
  let on := pm_runtime_get_sync s in
  (fst res <> 0 -> streaming (snd res) = false)
  /\ (forall t pre f post t',
        start_stages = pre ++ f :: post ->
        run_stages pre t = (0, t') ->
        fst (f t') <> 0 ->
        arducam_64mp_start_streaming t = f t'
        /\ streaming (snd (f t')) = streaming t)
  /\ (0 <= fst on ->
      fst (arducam_64mp_start_streaming (snd on)) <> 0 ->
      fst res = fst (arducam_64mp_start_streaming (snd on)))
  /\ (forall t,
        common_regs_written t = false ->
        fst (arducam_64mp_write_regs t mode_common_regs
               (ARRAY_SIZE mode_common_regs)) <> 0 ->
        arducam_64mp_start_streaming t
        = arducam_64mp_write_regs t mode_common_regs
            (ARRAY_SIZE mode_common_regs)
        /\ common_regs_written (snd (arducam_64mp_start_streaming t)) = false)
  /\ (0 <= fst on ->
      common_regs_written s = false ->
      fst (arducam_64mp_write_regs (snd on) mode_common_regs
             (ARRAY_SIZE mode_common_regs)) <> 0 ->
      fst res = fst (arducam_64mp_write_regs (snd on) mode_common_regs
                       (ARRAY_SIZE mode_common_regs))
      /\ common_regs_written (snd res) = false
      /\ streaming (snd res) = false).
Proof.
  intros Hs res on.
  assert (Hcommon : forall t,
    common_regs_written t = false ->
    fst (arducam_64mp_write_regs t mode_common_regs
           (ARRAY_SIZE mode_common_regs)) <> 0 ->
    arducam_64mp_start_streaming t
    = arducam_64mp_write_regs t mode_common_regs (ARRAY_SIZE mode_common_regs)
    /\ common_regs_written (snd (arducam_64mp_start_streaming t)) = false).
  { intros t Ht Hf. unfold arducam_64mp_start_streaming. rewrite Ht.
    cbn [negb].
    pose proof (write_regs_frame t mode_common_regs
                  (ARRAY_SIZE mode_common_regs)) as (_ & _ & _ & _ & A5 & _).
    destruct (arducam_64mp_write_regs t mode_common_regs _) as [r t1].
    cbn [fst snd] in *.
    assert (E : (r =? 0) = false) by (apply Z.eqb_neq; exact Hf).
    rewrite E. cbn [negb]. cbv beta iota. rewrite ?E. cbn [negb snd].
    split; [reflexivity | congruence]. }
  assert (Hres : fst res <> 0 -> res = start_attempt s).
  { intros H. subst res. rewrite (set_stream_on_eq s Hs) in *.
    destruct (Z.eqb_spec (fst (start_attempt s)) 0); cbn [negb fst] in *;
      [contradiction | reflexivity]. }
  assert (Hstart : 0 <= fst on ->
    fst (arducam_64mp_start_streaming (snd on)) <> 0 ->
    res = start_attempt s
    /\ fst res = fst (arducam_64mp_start_streaming (snd on))
    /\ common_regs_written (snd res)
       = common_regs_written (snd (arducam_64mp_start_streaming (snd on)))).
  { intros Hon Hf.
    destruct (start_attempt_flags s) as (_ & H).
    destruct H as (H1 & H2); [apply Z.ltb_ge; exact Hon | exact Hf |].
    assert (Hr : res = start_attempt s)
      by (subst res; rewrite (set_stream_on_eq s Hs);
          destruct (Z.eqb_spec (fst (start_attempt s)) 0) as [E|E];
          [fold on in H1; congruence | reflexivity]).
    rewrite Hr. repeat split; assumption. }
  split; [|split; [|split; [|split]]].
  - intros H. rewrite (Hres H).
    destruct (start_attempt_flags s) as (H1 & _). congruence.
  - intros t pre f post t' Hst Hpre Hf.
    pose proof (start_streaming_frame t) as (F & _).
    rewrite start_streaming_stages, Hst in *.
    rewrite (run_stages_first_failure pre f post t t' Hpre Hf) in *.
    split; [reflexivity | exact F].
  - intros Hon Hf. apply (Hstart Hon Hf).
  - exact Hcommon.
  - intros Hon Hc Hf.
    destruct (pm_runtime_get_sync_dev_only s) as [d Hd]. fold on in Hd.
    assert (Hc' : common_regs_written (snd on) = false)
      by (rewrite Hd; exact Hc).
    destruct (Hcommon (snd on) Hc' Hf) as (E1 & E2).
    assert (Hf' : fst (arducam_64mp_start_streaming (snd on)) <> 0)
      by (rewrite E1; exact Hf).
    destruct (Hstart Hon Hf') as (E3 & E4 & E5).
    split; [rewrite E4, E1; reflexivity|].
    split; [rewrite E5; exact E2|].
    rewrite E3. destruct (start_attempt_flags s) as (H1 & _). congruence.
Qed.

Lemma start_streaming_failure_stays_not_streaming_witness :
  let s := probed [3; 3; -5] in
  let res := arducam_64mp_set_stream s 1 in
  streaming s = false
  /\ fst res = - EIO
  /\ common_regs_written (snd res) = false
  /\ streaming (snd res) = false.
Proof.
  intros s res.
  assert (Hs : streaming s = false) by reflexivity.
  destruct (start_streaming_failure_stays_not_streaming s Hs)
    as (_ & _ & _ & _ & H).
  destruct H as (H1 & H2 & H3);
    [vm_compute; discriminate | reflexivity | vm_compute; discriminate |].
  split; [exact Hs|]. split; [etransitivity; [exact H1 | reflexivity]|].
  split; assumption.
Defined.

(** ** Nearest-size mode selection *)

Lemma nearest_size_loop_first (l : list arducam_64mp_mode) :
  forall best w h,
    first_nearest (best :: l) (nearest_size_loop best l w h) w h.
Proof.
  induction l as [|m l IH]; intros best w h; cbn [nearest_size_loop].
  - exists [], []. repeat split; intros x [].
  - destruct (Z.ltb_spec (size_error m w h) (size_error best w h)) as [Hlt|Hge].
    + destruct (IH m w h) as (l1 & l2 & Hl & H1 & H2).
      set (r := nearest_size_loop m l w h) in *.
      assert (Hrm : size_error r w h <= size_error m w h).
      { destruct l1 as [|y l1]; cbn [app] in Hl.
        - injection Hl as Hm _. rewrite <- Hm. lia.
        - injection Hl as Hm _. subst y.
          specialize (H1 m (or_introl eq_refl)). lia. }
      exists (best :: l1), l2. split; [cbn [app]; rewrite Hl; reflexivity|].
      split; [|exact H2].
      intros x [<-|Hx]; [lia | apply H1; exact Hx].
    + destruct (IH best w h) as (l1 & l2 & Hl & H1 & H2).
      set (r := nearest_size_loop best l w h) in *.
      destruct l1 as [|y l1]; cbn [app] in Hl.
      * injection Hl as Hb Hl'. exists [], (m :: l2).
        split; [cbn [app]; rewrite <- Hb, Hl'; reflexivity|].
        split; [intros x []|].
        intros x [<-|Hx]; [rewrite <- Hb; lia | apply H2; exact Hx].
      * injection Hl as Hb Hl'. subst y.
        exists (best :: m :: l1), l2.
        split; [cbn [app]; rewrite Hl'; reflexivity|].
        split; [|exact H2].
        pose proof (H1 best (or_introl eq_refl)) as Hrb.
        intros x [<-|[<-|Hx]]; [exact Hrb | lia |].
        apply H1. right. exact Hx.
Qed.

Lemma find_nearest_size_first (l : list arducam_64mp_mode) (w h : Z) :
  l <> [] ->
  exists m, v4l2_find_nearest_size l w h = Some m /\ first_nearest l m w h.
Proof.
  intros Hl. destruct l as [|m0 l]; [contradiction|].
  exists (nearest_size_loop m0 l w h). split; [reflexivity|].
  apply nearest_size_loop_first.
Qed.

Lemma update_ctrl_mode s id c : mode (update_ctrl s id c) = mode s.
Proof. reflexivity. Qed.

Lemma set_framing_limits_mode (s : arducam_64mp) :
  mode (arducam_64mp_set_framing_limits s) = mode s.
Proof.
  unfold arducam_64mp_set_framing_limits.
  set (s2 := update_ctrl (set_long_exp_shift s 0) V4L2_CID_VBLANK _).
  set (v := s32 _).
  assert (H : mode (snd (__v4l2_ctrl_s_ctrl s2 V4L2_CID_VBLANK v)) = mode s).
  { unfold __v4l2_ctrl_s_ctrl.
    destruct (_ || _); [reflexivity|].
    pose proof (set_ctrl_frame
      (update_ctrl s2 V4L2_CID_VBLANK
         (set_val (ctrl_handler s2 V4L2_CID_VBLANK) v)) V4L2_CID_VBLANK)
      as (_ & A & _).
    rewrite A. reflexivity. }
  destruct (__v4l2_ctrl_s_ctrl s2 V4L2_CID_VBLANK v) as [r s3].
  cbn [snd] in H. rewrite update_ctrl_mode. exact H.
Qed.

(** C7. For every requested (width, height) on the image pad,
    [arducam_64mp_set_pad_format] succeeds (returns 0, never the null
    case): the mode it takes from [supported_modes] has the least total
    dimension distance |width - w| + |height - h| to the request, and every
    entry listed before it is strictly farther, so ties go to the
    earliest-listed entry.  The returned format carries that mode's size;
    an active request makes it the current mode, a try request stores the
    format in the try state and leaves the device state alone. *)
Theorem set_pad_format_selects_first_nearest
  (s : arducam_64mp) (st : v4l2_subdev_state) (fmt : v4l2_subdev_format) :
  pad fmt = IMAGE_PAD ->
  exists m fmt' st' s',
    arducam_64mp_set_pad_format s st fmt = Some (0, fmt', st', s')
    /\ In m supported_modes
    /\ first_nearest supported_modes m
         (f_width (format fmt)) (f_height (format fmt))
    /\ f_width (format fmt') = width m
    /\ f_height (format fmt') = height m
    /\ (which fmt = V4L2_SUBDEV_FORMAT_ACTIVE -> mode s' = m /\ st' = st)
    /\ (which fmt = V4L2_SUBDEV_FORMAT_TRY ->
        s' = s /\ try_fmt_img st' = format fmt').
Proof.
  intros Hpad.
  destruct (find_nearest_size_first supported_modes
              (f_width (format fmt)) (f_height (format fmt)))
    as (m & Hm & Hfirst); [discriminate|].
  assert (Hin : In m supported_modes).
  { destruct Hfirst as (l1 & l2 & Hl & _). rewrite Hl.
    apply in_or_app. right. left. reflexivity. }
  unfold arducam_64mp_set_pad_format. rewrite Hpad.
  change (IMAGE_PAD >=? NUM_PADS) with false.
  change (IMAGE_PAD =? IMAGE_PAD) with true. cbv iota.
  change (f_width (format (set_format_code fmt
            (arducam_64mp_get_format_code s)))) with (f_width (format fmt)).
  change (f_height (format (set_format_code fmt
            (arducam_64mp_get_format_code s)))) with (f_height (format fmt)).
  rewrite Hm.
  change (which (arducam_64mp_update_image_pad_format m
            (set_format_code fmt (arducam_64mp_get_format_code s))))
    with (which fmt).
  destruct (which fmt) eqn:Hw.
  - eexists m, _, _, _. split; [reflexivity|].
    split; [exact Hin|]. split; [exact Hfirst|].
    split; [reflexivity|]. split; [reflexivity|].
    split; [discriminate|]. intros _. split; [reflexivity|].
    unfold store_try_format, arducam_64mp_update_image_pad_format,
      set_format_code. cbn [pad]. rewrite Hpad. reflexivity.
  - eexists m, _, _, _. split; [reflexivity|].
    split; [exact Hin|]. split; [exact Hfirst|].
    split; [reflexivity|]. split; [reflexivity|].
    split; [|discriminate]. intros _.
    split; [|reflexivity]. rewrite set_framing_limits_mode. reflexivity.
Qed.

Lemma set_pad_format_selects_first_nearest_witness :
  pad request_1920x1080 = IMAGE_PAD
  /\ exists m fmt' st' s',
       arducam_64mp_set_pad_format (probed []) blank_try_state
         request_1920x1080 = Some (0, fmt', st', s')
       /\ In m supported_modes
       /\ first_nearest supported_modes m 1920 1080
       /\ f_width (format fmt') = width m
       /\ f_height (format fmt') = height m
       /\ (which request_1920x1080 = V4L2_SUBDEV_FORMAT_ACTIVE ->
           mode s' = m /\ st' = blank_try_state)
       /\ (which request_1920x1080 = V4L2_SUBDEV_FORMAT_TRY ->
           s' = probed [] /\ try_fmt_img st' = format fmt').
Proof.
  split; [reflexivity|].
  exact (set_pad_format_selects_first_nearest (probed []) blank_try_state
           request_1920x1080 eq_refl).
Defined.

(** A request half way between the first two modes is at distance 1048
    from both; the model of the search keeps the one listed first. *)
Example set_pad_format_tie :
  size_error (nth 0 supported_modes (mode (probed []))) 8576 6472 = 1048
  /\ size_error (nth 1 supported_modes (mode (probed []))) 8576 6472 = 1048
  /\ option_map width (v4l2_find_nearest_size supported_modes 8576 6472)
     = Some 9152.
Proof. vm_compute. repeat split. Qed.

(** The scenario of the spec: a request for 1920x1080 gives exactly that
    mode, with its declared crop rectangle and line length. *)
Example set_pad_format_1920x1080 :
  match arducam_64mp_set_pad_format (probed []) blank_try_state
          request_1920x1080 with
  | Some (ret, fmt', _, s') =>
      ret = 0
      /\ (f_width (format fmt'), f_height (format fmt')) = (1920, 1080)
      /\ (width (mode s'), height (mode s'), line_length_pix (mode s'))
         = (1920, 1080, 0x29e3)
      /\ crop (mode s') = mk_rect (48 + 784) (40 + 1312) 7680 4320
      /\ code (format fmt') = MEDIA_BUS_FMT_SRGGB10_1X10
  | None => False
  end.
Proof. vm_compute. repeat split. Qed.

(** ** Vertical blanking and the exposure range *)

(** The C expression for [exposure_max] is the plain difference for every
    frame length the VBLANK control can reach. *)
Lemma exposure_max_value (h v : Z) :
  0 <= h -> 0 <= v -> h + v <= 2 ^ 7 * 0xFFFF ->
  s32 (u32 (u32 h + u32 v) - ARDUCAM_64MP_EXPOSURE_OFFSET) = h + v - 48.
Proof.
  intros Hh Hv Hs. unfold ARDUCAM_64MP_EXPOSURE_OFFSET.
  rewrite u32_add_idem. unfold s32, u32.
  rewrite (Z.mod_small (h + v)) by lia.
  destruct (Z_lt_le_dec (h + v) 48) as [Hlt|Hge].
  - replace ((h + v - 48) mod 2 ^ 32) with (h + v - 48 + 2 ^ 32).
    + destruct (Z.ltb_spec (h + v - 48 + 2 ^ 32) (2 ^ 31)); lia.
    + apply (Z.mod_unique _ _ (-1)); lia.
  - rewrite (Z.mod_small (h + v - 48)) by lia.
    destruct (Z.ltb_spec (h + v - 48) (2 ^ 31)); lia.
Qed.

Lemma set_ctrl_vblank_eq (s : arducam_64mp) :
  arducam_64mp_set_ctrl s V4L2_CID_VBLANK
  = set_ctrl_powered (arducam_64mp_adjust_exposure_range s) V4L2_CID_VBLANK.
Proof. reflexivity. Qed.

(** The tail changes no control descriptor and only adds to the trace. *)
Lemma set_ctrl_powered_frame (s1 : arducam_64mp) (id : v4l2_cid) :
  ctrl_handler (snd (set_ctrl_powered s1 id)) = ctrl_handler s1
  /\ extends s1 (snd (set_ctrl_powered s1 id)).
Proof.
  unfold set_ctrl_powered, pm_runtime_get_if_in_use.
  destruct (runtime_active (dev s1) && (0 <? usage_count (dev s1))).
  - change (1 =? 0) with false. cbv iota.
    pose proof (set_ctrl_apply_frame
      (set_dev s1 (set_usage_count (dev s1) (usage_count (dev s1) + 1))) id)
      as (_ & A2 & _ & _ & _ & _ & A7).
    destruct (set_ctrl_apply _ id) as [ret s3]. cbn [snd] in *.
    split; [exact A2 | exact A7].
  - split; [reflexivity | apply extends_refl].
Qed.

Lemma adjust_exposure_range_exposure (s : arducam_64mp) :
  let exposure_max :=
    s32 (u32 (u32 (height (mode s)) + u32 (val (vblank s)))
         - ARDUCAM_64MP_EXPOSURE_OFFSET) in
  exposure (arducam_64mp_adjust_exposure_range s)
  = __v4l2_ctrl_modify_range (exposure s) (minimum (exposure s))
      exposure_max (step (exposure s))
      (Z.min exposure_max (val (exposure s))).
Proof. reflexivity. Qed.

(** What [arducam_64mp_adjust_exposure_range] does to the exposure
    descriptor, for a frame length in the range of the VBLANK control. *)
Lemma adjust_exposure_range_result (s : arducam_64mp) :
  0 <= height (mode s) -> 0 <= val (vblank s) ->
  height (mode s) + val (vblank s) <= 2 ^ 7 * 0xFFFF ->
  minimum (exposure s) <= val (exposure s) ->
  minimum (exposure s) <= height (mode s) + val (vblank s) - 48 ->
  let emax := height (mode s) + val (vblank s) - 48 in
  let s1 := arducam_64mp_adjust_exposure_range s in
  maximum (exposure s1) = emax
  /\ val (exposure s1) = Z.min (val (exposure s)) emax
  /\ minimum (exposure s1) = minimum (exposure s)
  /\ client s1 = client s
  /\ vblank s1 = vblank s.
Proof.
  intros Hh Hv Hs Hval Hmin emax s1. subst s1.
  rewrite adjust_exposure_range_exposure.
  rewrite exposure_max_value by assumption. fold emax.
  unfold __v4l2_ctrl_modify_range, clamp. cbn [maximum val minimum].
  repeat split. lia.
Qed.

Lemma s_ctrl_accepted (s : arducam_64mp) (id : v4l2_cid) (v : Z) :
  minimum (ctrl_handler s id) <= v <= maximum (ctrl_handler s id) ->
  (v - minimum (ctrl_handler s id)) mod step (ctrl_handler s id) = 0 ->
  __v4l2_ctrl_s_ctrl s id v
  = arducam_64mp_set_ctrl
      (update_ctrl s id (set_val (ctrl_handler s id) v)) id.
Proof.
  intros Hr Hstep. unfold __v4l2_ctrl_s_ctrl.
  destruct (Z.ltb_spec v (minimum (ctrl_handler s id))); [lia|].
  destruct (Z.ltb_spec (maximum (ctrl_handler s id)) v); [lia|].
  rewrite Hstep. reflexivity.
Qed.

(** C2. For every mode and every accepted VBLANK value v (inside the range
    and on the step of the control, with mode height + v within the frame
    lengths the control can reach): when v is set, the exposure maximum
    becomes mode height + v - 48 and the current exposure value is cut down
    to it, in a state [s1] reached before any transfer on the bus; the
    register writes of the call are made from [s1], and the call leaves the
    exposure descriptor as [s1] has it. *)
Theorem vblank_edit_clamps_exposure (s : arducam_64mp) (v : Z) :
  0 <= height (mode s) -> 0 <= v ->
  height (mode s) + v <= 2 ^ 7 * 0xFFFF ->
  minimum (vblank s) <= v <= maximum (vblank s) ->
  (v - minimum (vblank s)) mod step (vblank s) = 0 ->
  minimum (exposure s) <= val (exposure s) ->
  minimum (exposure s) <= height (mode s) + v - 48 ->
  let emax := height (mode s) + v - ARDUCAM_64MP_EXPOSURE_OFFSET in
  let sv := update_ctrl s V4L2_CID_VBLANK (set_val (vblank s) v) in
  let s1 := arducam_64mp_adjust_exposure_range sv in
  let res := __v4l2_ctrl_s_ctrl s V4L2_CID_VBLANK v in
  res = arducam_64mp_set_ctrl sv V4L2_CID_VBLANK
  /\ maximum (exposure s1) = emax
  /\ val (exposure s1) = Z.min (val (exposure s)) emax
  /\ trace (client s1) = trace (client s)
  /\ res = set_ctrl_powered s1 V4L2_CID_VBLANK
  /\ exposure (snd res) = exposure s1
  /\ val (vblank (snd res)) = v
  /\ extends s (snd res).
Proof.
  intros Hh Hv Hs Hr Hstep Hval Hmin emax sv s1 res.
  assert (Hres : res = arducam_64mp_set_ctrl sv V4L2_CID_VBLANK)
    by (apply s_ctrl_accepted; assumption).
  destruct (adjust_exposure_range_result sv Hh Hv Hs Hval Hmin)
    as (A1 & A2 & _ & A4 & A5).
  fold s1 in A1, A2, A4, A5.
  destruct (set_ctrl_powered_frame s1 V4L2_CID_VBLANK) as (F1 & F2).
  assert (Hp : res = set_ctrl_powered s1 V4L2_CID_VBLANK)
    by (rewrite Hres; apply set_ctrl_vblank_eq).
  rewrite <- Hp in F1, F2.
  split; [exact Hres|]. split; [exact A1|]. split; [exact A2|].
  split; [rewrite A4; reflexivity|].
  split; [exact Hp|].
  split; [unfold exposure; rewrite F1; reflexivity|].
  split; [unfold vblank at 1; rewrite F1; fold (vblank s1); rewrite A5;
          reflexivity|].
  destruct F2 as [l Hl]. exists l. rewrite Hl, A4. reflexivity.
Qed.

Lemma vblank_edit_clamps_exposure_witness :
  let res := __v4l2_ctrl_s_ctrl long_exposure_state V4L2_CID_VBLANK 183 in
  val (exposure long_exposure_state) = 7500
  /\ maximum (exposure (snd res)) = 6944 + 183 - 48
  /\ val (exposure (snd res)) = 6944 + 183 - 48.
Proof.
  intros res.
  destruct (vblank_edit_clamps_exposure long_exposure_state 183)
    as (_ & H2 & H3 & _ & _ & H6 & _);
    [vm_compute; discriminate | lia | vm_compute; discriminate
    | vm_compute; split; discriminate | reflexivity
    | vm_compute; discriminate | vm_compute; discriminate |].
  split; [reflexivity|]. fold res in H6. rewrite H6.
  split; [etransitivity; [exact H2 | reflexivity]
         | etransitivity; [exact H3 | reflexivity]].
Defined.

(** ** Edits made while the sensor is powered down *)

Lemma write_regs_loop_ok (l : list arducam_64mp_reg) (t : arducam_64mp) :
  script (client t) = [] ->
  fst (write_regs_loop t l) = 0
  /\ script (client (snd (write_regs_loop t l))) = [].
Proof.
  intros Hs. rewrite write_regs_loop_done.
  - cbn [fst snd]. unfold set_client. cbn [client script].
    rewrite Hs. split; [reflexivity | apply skipn_nil].
  - intros j _. rewrite Hs. destruct j; reflexivity.
Qed.

Lemma stage_common_ok (t : arducam_64mp) :
  script (client t) = [] ->
  exists t1,
    stage_common t = (0, t1)
    /\ script (client t1) = [] /\ ctrl_handler t1 = ctrl_handler t
    /\ mode t1 = mode t /\ dev t1 = dev t /\ extends t t1.
Proof.
  intros Hs. unfold stage_common.
  destruct (negb (common_regs_written t)).
  - unfold arducam_64mp_write_regs.
    destruct (write_regs_loop_ok
      (firstn (Z.to_nat (ARRAY_SIZE mode_common_regs)) mode_common_regs) t Hs)
      as (H0 & Hsc).
    pose proof (write_regs_loop_frame
      (firstn (Z.to_nat (ARRAY_SIZE mode_common_regs)) mode_common_regs) t)
      as (_ & A2 & A3 & _ & _ & A6 & A7).
    destruct (write_regs_loop t _) as [r t1]. cbn [fst snd] in *. subst r.
    cbn [Z.eqb negb].
    exists (set_common_regs_written t1 true). repeat split; assumption.
  - exists t. repeat split; try assumption. apply extends_refl.
Qed.

Lemma stage_mode_ok (t : arducam_64mp) :
  script (client t) = [] ->
  exists t1,
    stage_mode t = (0, t1)
    /\ script (client t1) = [] /\ ctrl_handler t1 = ctrl_handler t
    /\ mode t1 = mode t /\ dev t1 = dev t /\ extends t t1.
Proof.
  intros Hs. unfold stage_mode, arducam_64mp_write_regs.
  set (l := firstn _ _).
  destruct (write_regs_loop_ok l t Hs) as (H0 & Hsc).
  pose proof (write_regs_loop_frame l t) as (_ & A2 & A3 & _ & _ & A6 & A7).
  destruct (write_regs_loop t l) as [r t1]. cbn [fst snd] in *. subst r.
  exists t1. repeat split; assumption.
Qed.

(** On a device in use whose adapter works, applying the VBLANK control
    writes the frame length for the recorded value. *)
Lemma set_ctrl_vblank_in_use (t : arducam_64mp) :
  runtime_active (dev t) = true -> 0 < usage_count (dev t) ->
  script (client t) = [] ->
  exists k t',
    is_long_exp_shift (u32 (val (vblank t) + height (mode t))) k
    /\ arducam_64mp_set_ctrl t V4L2_CID_VBLANK = (0, t')
    /\ trace (client t')
       = trace (client t)
         ++ frame_length_events (val (vblank t)) (height (mode t)) k.
Proof.
  intros Ha Hu Hs. rewrite set_ctrl_vblank_eq.
  unfold set_ctrl_powered, pm_runtime_get_if_in_use.
  change (dev (arducam_64mp_adjust_exposure_range t)) with (dev t).
  rewrite Ha. destruct (Z.ltb_spec 0 (usage_count (dev t))); [|lia].
  cbn [andb]. change (1 =? 0) with false. cbv iota.
  set (t2 := set_dev _ _).
  change (set_ctrl_apply t2 V4L2_CID_VBLANK)
    with (arducam_64mp_set_frame_length t2 (val (vblank t))).
  destruct (set_frame_length_eq t2 (val (vblank t)))
    as (k & Hk & _ & Hfin & Hmin & Heq).
  change (script (client t2)) with (script (client t)) in Heq.
  change (trace (client t2)) with (trace (client t)) in Heq.
  change (mode t2) with (mode t) in Heq, Hfin, Hmin.
  rewrite Hs in Heq. cbn [hd tl Z.eqb Pos.eqb] in Heq. rewrite Heq.
  eexists k, _.
  split; [split; [exact Hk | split; [exact Hfin | exact Hmin]]|].
  split; reflexivity.
Qed.

Lemma handler_setup_replays_vblank (t : arducam_64mp) :
  runtime_active (dev t) = true -> 0 < usage_count (dev t) ->
  script (client t) = [] ->
  read_only (ctrl_handler t V4L2_CID_PIXEL_RATE) = true ->
  read_only (ctrl_handler t V4L2_CID_LINK_FREQ) = true ->
  read_only (ctrl_handler t V4L2_CID_VBLANK) = false ->
  exists k l2,
    is_long_exp_shift (u32 (val (vblank t) + height (mode t))) k
    /\ trace (client (snd (__v4l2_ctrl_handler_setup t)))
       = trace (client t)
         ++ frame_length_events (val (vblank t)) (height (mode t)) k ++ l2.
Proof.
  intros Ha Hu Hs R1 R2 R3.
  unfold __v4l2_ctrl_handler_setup, handler_ctrls.
  set (rest := V4L2_CID_HBLANK :: _).
  cbn [ctrl_setup_loop]. rewrite R1, R2, R3.
  destruct (set_ctrl_vblank_in_use t Ha Hu Hs) as (k & t' & Hk & Heq & Htr).
  rewrite Heq. cbn [Z.eqb negb].
  destruct (ctrl_setup_loop_frame rest t')
    as (_ & _ & _ & _ & _ & _ & _ & _ & [l2 Hl2]).
  exists k, l2. split; [exact Hk|]. rewrite Hl2, Htr.
  symmetry. apply app_assoc.
Qed.

Lemma start_streaming_replays_vblank (t : arducam_64mp) :
  runtime_active (dev t) = true -> 0 < usage_count (dev t) ->
  script (client t) = [] ->
  read_only (ctrl_handler t V4L2_CID_PIXEL_RATE) = true ->
  read_only (ctrl_handler t V4L2_CID_LINK_FREQ) = true ->
  read_only (ctrl_handler t V4L2_CID_VBLANK) = false ->
  exists k l1 l2,
    is_long_exp_shift (u32 (val (vblank t) + height (mode t))) k
    /\ trace (client (snd (arducam_64mp_start_streaming t)))
       = trace (client t)
         ++ l1 ++ frame_length_events (val (vblank t)) (height (mode t)) k
         ++ l2.
Proof.
  intros Ha Hu Hs R1 R2 R3.
  rewrite start_streaming_stages. unfold start_stages. cbn [run_stages].
  destruct (stage_common_ok t Hs) as (t1 & E1 & S1 & C1 & M1 & D1 & [la Hla]).
  rewrite E1. cbn [Z.eqb negb].
  destruct (stage_mode_ok t1 S1) as (t2 & E2 & S2 & C2 & M2 & D2 & [lb Hlb]).
  rewrite E2. cbn [Z.eqb negb].
  destruct (handler_setup_replays_vblank t2) as (k & l2 & Hk & Htr);
    try (rewrite D2, D1; assumption); try exact S2;
    try (rewrite C2, C1; assumption).
  unfold vblank in Hk, Htr. rewrite C2, C1, M2, M1 in Hk, Htr.
  fold (vblank t) in Hk, Htr.
  rewrite Hlb, Hla in Htr.
  destruct (__v4l2_ctrl_handler_setup t2) as [r3 t3]. cbn [snd] in Htr.
  destruct (negb (r3 =? 0)).
  - cbn [snd]. exists k, (la ++ lb), l2. split; [exact Hk|].
    rewrite Htr, <- !app_assoc. reflexivity.
  - pose proof (write_reg_frame t3 ARDUCAM_64MP_REG_MODE_SELECT
      ARDUCAM_64MP_REG_VALUE_08BIT ARDUCAM_64MP_MODE_STREAMING)
      as (_ & _ & _ & _ & _ & _ & [lc Hlc]).
    fold (stage_select t3) in Hlc.
    destruct (stage_select t3) as [r4 t4]. cbn [snd] in Hlc.
    assert (Ht4 : trace (client t4)
                  = trace (client t) ++ (la ++ lb)
                    ++ frame_length_events (val (vblank t)) (height (mode t)) k
                    ++ l2 ++ lc)
      by (rewrite Hlc, Htr, <- !app_assoc; reflexivity).
    exists k, (la ++ lb), (l2 ++ lc). split; [exact Hk|].
    destruct (negb (r4 =? 0)); exact Ht4.
Qed.

Lemma pm_runtime_get_sync_ok (t : arducam_64mp) :
  regulator_ret (dev t) = 0 -> clk_ret (dev t) = 0 ->
  exists d,
    pm_runtime_get_sync t = (0, set_dev t d)
    /\ runtime_active d = true
    /\ usage_count d = usage_count (dev t) + 1.
Proof.
  intros Hr Hc. unfold pm_runtime_get_sync, arducam_64mp_power_on.
  cbn [dev set_dev set_usage_count set_rails regulator_ret clk_ret
       runtime_active].
  rewrite Hr, Hc. cbn [Z.eqb negb].
  destruct (runtime_active (dev t)) eqn:E.
  - eexists. split; [reflexivity|]. split; [exact E | reflexivity].
  - eexists. split; [reflexivity|]. split; reflexivity.
Qed.

(** A start request on an idle, healthy device applies the recorded VBLANK
    value: the frame-length and shift writes are on the trace. *)
Lemma set_stream_replays_vblank (t : arducam_64mp) :
  streaming t = false -> usage_count (dev t) = 0 ->
  regulator_ret (dev t) = 0 -> clk_ret (dev t) = 0 ->
  script (client t) = [] ->
  read_only (ctrl_handler t V4L2_CID_PIXEL_RATE) = true ->
  read_only (ctrl_handler t V4L2_CID_LINK_FREQ) = true ->
  read_only (ctrl_handler t V4L2_CID_VBLANK) = false ->
  exists k l1 l2,
    is_long_exp_shift (u32 (val (vblank t) + height (mode t))) k
    /\ trace (client (snd (arducam_64mp_set_stream t 1)))
       = trace (client t)
         ++ l1 ++ frame_length_events (val (vblank t)) (height (mode t)) k
         ++ l2.
Proof.
  intros Hst Hu Hr Hc Hs R1 R2 R3.
  rewrite (set_stream_on_eq t Hst).
  assert (H : exists k l1 l2,
    is_long_exp_shift (u32 (val (vblank t) + height (mode t))) k
    /\ trace (client (snd (start_attempt t)))
       = trace (client t)
         ++ l1 ++ frame_length_events (val (vblank t)) (height (mode t)) k
         ++ l2).
  { unfold start_attempt.
    destruct (pm_runtime_get_sync_ok t Hr Hc) as (d & Eon & Da & Du).
    rewrite Eon. change (0 <? 0) with false. cbv iota.
    destruct (start_streaming_replays_vblank (set_dev t d))
      as (k & l1 & l2 & Hk & Htr);
      try assumption; [cbn [dev set_dev]; lia|].
    change (vblank (set_dev t d)) with (vblank t) in Hk, Htr.
    change (mode (set_dev t d)) with (mode t) in Hk, Htr.
    change (client (set_dev t d)) with (client t) in Htr.
    exists k, l1, l2. split; [exact Hk|].
    destruct (arducam_64mp_start_streaming (set_dev t d)) as [r t'].
    cbn [snd] in Htr. destruct (negb (r =? 0)); exact Htr. }
  destruct (negb (fst (start_attempt t) =? 0)); exact H.
Qed.

(** C10. For every accepted VBLANK value v set while the device is not
    powered (not active in use): the edit returns 0, the exposure maximum
    is re-derived as mode height + v - 48 and the current exposure value is
    cut down to it, v is recorded, and nothing is sent on the bus.  The
    register write is left to the control replay of a later stream start:
    a start request on any idle, healthy state that holds the recorded
    value sends the frame-length and shift writes for v. *)
Theorem vblank_edit_unpowered_is_deferred (s : arducam_64mp) (v : Z) :
  0 <= height (mode s) -> 0 <= v ->
  height (mode s) + v <= 2 ^ 7 * 0xFFFF ->
  minimum (vblank s) <= v <= maximum (vblank s) ->
  (v - minimum (vblank s)) mod step (vblank s) = 0 ->
  minimum (exposure s) <= val (exposure s) ->
  minimum (exposure s) <= height (mode s) + v - 48 ->
  runtime_active (dev s) && (0 <? usage_count (dev s)) = false ->
  let emax := height (mode s) + v - 48 in
  let sv := update_ctrl s V4L2_CID_VBLANK (set_val (vblank s) v) in
  let s1 := arducam_64mp_adjust_exposure_range sv in
  __v4l2_ctrl_s_ctrl s V4L2_CID_VBLANK v = (0, s1)
  /\ maximum (exposure s1) = emax
  /\ val (exposure s1) = Z.min (val (exposure s)) emax
  /\ client s1 = client s
  /\ val (vblank s1) = v
  /\ (forall t,
        val (vblank t) = v -> mode t = mode s ->
        streaming t = false -> usage_count (dev t) = 0 ->
        regulator_ret (dev t) = 0 -> clk_ret (dev t) = 0 ->
        script (client t) = [] ->
        read_only (ctrl_handler t V4L2_CID_PIXEL_RATE) = true ->
        read_only (ctrl_handler t V4L2_CID_LINK_FREQ) = true ->
        read_only (ctrl_handler t V4L2_CID_VBLANK) = false ->
        exists k l1 l2,
          is_long_exp_shift (u32 (v + height (mode s))) k
          /\ trace (client (snd (arducam_64mp_set_stream t 1)))
             = trace (client t)
               ++ l1 ++ frame_length_events v (height (mode s)) k ++ l2).
Proof.
  intros Hh Hv Hs Hr Hstep Hval Hmin Hoff emax sv s1.
  destruct (adjust_exposure_range_result sv Hh Hv Hs Hval Hmin)
    as (A1 & A2 & _ & A4 & A5).
  fold s1 in A1, A2, A4, A5.
  split.
  - transitivity (set_ctrl_powered s1 V4L2_CID_VBLANK).
    + rewrite s_ctrl_accepted by assumption. reflexivity.
    + unfold set_ctrl_powered, pm_runtime_get_if_in_use.
      change (dev s1) with (dev s). rewrite Hoff. reflexivity.
  - split; [exact A1|]. split; [exact A2|]. split; [exact A4|].
    split; [rewrite A5; reflexivity|].
    intros t Hvt Hm Hst Hu Hreg Hclk Hsc R1 R2 R3.
    destruct (set_stream_replays_vblank t Hst Hu Hreg Hclk Hsc R1 R2 R3)
      as (k & l1 & l2 & Hk & Htr).
    rewrite Hvt, Hm in Hk, Htr. exists k, l1, l2. split; assumption.
Qed.

Lemma is_long_exp_shift_unique (raw k k' : Z) :
  is_long_exp_shift raw k -> is_long_exp_shift raw k' -> k = k'.
Proof.
  intros (Hk & Hfin & Hmin) (Hk' & Hfin' & Hmin').
  destruct (Z.lt_trichotomy k k') as [Hlt | [Heq | Hgt]]; [|exact Heq|].
  - specialize (Hmin' k ltac:(lia)). lia.
  - specialize (Hmin k' ltac:(lia)). lia.
Qed.

Lemma is_long_exp_shift_200000 : is_long_exp_shift 200000 2.
Proof.
  split; [lia|]. split; [vm_compute; discriminate|].
  intros j Hj. assert (Hc : j = 0 \/ j = 1) by lia.
  destruct Hc as [-> | ->]; reflexivity.
Qed.

Lemma vblank_edit_unpowered_is_deferred_witness :
  let s := probed [] in
  let res := __v4l2_ctrl_s_ctrl s V4L2_CID_VBLANK (200000 - 6944) in
  fst res = 0
  /\ trace (client (snd res)) = []
  /\ maximum (exposure (snd res)) = 200000 - 48
  /\ exists l1 l2,
       trace (client (snd (arducam_64mp_set_stream (snd res) 1)))
       = l1 ++ frame_length_events (200000 - 6944) 6944 2 ++ l2.
Proof.
  intros s res.
  destruct (vblank_edit_unpowered_is_deferred s (200000 - 6944))
    as (H1 & H2 & _ & H4 & _ & H6);
    [vm_compute; discriminate | vm_compute; discriminate
    | vm_compute; discriminate
    | vm_compute; split; discriminate | reflexivity
    | vm_compute; discriminate | vm_compute; discriminate | reflexivity |].
  fold res in H1. rewrite H1. cbn [fst snd].
  split; [reflexivity|]. split; [rewrite H4; reflexivity|].
  split; [etransitivity; [exact H2 | reflexivity]|].
  destruct (H6 (arducam_64mp_adjust_exposure_range
                  (update_ctrl s V4L2_CID_VBLANK
                     (set_val (vblank s) (200000 - 6944)))))
    as (k & l1 & l2 & Hk & Htr);
    try reflexivity.
  assert (Hraw : u32 (200000 - 6944 + height (mode s)) = 200000)
    by (vm_compute; reflexivity).
  rewrite Hraw in Hk.
  rewrite (is_long_exp_shift_unique _ _ _ Hk is_long_exp_shift_200000) in Htr.
  exists l1, l2. etransitivity; [exact Htr|].
  assert (Ht : trace (client (arducam_64mp_adjust_exposure_range
                 (update_ctrl s V4L2_CID_VBLANK
                    (set_val (vblank s) (200000 - 6944))))) = [])
    by (vm_compute; reflexivity).
  rewrite Ht. reflexivity.
Defined.

(** * Further properties *)

(** ** Register reads *)

Lemma land_mul_pow2_small (a b k : Z) :
  0 <= k -> 0 <= b < 2 ^ k -> Z.land (a * 2 ^ k) b = 0.
Proof.
  intros Hk Hb. apply Z.bits_inj'. intros n Hn.
  rewrite Z.land_spec, Z.bits_0, <- Z.shiftl_mul_pow2 by assumption.
  destruct (Z_lt_le_dec n k) as [Hlt|Hge].
  - rewrite Z.shiftl_spec_low by assumption. reflexivity.
  - assert (Hb0 : Z.testbit b n = false).
    { rewrite Z.testbit_odd, Z.shiftr_div_pow2 by assumption.
      rewrite Z.div_small; [reflexivity|].
      split; [lia|]. apply Z.lt_le_trans with (2 ^ k); [lia|].
      apply Z.pow_le_mono_r; lia. }
    rewrite Hb0. apply andb_false_r.
Qed.

Lemma lor_mul_pow2_small (a b k : Z) :
  0 <= k -> 0 <= b < 2 ^ k -> Z.lor (a * 2 ^ k) b = a * 2 ^ k + b.
Proof.
  intros Hk Hb. pose proof (land_mul_pow2_small a b k Hk Hb) as H.
  rewrite <- (Z.lxor_lor _ _ H). symmetry. apply Z.add_nocarry_lxor. exact H.
Qed.

(** The big-endian load of four bytes is their positional value. *)
Lemma get_unaligned_be32_bytes (b0 b1 b2 b3 : Z) :
  0 <= b0 < 2 ^ 8 -> 0 <= b1 < 2 ^ 8 -> 0 <= b2 < 2 ^ 8 -> 0 <= b3 < 2 ^ 8 ->
  get_unaligned_be32 [b0; b1; b2; b3]
  = b0 * 2 ^ 24 + b1 * 2 ^ 16 + b2 * 2 ^ 8 + b3.
Proof.
  intros H0 H1 H2 H3. unfold get_unaligned_be32. cbn [nth].
  rewrite !Z.shiftl_mul_pow2 by lia.
  rewrite (lor_mul_pow2_small b0 (b1 * 2 ^ 16) 24) by lia.
  replace (b0 * 2 ^ 24 + b1 * 2 ^ 16) with ((b0 * 2 ^ 8 + b1) * 2 ^ 16)
    by lia.
  rewrite (lor_mul_pow2_small (b0 * 2 ^ 8 + b1) (b2 * 2 ^ 8) 16) by lia.
  replace ((b0 * 2 ^ 8 + b1) * 2 ^ 16 + b2 * 2 ^ 8)
    with (((b0 * 2 ^ 8 + b1) * 2 ^ 8 + b2) * 2 ^ 8) by lia.
  rewrite lor_mul_pow2_small by lia. lia.
Qed.

Lemma u8_range x : 0 <= u8 x < 2 ^ 8.
Proof. unfold u8. apply Z.mod_pos_bound. lia. Qed.

Lemma read_addr_buf (reg : Z) :
  [u8 (Z.shiftr (u16 reg) 8); u8 (Z.land (u16 reg) 0xff)]
  = put_unaligned_be16 reg.
Proof.
  unfold put_unaligned_be16. rewrite !land_ff. unfold u8.
  rewrite Z.mod_mod by lia. reflexivity.
Qed.

Lemma reg_msg_addr (reg len v : Z) :
  0 <= len -> firstn 2 (reg_msg reg len v) = put_unaligned_be16 reg.
Proof.
  intros Hl. unfold reg_msg. rewrite firstn_firstn.
  replace (Nat.min 2 (Z.to_nat (len + 2))) with 2%nat by lia.
  reflexivity.
Qed.

(** The value a register read decodes from the payload bytes of a write of
    [v] with the same length. *)
Lemma read_decodes_write_payload (len v : Z) :
  0 <= len <= 4 ->
  get_unaligned_be32
    (firstn 4 (repeat 0 (Z.to_nat (4 - len))
               ++ map u8 (firstn (Z.to_nat len)
                            (put_unaligned_be32 (Z.shiftl v (8 * (4 - len)))))
               ++ repeat 0 4))
  = v mod 2 ^ (8 * len).
Proof.
  intros Hl.
  assert (Hc : len = 0 \/ len = 1 \/ len = 2 \/ len = 3 \/ len = 4) by lia.
  unfold put_unaligned_be32.
  destruct Hc as [-> | [-> | [-> | [-> | ->]]]];
    match goal with
    | |- context [Z.shiftl v (8 * (4 - ?l))] =>
        let n := eval compute in (Z.to_nat l) in
        let m := eval compute in (Z.to_nat (4 - l)) in
        let sh := eval compute in (8 * (4 - l)) in
        let e := eval compute in (8 * l) in
        change (Z.to_nat l) with n; change (Z.to_nat (4 - l)) with m;
        change (8 * (4 - l)) with sh; change (8 * l) with e
    end;
    cbn [repeat app map firstn];
    (rewrite get_unaligned_be32_bytes
       by (try apply u8_range; change (2 ^ 8) with 256; lia));
    rewrite ?land_ff; unfold u8, u32;
    rewrite ?Z.mod_mod by lia;
    rewrite ?Z.shiftl_mul_pow2, ?Z.shiftr_div_pow2 by lia;
    Z.div_mod_to_equations; lia.
Qed.

Lemma reg_msg_payload (reg len v : Z) :
  0 <= len ->
  skipn 2 (reg_msg reg len v)
  = firstn (Z.to_nat len) (put_unaligned_be32 (Z.shiftl v (8 * (4 - len)))).
Proof.
  intros Hl. unfold reg_msg. rewrite skipn_firstn_comm.
  replace (Z.to_nat (len + 2) - 2)%nat with (Z.to_nat len) by lia.
  reflexivity.
Qed.

(** X1. Write and read agree on the wire format: when the device answers a
    read of [len] bytes (0..4) at the address bytes of a register write
    with the payload bytes of that write, [arducam_64mp_read_reg] succeeds
    and returns the written value reduced to its [len] low bytes. *)
Theorem read_reg_reads_back_written_value
  (dev_ : i2c_reader) (reg len v old : Z) :
  0 <= len <= 4 ->
  rep_ret (dev_ (firstn 2 (reg_msg reg len v)) len) = 2 ->
  rep_data (dev_ (firstn 2 (reg_msg reg len v)) len)
  = skipn 2 (reg_msg reg len v) ->
  arducam_64mp_read_reg dev_ reg len old = (0, v mod 2 ^ (8 * len)).
Proof.
  intros Hl Hret Hdata. unfold arducam_64mp_read_reg.
  destruct (Z.gtb_spec len 4) as [Hgt|_]; [lia|].
  rewrite read_addr_buf, <- (reg_msg_addr reg len v) by lia.
  rewrite Hret, Hdata, reg_msg_payload, firstn_firstn, Nat.min_id by lia.
  cbn [Z.eqb Pos.eqb negb].
  rewrite read_decodes_write_payload by assumption. reflexivity.
Qed.

Lemma read_reg_reads_back_written_value_witness :
  let dev_ : i2c_reader := fun _ _ => mk_reply 2 [195; 80] in
  arducam_64mp_read_reg dev_ ARDUCAM_64MP_REG_FRAME_LENGTH 2 0 = (0, 50000).
Proof.
  intros dev_.
  apply (read_reg_reads_back_written_value dev_
           ARDUCAM_64MP_REG_FRAME_LENGTH 2 50000 0);
    [lia | reflexivity | reflexivity].
Defined.

Lemma u32_shiftl_low_bytes (len v : Z) :
  0 <= len <= 4 ->
  u32 (Z.shiftl (v mod 2 ^ (8 * len)) (8 * (4 - len)))
  = u32 (Z.shiftl v (8 * (4 - len))).
Proof.
  intros Hl.
  assert (Hc : len = 0 \/ len = 1 \/ len = 2 \/ len = 3 \/ len = 4) by lia.
  destruct Hc as [-> | [-> | [-> | [-> | ->]]]];
    match goal with
    | |- context [Z.shiftl v (8 * (4 - ?l))] =>
        let sh := eval compute in (8 * (4 - l)) in
        let e := eval compute in (8 * l) in
        change (8 * (4 - l)) with sh; change (8 * l) with e
    end;
    unfold u32; rewrite !Z.shiftl_mul_pow2 by lia;
    Z.div_mod_to_equations; lia.
Qed.

(** X2. A register write carries only the [len] low bytes of its value:
    for [len] in 0..4, writing [v] and writing [v mod 2^(8*len)] put the
    same message on the wire and have the same result. *)
Theorem write_reg_truncates_value (s : arducam_64mp) (reg len v : Z) :
  0 <= len <= 4 ->
  reg_msg reg len v = reg_msg reg len (v mod 2 ^ (8 * len))
  /\ arducam_64mp_write_reg s reg len v
     = arducam_64mp_write_reg s reg len (v mod 2 ^ (8 * len)).
Proof.
  intros Hl.
  assert (Hb : put_unaligned_be32 (Z.shiftl v (8 * (4 - len)))
               = put_unaligned_be32
                   (Z.shiftl (v mod 2 ^ (8 * len)) (8 * (4 - len)))).
  { unfold put_unaligned_be32. rewrite u32_shiftl_low_bytes by assumption.
    reflexivity. }
  split.
  - unfold reg_msg. rewrite Hb. reflexivity.
  - unfold arducam_64mp_write_reg. rewrite Hb. reflexivity.
Qed.

Lemma write_reg_truncates_value_witness :
  arducam_64mp_write_reg (probed []) ARDUCAM_64MP_REG_ANALOG_GAIN 2 0x12345
  = arducam_64mp_write_reg (probed []) ARDUCAM_64MP_REG_ANALOG_GAIN 2 0x2345.
Proof.
  apply (write_reg_truncates_value (probed [])
           ARDUCAM_64MP_REG_ANALOG_GAIN 2 0x12345).
  lia.
Defined.

Lemma chip_id_bytes (d0 d1 : Z) :
  0 <= d0 < 2 ^ 8 -> 0 <= d1 < 2 ^ 8 ->
  (get_unaligned_be32 [0; 0; d0; d1] = ARDUCAM_64MP_CHIP_ID
   <-> d0 = 0x41 /\ d1 = 0x36).
Proof.
  intros H0 H1. rewrite get_unaligned_be32_bytes by lia.
  unfold ARDUCAM_64MP_CHIP_ID. lia.
Qed.

Lemma read_chip_id_buffer (data : list Z) :
  firstn 4 (repeat 0 (Z.to_nat (4 - 2)) ++ map u8 (firstn (Z.to_nat 2) data)
            ++ repeat 0 4)
  = [0; 0; u8 (nth 0 data 0); u8 (nth 1 data 0)].
Proof.
  change (Z.to_nat (4 - 2)) with 2%nat. change (Z.to_nat 2) with 2%nat.
  destruct data as [|d0 [|d1 rest]]; reflexivity.
Qed.

(** X3. The identity check passes exactly when the dummy device at 0x50
    completes the two-message read of register 0x005E and the two bytes it
    returns are 0x41, 0x36; every other outcome with a created device is
    -EIO, and a failed creation returns its own error. *)
Theorem identify_module_accepts_only_chip_id (dev_ : i2c_reader) (err : Z) :
  let rep := dev_ [0x00; 0x5E] 2 in
  (arducam_64mp_identify_module (inr dev_) = 0
   <-> rep_ret rep = 2
       /\ u8 (nth 0 (rep_data rep) 0) = 0x41
       /\ u8 (nth 1 (rep_data rep) 0) = 0x36)
  /\ (arducam_64mp_identify_module (inr dev_) <> 0 ->
      arducam_64mp_identify_module (inr dev_) = - EIO)
  /\ arducam_64mp_identify_module (inl err) = err.
Proof.
  intros rep.
  assert (Heq : arducam_64mp_identify_module (inr dev_)
    = if negb (rep_ret rep =? 2) then - EIO
      else if negb (get_unaligned_be32
                      [0; 0; u8 (nth 0 (rep_data rep) 0);
                       u8 (nth 1 (rep_data rep) 0)]
                    =? ARDUCAM_64MP_CHIP_ID)
           then - EIO else 0).
  { unfold arducam_64mp_identify_module, arducam_64mp_read_reg.
    unfold ARDUCAM_64MP_REG_VALUE_16BIT. change (2 >? 4) with false.
    cbv iota. rewrite read_chip_id_buffer.
    change [u8 (Z.shiftr (u16 ARDUCAM_64MP_REG_CHIP_ID) 8);
            u8 (Z.land (u16 ARDUCAM_64MP_REG_CHIP_ID) 255)]
      with [0x00; 0x5E].
    fold rep. destruct (negb (rep_ret rep =? 2)); reflexivity. }
  rewrite Heq.
  pose proof (chip_id_bytes _ _ (u8_range (nth 0 (rep_data rep) 0))
                (u8_range (nth 1 (rep_data rep) 0))) as Hid.
  split; [|split; [|reflexivity]].
  - destruct (Z.eqb_spec (rep_ret rep) 2) as [H2|H2]; cbn [negb].
    + destruct (Z.eqb_spec (get_unaligned_be32
                  [0; 0; u8 (nth 0 (rep_data rep) 0);
                   u8 (nth 1 (rep_data rep) 0)]) ARDUCAM_64MP_CHIP_ID)
        as [E|E]; cbn [negb].
      * split; [intros _; split; [exact H2 | apply Hid; exact E]
               | reflexivity].
      * split; [discriminate|]. intros (_ & Hb). exfalso. apply E, Hid, Hb.
    + split; [discriminate|]. intros (Hr & _). contradiction.
  - destruct (negb (rep_ret rep =? 2)); [reflexivity|].
    destruct (negb (_ =? ARDUCAM_64MP_CHIP_ID)); [reflexivity|].
    intros H. contradiction.
Qed.

(** ** Register lists on a working adapter *)

(** X4. When the adapter completes every transfer of the entries visited,
    [arducam_64mp_write_regs] returns 0 and the device has taken exactly
    the first [len] entries of the list, in list order; with [len] 0 or an
    empty list nothing is sent. *)
Theorem write_regs_applies_all_in_order
  (s : arducam_64mp) (rs : list arducam_64mp_reg) (len : Z) :
  let l := firstn (Z.to_nat len) rs in
  (forall j, (j < length l)%nat -> nth j (script (client s)) 3 = 3) ->
  let res := arducam_64mp_write_regs s rs len in
  fst res = 0
  /\ trace (client (snd res))
     = trace (client s) ++ map (fun r => reg_event r 3) l
  /\ applied (trace (client (snd res)))
     = applied (trace (client s)) ++ reg_msgs l
  /\ snd res = set_client s (client (snd res))
  /\ (len <= 0 \/ rs = [] -> snd res = s).
Proof.
  intros l Hok res. subst res. unfold arducam_64mp_write_regs. fold l.
  rewrite (write_regs_loop_done l s Hok). cbn [fst snd].
  unfold set_client at 1 2. cbn [client trace].
  split; [reflexivity|]. split; [reflexivity|].
  split; [rewrite applied_app, applied_reg_events; reflexivity|].
  split; [reflexivity|].
  intros Hempty.
  assert (Hl : l = []).
  { subst l. destruct Hempty as [Hlen | ->]; [|apply firstn_nil].
    replace (Z.to_nat len) with 0%nat by lia. reflexivity. }
  rewrite Hl. cbn [length skipn map]. rewrite app_nil_r.
  destruct s as [? ? ? ? ? ? [? ?] ?]. reflexivity.
Qed.

Lemma write_regs_applies_all_in_order_witness :
  let res := arducam_64mp_write_regs (probed []) mode_1280x720_regs 2 in
  fst res = 0
  /\ applied (trace (client (snd res)))
     = [[0x03; 0x42; 0x1b]; [0x03; 0x43; 0x08]].
Proof.
  intros res.
  destruct (write_regs_applies_all_in_order (probed []) mode_1280x720_regs 2)
    as (H1 & _ & H3 & _).
  - intros j _. destruct j; reflexivity.
  - split; [exact H1|]. etransitivity; [exact H3 | reflexivity].
Defined.

(** ** Control writes *)

Lemma set_ctrl_eq (s : arducam_64mp) (id : v4l2_cid) :
  arducam_64mp_set_ctrl s id
  = set_ctrl_powered
      (if cid_eqb id V4L2_CID_VBLANK
       then arducam_64mp_adjust_exposure_range s else s) id.
Proof. reflexivity. Qed.

(** The register write of a control on a device in use: the reference is
    taken, the switch runs, the reference is dropped. *)
Lemma set_ctrl_powered_in_use (t : arducam_64mp) (id : v4l2_cid) :
  runtime_active (dev t) = true -> 0 < usage_count (dev t) ->
  set_ctrl_powered t id
  = (fst (set_ctrl_apply
            (set_dev t (set_usage_count (dev t) (usage_count (dev t) + 1)))
            id),
     pm_runtime_put
       (snd (set_ctrl_apply
               (set_dev t (set_usage_count (dev t) (usage_count (dev t) + 1)))
               id))).
Proof.
  intros Ha Hu. unfold set_ctrl_powered, pm_runtime_get_if_in_use.
  rewrite Ha. destruct (Z.ltb_spec 0 (usage_count (dev t))); [|lia].
  cbn [andb]. change (1 =? 0) with false. cbv iota.
  destruct (set_ctrl_apply _ id). reflexivity.
Qed.

Lemma set_ctrl_powered_off (t : arducam_64mp) (id : v4l2_cid) :
  runtime_active (dev t) && (0 <? usage_count (dev t)) = false ->
  set_ctrl_powered t id = (0, t).
Proof.
  intros Hoff. unfold set_ctrl_powered, pm_runtime_get_if_in_use.
  rewrite Hoff. reflexivity.
Qed.

(** X5. While the device is not powered in use, applying any control
    returns 0 and sends nothing; only the VBLANK control changes the state
    at all (it adjusts the exposure range), every other control leaves it
    as it was. *)
Theorem set_ctrl_unpowered_sends_nothing (s : arducam_64mp) (id : v4l2_cid) :
  runtime_active (dev s) && (0 <? usage_count (dev s)) = false ->
  let res := arducam_64mp_set_ctrl s id in
  fst res = 0
  /\ client (snd res) = client s
  /\ long_exp_shift (snd res) = long_exp_shift s
  /\ dev (snd res) = dev s
  /\ (id <> V4L2_CID_VBLANK -> snd res = s)
  /\ (id = V4L2_CID_VBLANK ->
      snd res = arducam_64mp_adjust_exposure_range s).
Proof.
  intros Hoff res. subst res. rewrite set_ctrl_eq.
  destruct (cid_eqb id V4L2_CID_VBLANK) eqn:E.
  - rewrite set_ctrl_powered_off by exact Hoff. cbn [fst snd].
    repeat split; try reflexivity.
    intros Hne. destruct id; try discriminate. contradiction.
  - rewrite set_ctrl_powered_off by exact Hoff. cbn [fst snd].
    repeat split; try reflexivity.
    intros ->. discriminate.
Qed.

Lemma set_ctrl_unpowered_sends_nothing_witness :
  arducam_64mp_set_ctrl (probed [-5]) V4L2_CID_EXPOSURE = (0, probed [-5]).
Proof.
  destruct (set_ctrl_unpowered_sends_nothing (probed [-5]) V4L2_CID_EXPOSURE)
    as (H1 & _ & _ & _ & H5 & _); [reflexivity|].
  rewrite (surjective_pairing (arducam_64mp_set_ctrl _ _)), H1, H5;
    [reflexivity | discriminate].
Defined.

(** X6. [arducam_64mp_set_ctrl] drops every runtime-PM reference it takes:
    whatever the control and whatever the adapter answers, the usage count
    and the power state are the same after the call; and on a device in
    use the three controls without a register (pixel rate, link frequency,
    horizontal blanking) are refused with -EINVAL without any transfer. *)
Theorem set_ctrl_balances_pm_reference (s : arducam_64mp) (id : v4l2_cid) :
  let res := arducam_64mp_set_ctrl s id in
  usage_count (dev (snd res)) = usage_count (dev s)
  /\ runtime_active (dev (snd res)) = runtime_active (dev s)
  /\ (runtime_active (dev s) = true -> 0 < usage_count (dev s) ->
      id = V4L2_CID_PIXEL_RATE \/ id = V4L2_CID_LINK_FREQ
      \/ id = V4L2_CID_HBLANK ->
      fst res = - EINVAL /\ client (snd res) = client s).
Proof.
  intros res. subst res.
  destruct (set_ctrl_frame s id) as (_ & _ & _ & _ & _ & _ & A7 & A8 & _).
  split; [exact A8|]. split; [exact A7|].
  intros Ha Hu Hid. rewrite set_ctrl_eq.
  destruct Hid as [-> | [-> | ->]]; cbn [cid_eqb];
    rewrite set_ctrl_powered_in_use by assumption; split; reflexivity.
Qed.

(** X7. The frame length the sensor is given, register value times
    2^shift, is the requested one rounded down to a multiple of 2^shift:
    less than 2^shift lines are lost.  The shift is 0 exactly when the
    request fits the register, and a nonzero shift leaves a register value
    of at least 0x8000. *)
Theorem set_frame_length_effective_length (s : arducam_64mp) (vb : Z) :
  let raw := u32 (vb + height (mode s)) in
  let k := long_exp_shift (snd (arducam_64mp_set_frame_length s vb)) in
  let w := Z.shiftr raw k in
  w * 2 ^ k <= raw < (w + 1) * 2 ^ k
  /\ (k = 0 <-> raw <= ARDUCAM_64MP_FRAME_LENGTH_MAX)
  /\ (0 < k -> 0x8000 <= w).
Proof.
  intros raw k w.
  destruct (set_frame_length_eq s vb) as (k0 & Hk & _ & Hfin & Hmin & Hres).
  fold raw in Hfin, Hmin.
  assert (Hkk : k = k0) by (subst k; rewrite Hres; reflexivity).
  subst w. rewrite Hkk. clear Hkk k Hres.
  pose proof (u32_range (vb + height (mode s))) as Hraw. fold raw in Hraw.
  assert (Hp : 0 < 2 ^ k0) by (apply Z.pow_pos_nonneg; lia).
  unfold ARDUCAM_64MP_FRAME_LENGTH_MAX.
  split; [|split].
  - rewrite Z.shiftr_div_pow2 by lia.
    pose proof (Z.div_mod raw (2 ^ k0) ltac:(lia)) as Hd.
    pose proof (Z.mod_pos_bound raw (2 ^ k0) Hp) as Hm. nia.
  - split.
    + intros ->. rewrite Z.shiftr_0_r in Hfin. exact Hfin.
    + intros Hle. destruct (Z.eq_dec k0 0) as [E|E]; [exact E|].
      specialize (Hmin 0 ltac:(lia)). rewrite Z.shiftr_0_r in Hmin. lia.
  - intros Hpos. specialize (Hmin (k0 - 1) ltac:(lia)).
    replace k0 with ((k0 - 1) + 1) at 1 by lia.
    rewrite <- Z.shiftr_shiftr by lia.
    rewrite (Z.shiftr_div_pow2 _ 1) by lia. change (2 ^ 1) with 2.
    apply Z.div_le_lower_bound; lia.
Qed.

(** The byte that an orientation write carries is the flip index. *)
Lemma flip_byte (h v : Z) :
  (h = 0 \/ h = 1) -> (v = 0 \/ v = 1) ->
  Z.lor h (Z.shiftl v 1) = 2 * v + h.
Proof. intros [-> | ->] [-> | ->]; reflexivity. Qed.

(** X8. On a device in use, applying the HFLIP or the VFLIP control sends
    one write of register 0x0101 whose byte is 2*vflip + hflip, which is
    also the index in [codes] of the format code the driver reports: the
    orientation given to the sensor and the Bayer order announced agree. *)
Theorem flip_write_matches_format_code
  (s : arducam_64mp) (id : v4l2_cid) (h v : Z) :
  id = V4L2_CID_HFLIP \/ id = V4L2_CID_VFLIP ->
  (h = 0 \/ h = 1) -> (v = 0 \/ v = 1) ->
  val (hflip s) = h -> val (vflip s) = v ->
  runtime_active (dev s) = true -> 0 < usage_count (dev s) ->
  let res := arducam_64mp_set_ctrl s id in
  let r := hd 3 (script (client s)) in
  trace (client (snd res))
  = trace (client s) ++ [mk_event [0x01; 0x01; 2 * v + h] r]
  /\ fst res = (if r =? 3 then 0 else - EIO)
  /\ nth (Z.to_nat (2 * v + h)) codes MEDIA_BUS_FMT_SRGGB10_1X10
     = arducam_64mp_get_format_code s.
Proof.
  intros Hid Hh Hv Eh Ev Ha Hu res r. subst res.
  assert (Hcode : nth (Z.to_nat (2 * v + h)) codes MEDIA_BUS_FMT_SRGGB10_1X10
                  = arducam_64mp_get_format_code s).
  { unfold arducam_64mp_get_format_code. rewrite Eh, Ev.
    destruct Hh as [-> | ->], Hv as [-> | ->]; reflexivity. }
  assert (Hb : 0 <= 2 * v + h < 2 ^ 8) by (destruct Hh, Hv; subst; lia).
  rewrite set_ctrl_eq.
  assert (Hres :
    set_ctrl_powered s id
    = (if r =? 3 then 0 else - EIO,
       pm_runtime_put
         (set_client
            (set_dev s (set_usage_count (dev s) (usage_count (dev s) + 1)))
            (sent (client s) [0x01; 0x01; 2 * v + h])))).
  { rewrite set_ctrl_powered_in_use by assumption.
    set (t := set_dev s _).
    assert (Happ : set_ctrl_apply t id
                   = arducam_64mp_write_reg t ARDUCAM_64MP_REG_ORIENTATION 1
                       (Z.lor (val (hflip s)) (Z.shiftl (val (vflip s)) 1)))
      by (destruct Hid as [-> | ->]; reflexivity).
    rewrite Happ, Eh, Ev, flip_byte, write_reg_eq by (assumption || lia).
    rewrite reg_msg_8bit by exact Hb.
    change (put_unaligned_be16 ARDUCAM_64MP_REG_ORIENTATION ++ [2 * v + h])
      with [0x01; 0x01; 2 * v + h].
    change (client t) with (client s). change (1 + 2) with 3. fold r.
    reflexivity. }
  destruct Hid as [-> | ->]; cbn [cid_eqb]; rewrite Hres; cbn [fst snd];
    (split; [reflexivity | split; [reflexivity | exact Hcode]]).
Qed.

Lemma flip_write_matches_format_code_witness :
  let s := update_ctrl (set_dev (probed [3]) device_in_use) V4L2_CID_VFLIP
             (set_val (vflip (probed [])) 1) in
  let res := arducam_64mp_set_ctrl s V4L2_CID_VFLIP in
  fst res = 0
  /\ trace (client (snd res)) = [mk_event [0x01; 0x01; 2] 3]
  /\ arducam_64mp_get_format_code s = MEDIA_BUS_FMT_SGBRG10_1X10.
Proof.
  intros s res.
  destruct (flip_write_matches_format_code s V4L2_CID_VFLIP 0 1)
    as (H1 & H2 & H3);
    [right; reflexivity | left; reflexivity | right; reflexivity
    | reflexivity | reflexivity | reflexivity | reflexivity |].
  split; [etransitivity; [exact H2 | reflexivity]|].
  split; [etransitivity; [exact H1 | reflexivity]|].
  rewrite <- H3. reflexivity.
Defined.

(** The state a VBLANK write leaves on a device in use with a working
    adapter. *)
Lemma set_ctrl_vblank_in_use_state (t : arducam_64mp) :
  runtime_active (dev t) = true -> 0 < usage_count (dev t) ->
  script (client t) = [] ->
  exists k t',
    is_long_exp_shift (u32 (val (vblank t) + height (mode t))) k
    /\ arducam_64mp_set_ctrl t V4L2_CID_VBLANK = (0, t')
    /\ long_exp_shift t' = k
    /\ script (client t') = []
    /\ runtime_active (dev t') = true
    /\ usage_count (dev t') = usage_count (dev t)
    /\ mode t' = mode t
    /\ ctrl_handler t'
       = ctrl_handler (arducam_64mp_adjust_exposure_range t).
Proof.
  intros Ha Hu Hs. rewrite set_ctrl_eq. cbn [cid_eqb].
  rewrite set_ctrl_powered_in_use by assumption.
  change (dev (arducam_64mp_adjust_exposure_range t)) with (dev t).
  set (t2 := set_dev _ _).
  change (set_ctrl_apply t2 V4L2_CID_VBLANK)
    with (arducam_64mp_set_frame_length t2 (val (vblank t))).
  destruct (set_frame_length_eq t2 (val (vblank t)))
    as (k & Hk & _ & Hfin & Hmin & Heq).
  change (script (client t2)) with (script (client t)) in Heq.
  change (trace (client t2)) with (trace (client t)) in Heq.
  change (mode t2) with (mode t) in Heq, Hfin, Hmin.
  rewrite Hs in Heq. cbn [hd tl Z.eqb Pos.eqb] in Heq. rewrite Heq.
  cbn [fst snd]. eexists k, _.
  split; [split; [exact Hk | split; [exact Hfin | exact Hmin]]|].
  split; [reflexivity|].
  unfold pm_runtime_put, set_client, set_long_exp_shift, set_dev,
    set_usage_count.
  cbn [long_exp_shift client script dev runtime_active usage_count mode
       ctrl_handler].
  repeat split; try reflexivity; try assumption.
  subst t2. cbn [dev set_dev set_usage_count usage_count]. lia.
Qed.

(** The exposure write on a device in use. *)
Lemma set_ctrl_exposure_in_use (t : arducam_64mp) :
  runtime_active (dev t) = true -> 0 < usage_count (dev t) ->
  let w := u32 (Z.shiftr (val (exposure t)) (long_exp_shift t)) in
  0 <= w < 2 ^ 16 ->
  fst (arducam_64mp_set_ctrl t V4L2_CID_EXPOSURE)
  = (if hd 4 (script (client t)) =? 4 then 0 else - EIO)
  /\ trace (client (snd (arducam_64mp_set_ctrl t V4L2_CID_EXPOSURE)))
     = trace (client t)
       ++ [mk_event [0x02; 0x02; w / 2 ^ 8; w mod 2 ^ 8]
             (hd 4 (script (client t)))].
Proof.
  intros Ha Hu w Hw. rewrite set_ctrl_eq. cbn [cid_eqb].
  rewrite set_ctrl_powered_in_use by assumption. set (t2 := set_dev t _).
  change (set_ctrl_apply t2 V4L2_CID_EXPOSURE)
    with (arducam_64mp_write_reg t2 ARDUCAM_64MP_REG_EXPOSURE
            ARDUCAM_64MP_REG_VALUE_16BIT w).
  unfold ARDUCAM_64MP_REG_VALUE_16BIT.
  rewrite write_reg_eq, reg_msg_16bit by lia.
  change (client t2) with (client t). split; reflexivity.
Qed.

(** X9. Exposure follows the long exposure shift.  On a device in use with
    a working adapter, after the VBLANK control has been applied with
    value v, applying the exposure control with any value e between 0 and
    mode height + v - 48 (the exposure maximum) sends one 16-bit write of
    e >> k to register 0x0202, where k is the shift the VBLANK write
    stored; e >> k always fits the 16 bits of the register. *)
Theorem exposure_write_uses_stored_shift (s : arducam_64mp) (v e : Z) :
  runtime_active (dev s) = true -> 0 < usage_count (dev s) ->
  script (client s) = [] ->
  0 <= height (mode s) -> 0 <= v -> height (mode s) + v < 2 ^ 32 ->
  0 <= e <= height (mode s) + v - ARDUCAM_64MP_EXPOSURE_OFFSET ->
  let sv := update_ctrl s V4L2_CID_VBLANK (set_val (vblank s) v) in
  let s1 := snd (arducam_64mp_set_ctrl sv V4L2_CID_VBLANK) in
  let se := update_ctrl s1 V4L2_CID_EXPOSURE (set_val (exposure s1) e) in
  let res := arducam_64mp_set_ctrl se V4L2_CID_EXPOSURE in
  let k := long_exp_shift s1 in
  is_long_exp_shift (height (mode s) + v) k
  /\ Z.shiftr e k <= 0xFFFF
  /\ fst res = 0
  /\ trace (client (snd res))
     = trace (client s1)
       ++ [mk_event [0x02; 0x02; Z.shiftr e k / 2 ^ 8; Z.shiftr e k mod 2 ^ 8]
             4].
Proof.
  intros Ha Hu Hs Hh Hv Hfit He sv s1 se res k.
  destruct (set_ctrl_vblank_in_use_state sv Ha Hu Hs)
    as (k0 & t' & Hk & Heq & Hsh & Hsc & Ha' & Hu' & Hm & _).
  assert (Hs1 : s1 = t') by (subst s1; rewrite Heq; reflexivity).
  change (val (vblank sv)) with v in Hk.
  change (mode sv) with (mode s) in Hk, Hm.
  change (usage_count (dev sv)) with (usage_count (dev s)) in Hu'.
  replace (u32 (v + height (mode s))) with (height (mode s) + v) in Hk
    by (unfold u32; rewrite Z.mod_small by lia; lia).
  assert (Hkk : k = k0) by (subst k; rewrite Hs1; exact Hsh).
  rewrite Hkk. clear Hkk k.
  destruct Hk as (Hk & Hfin & Hmin).
  assert (Hek : 0 <= Z.shiftr e k0 <= 0xFFFF).
  { split; [apply Z.shiftr_nonneg; lia|].
    apply Z.le_trans with (Z.shiftr (height (mode s) + v) k0); [|exact Hfin].
    rewrite !Z.shiftr_div_pow2 by lia.
    apply Z.div_le_mono; [apply Z.pow_pos_nonneg; lia|].
    unfold ARDUCAM_64MP_EXPOSURE_OFFSET in He. lia. }
  split; [split; [exact Hk | split; [exact Hfin | exact Hmin]]|].
  split; [apply Hek|].
  assert (Hae : runtime_active (dev se) = true)
    by (subst se; rewrite Hs1; exact Ha').
  assert (Hue : 0 < usage_count (dev se))
    by (subst se; rewrite Hs1; cbn [update_ctrl set_ctrl_handler dev];
        rewrite Hu'; exact Hu).
  assert (Hw : 0 <= u32 (Z.shiftr (val (exposure se)) (long_exp_shift se))
               < 2 ^ 16
               /\ u32 (Z.shiftr (val (exposure se)) (long_exp_shift se))
                  = Z.shiftr e k0).
  { change (val (exposure se)) with e.
    change (long_exp_shift se) with (long_exp_shift s1).
    rewrite Hs1, Hsh. unfold u32. rewrite Z.mod_small by lia. lia. }
  assert (Hsce : script (client se) = [])
    by (change (client se) with (client s1); rewrite Hs1; exact Hsc).
  destruct (set_ctrl_exposure_in_use se Hae Hue (proj1 Hw)) as (E1 & E2).
  fold res in E1, E2. rewrite E1, E2, (proj2 Hw), Hsce.
  split; reflexivity.
Qed.

Lemma exposure_write_uses_stored_shift_witness :
  let s := set_dev (probed []) device_in_use in
  let sv := update_ctrl s V4L2_CID_VBLANK
              (set_val (vblank s) (200000 - 6944)) in
  let s1 := snd (arducam_64mp_set_ctrl sv V4L2_CID_VBLANK) in
  let se := update_ctrl s1 V4L2_CID_EXPOSURE (set_val (exposure s1) 100000) in
  long_exp_shift s1 = 2
  /\ skipn 2 (trace (client (snd (arducam_64mp_set_ctrl se V4L2_CID_EXPOSURE))))
     = [mk_event [0x02; 0x02; 25000 / 256; 25000 mod 256] 4].
Proof.
  intros s sv s1 se.
  destruct (exposure_write_uses_stored_shift s (200000 - 6944) 100000)
    as (_ & _ & _ & H4);
    [reflexivity | reflexivity | reflexivity | vm_compute; discriminate
    | vm_compute; discriminate | reflexivity
    | vm_compute; split; discriminate |].
  split; [vm_compute; reflexivity|].
  fold sv s1 se in H4. rewrite H4. vm_compute. reflexivity.
Defined.

(** X10. The test pattern menu: for every menu position 0..4 the value
    written to register 0x0600 is one of the sensor's five patterns 0..4,
    different positions give different patterns, position 0 ("Disabled")
    writes 0, and positions 1 and 2 are swapped with respect to the
    sensor's numbering. *)
Theorem test_pattern_menu_is_a_permutation (i j : Z) :
  0 <= i <= 4 -> 0 <= j <= 4 ->
  let p := fun n => nth (Z.to_nat n) arducam_64mp_test_pattern_val 0 in
  0 <= p i <= 4
  /\ (p i = p j -> i = j)
  /\ p 0 = ARDUCAM_64MP_TEST_PATTERN_DISABLE
  /\ p 1 = ARDUCAM_64MP_TEST_PATTERN_COLOR_BARS
  /\ p 2 = ARDUCAM_64MP_TEST_PATTERN_SOLID_COLOR
  /\ (forall s, runtime_active (dev s) = true -> 0 < usage_count (dev s) ->
        val (ctrl_handler s V4L2_CID_TEST_PATTERN) = i ->
        trace (client (snd (arducam_64mp_set_ctrl s V4L2_CID_TEST_PATTERN)))
        = trace (client s)
          ++ [mk_event [0x06; 0x00; 0x00; p i] (hd 4 (script (client s)))]).
Proof.
  intros Hi Hj p.
  assert (Hci : i = 0 \/ i = 1 \/ i = 2 \/ i = 3 \/ i = 4) by lia.
  assert (Hcj : j = 0 \/ j = 1 \/ j = 2 \/ j = 3 \/ j = 4) by lia.
  split; [destruct Hci as [-> | [-> | [-> | [-> | ->]]]]; vm_compute;
          split; discriminate|].
  split.
  { destruct Hci as [-> | [-> | [-> | [-> | ->]]]];
      destruct Hcj as [-> | [-> | [-> | [-> | ->]]]];
      vm_compute; intros H; try reflexivity; discriminate. }
  split; [reflexivity|]. split; [reflexivity|]. split; [reflexivity|].
  intros s Ha Hu Hval. rewrite set_ctrl_eq. cbn [cid_eqb].
  rewrite set_ctrl_powered_in_use by assumption. set (t := set_dev s _).
  change (set_ctrl_apply t V4L2_CID_TEST_PATTERN)
    with (arducam_64mp_write_reg t ARDUCAM_64MP_REG_TEST_PATTERN
            ARDUCAM_64MP_REG_VALUE_16BIT
            (p (val (ctrl_handler s V4L2_CID_TEST_PATTERN)))).
  rewrite Hval. unfold ARDUCAM_64MP_REG_VALUE_16BIT.
  rewrite write_reg_eq by lia.
  assert (Hp : 0 <= p i < 2 ^ 16)
    by (destruct Hci as [-> | [-> | [-> | [-> | ->]]]];
        (vm_compute; split; [discriminate | reflexivity])).
  rewrite reg_msg_16bit by exact Hp.
  assert (Hhi : p i / 2 ^ 8 = 0 /\ p i mod 2 ^ 8 = p i)
    by (destruct Hci as [-> | [-> | [-> | [-> | ->]]]]; split; reflexivity).
  destruct Hhi as (-> & ->). reflexivity.
Qed.

Lemma test_pattern_menu_is_a_permutation_witness :
  nth 1 arducam_64mp_test_pattern_val 0 = 2
  /\ nth 2 arducam_64mp_test_pattern_val 0 = 1.
Proof.
  pose proof (test_pattern_menu_is_a_permutation 1 2 ltac:(lia) ltac:(lia))
    as H.
  cbv zeta in H. destruct H as (_ & _ & _ & H1 & H2 & _).
  split; [exact H1 | exact H2].
Defined.

(** ** Framing limits *)

(** The frame length derived for a mode lies between the mode height and
    the larger of the register maximum and the height. *)
Lemma get_frame_length_bounds (m : arducam_64mp_mode) (t : v4l2_fract) :
  0 <= height m < 2 ^ 32 ->
  height m <= arducam_64mp_get_frame_length m t
  <= Z.max ARDUCAM_64MP_FRAME_LENGTH_MAX (height m).
Proof.
  intros Hh. unfold arducam_64mp_get_frame_length, do_div.
  set (n := u64 _). set (d := u64 (_ * line_length_pix m)).
  assert (Hn : 0 <= n) by (apply Z.mod_pos_bound; lia).
  assert (Hd : 0 <= d) by (apply Z.mod_pos_bound; lia).
  assert (Hq : 0 <= n / d).
  { destruct (Z.eq_dec d 0) as [->|Hd0];
      [rewrite Z.div_0_r; lia | apply Z.div_pos; lia]. }
  unfold ARDUCAM_64MP_FRAME_LENGTH_MAX.
  assert (Hu : u32 (height m) = height m)
    by (unfold u32; apply Z.mod_small; lia).
  rewrite Hu.
  destruct (Z.gtb_spec (n / d) 65535).
  - change (u32 65535) with 65535. lia.
  - unfold u32. rewrite Z.mod_small by lia. lia.
Qed.

(** The exposure descriptor after a VBLANK control operation is the one
    [arducam_64mp_adjust_exposure_range] computes; the other descriptors
    are untouched. *)
Lemma set_ctrl_vblank_handler (t : arducam_64mp) :
  ctrl_handler (snd (arducam_64mp_set_ctrl t V4L2_CID_VBLANK))
  = ctrl_handler (arducam_64mp_adjust_exposure_range t).
Proof. rewrite set_ctrl_eq. apply set_ctrl_powered_frame. Qed.

Lemma set_ctrl_vblank_shift (t : arducam_64mp) :
  let t' := snd (arducam_64mp_set_ctrl t V4L2_CID_VBLANK) in
  long_exp_shift t' = long_exp_shift t
  \/ is_long_exp_shift (u32 (val (vblank t) + height (mode t)))
       (long_exp_shift t').
Proof.
  intros t'. subst t'. rewrite set_ctrl_eq. cbn [cid_eqb].
  unfold set_ctrl_powered, pm_runtime_get_if_in_use.
  change (dev (arducam_64mp_adjust_exposure_range t)) with (dev t).
  destruct (runtime_active (dev t) && (0 <? usage_count (dev t))).
  - right. change (1 =? 0) with false. cbv iota. set (t2 := set_dev _ _).
    change (set_ctrl_apply t2 V4L2_CID_VBLANK)
      with (arducam_64mp_set_frame_length t2 (val (vblank t))).
    destruct (set_frame_length_eq t2 (val (vblank t)))
      as (k & Hk & _ & Hfin & Hmin & Heq).
    change (mode t2) with (mode t) in Hfin, Hmin.
    rewrite Heq. cbn [snd pm_runtime_put set_dev set_client
                      set_long_exp_shift long_exp_shift].
    split; [exact Hk | split; [exact Hfin | exact Hmin]].
  - left. reflexivity.
Qed.

(** X11. What [arducam_64mp_set_framing_limits] establishes for a mode
    whose height is at most 0xFFFF and whose width does not exceed its
    line length, whatever the power state and the adapter do: VBLANK gets
    the range [fl - height, 128 * 0xFFFF - height] and is set to its
    minimum, which is also its default (fl the frame length of the mode's
    default interval); HBLANK is pinned to line length - width; the
    exposure maximum is height + VBLANK - 48 and the exposure value lies
    within its range; the long exposure shift is 0. *)
Theorem set_framing_limits_establishes_ranges (s : arducam_64mp) :
  let m := mode s in
  let fl := arducam_64mp_get_frame_length m (timeperframe_default m) in
  let s' := arducam_64mp_set_framing_limits s in
  0 <= height m <= ARDUCAM_64MP_FRAME_LENGTH_MAX ->
  0 <= width m <= line_length_pix m -> line_length_pix m < 2 ^ 32 ->
  minimum (exposure s) <= fl - ARDUCAM_64MP_EXPOSURE_OFFSET ->
  (minimum (vblank s') = fl - height m
   /\ maximum (vblank s') = 2 ^ 7 * 0xFFFF - height m
   /\ default_value (vblank s') = fl - height m
   /\ val (vblank s') = fl - height m)
  /\ (minimum (hblank s') = line_length_pix m - width m
      /\ maximum (hblank s') = line_length_pix m - width m
      /\ val (hblank s') = line_length_pix m - width m)
  /\ (maximum (exposure s')
      = height m + val (vblank s') - ARDUCAM_64MP_EXPOSURE_OFFSET
      /\ minimum (exposure s') = minimum (exposure s)
      /\ minimum (exposure s') <= val (exposure s') <= maximum (exposure s'))
  /\ long_exp_shift s' = 0
  /\ mode s' = m.
Proof.
  intros m fl s' Hh Hw Hl Hmin.
  unfold ARDUCAM_64MP_FRAME_LENGTH_MAX, ARDUCAM_64MP_EXPOSURE_OFFSET in *.
  pose proof (get_frame_length_bounds m (timeperframe_default m)
                ltac:(lia)) as Hfl.
  fold fl in Hfl. unfold ARDUCAM_64MP_FRAME_LENGTH_MAX in Hfl.
  assert (Hfl' : height m <= fl <= 65535) by lia. clear Hfl.
  assert (Hu1 : u32 (fl - height m) = fl - height m)
    by (unfold u32; apply Z.mod_small; lia).
  assert (Hu2 : u32 (Z.shiftl 1 ARDUCAM_64MP_LONG_EXP_SHIFT_MAX
                     * 65535 - height m) = 2 ^ 7 * 65535 - height m)
    by (change (Z.shiftl 1 ARDUCAM_64MP_LONG_EXP_SHIFT_MAX) with (2 ^ 7);
        unfold u32; apply Z.mod_small; lia).
  assert (Hu3 : s32 (fl - height m) = fl - height m).
  { unfold s32. rewrite Hu1.
    destruct (Z.ltb_spec (fl - height m) (2 ^ 31)); lia. }
  assert (Hu4 : u32 (line_length_pix m - width m)
                = line_length_pix m - width m)
    by (unfold u32; apply Z.mod_small; lia).
  (* the state before the VBLANK control is set *)
  set (s2 := update_ctrl (set_long_exp_shift s 0) V4L2_CID_VBLANK
               (__v4l2_ctrl_modify_range (vblank (set_long_exp_shift s 0))
                  (fl - height m) (2 ^ 7 * 65535 - height m) 1
                  (fl - height m))).
  set (sv := update_ctrl s2 V4L2_CID_VBLANK
               (set_val (ctrl_handler s2 V4L2_CID_VBLANK) (fl - height m))).
  set (s3 := snd (arducam_64mp_set_ctrl sv V4L2_CID_VBLANK)).
  assert (Hs' : s' = update_ctrl s3 V4L2_CID_HBLANK
                  (__v4l2_ctrl_modify_range (hblank s3)
                     (line_length_pix m - width m)
                     (line_length_pix m - width m) 1
                     (line_length_pix m - width m))).
  { subst s'. unfold arducam_64mp_set_framing_limits.
    fold m. fold fl. unfold ARDUCAM_64MP_FRAME_LENGTH_MAX.
    rewrite Hu1, Hu2, Hu3, Hu4. fold s2.
    rewrite (s_ctrl_accepted s2 V4L2_CID_VBLANK (fl - height m)).
    - fold sv. fold s3.
      destruct (arducam_64mp_set_ctrl sv V4L2_CID_VBLANK) as [r t].
      reflexivity.
    - change (ctrl_handler s2 V4L2_CID_VBLANK)
        with (__v4l2_ctrl_modify_range (vblank (set_long_exp_shift s 0))
                (fl - height m) (2 ^ 7 * 65535 - height m) 1
                (fl - height m)).
      cbn [__v4l2_ctrl_modify_range minimum maximum]. lia.
    - change (ctrl_handler s2 V4L2_CID_VBLANK)
        with (__v4l2_ctrl_modify_range (vblank (set_long_exp_shift s 0))
                (fl - height m) (2 ^ 7 * 65535 - height m) 1
                (fl - height m)).
      cbn [__v4l2_ctrl_modify_range minimum step]. apply Z.mod_1_r. }
  clearbody fl.
  assert (Hh3 : ctrl_handler s3
                = ctrl_handler (arducam_64mp_adjust_exposure_range sv))
    by apply set_ctrl_vblank_handler.
  assert (Hm3 : mode s3 = m)
    by (destruct (set_ctrl_frame sv V4L2_CID_VBLANK) as (_ & A & _);
        exact A).
  assert (Hexp : exposure s3
    = __v4l2_ctrl_modify_range (exposure s) (minimum (exposure s))
        (fl - 48) (step (exposure s))
        (Z.min (fl - 48) (val (exposure s)))).
  { unfold exposure at 1. rewrite Hh3.
    fold (exposure (arducam_64mp_adjust_exposure_range sv)).
    rewrite adjust_exposure_range_exposure.
    change (exposure sv) with (exposure s).
    change (height (mode sv)) with (height m).
    change (val (vblank sv)) with (fl - height m).
    rewrite exposure_max_value by lia.
    replace (height m + (fl - height m) - 48) with (fl - 48) by lia.
    reflexivity. }
  assert (Hvb : vblank s3
    = set_val (__v4l2_ctrl_modify_range (vblank s) (fl - height m)
                 (2 ^ 7 * 65535 - height m) 1 (fl - height m))
        (fl - height m)).
  { unfold vblank at 1. rewrite Hh3. reflexivity. }
  assert (Hshift : long_exp_shift s3 = 0).
  { pose proof (set_ctrl_vblank_shift sv) as Hsh. cbv zeta in Hsh.
    fold s3 in Hsh. destruct Hsh as [E | (Hk & Hfin & Hmn)].
    - exact E.
    - change (val (vblank sv)) with (fl - height m) in Hmn.
      change (mode sv) with (mode s) in Hmn. fold m in Hmn.
      replace (u32 (fl - height m + height m)) with fl in Hmn
        by (unfold u32; rewrite Z.mod_small by lia; lia).
      destruct (Z.eq_dec (long_exp_shift s3) 0) as [E|E]; [exact E|].
      specialize (Hmn 0 ltac:(lia)). rewrite Z.shiftr_0_r in Hmn. lia. }
  rewrite Hs'.
  change (vblank (update_ctrl s3 V4L2_CID_HBLANK ?c)) with (vblank s3).
  change (exposure (update_ctrl s3 V4L2_CID_HBLANK ?c)) with (exposure s3).
  rewrite Hvb, Hexp.
  unfold hblank, update_ctrl, set_ctrl_handler, __v4l2_ctrl_modify_range,
    set_val, clamp.
  cbn [ctrl_handler cid_eqb minimum maximum default_value val
       long_exp_shift mode].
  repeat split; try reflexivity; try lia; try assumption.
Qed.

Lemma set_framing_limits_establishes_ranges_witness :
  let s := set_mode (probed []) (nth 6 supported_modes (mode (probed []))) in
  let s' := arducam_64mp_set_framing_limits s in
  val (vblank s') = 1083 - 720
  /\ val (hblank s') = 0x1b08 - 1280
  /\ maximum (exposure s') = 1083 - 48
  /\ long_exp_shift s' = 0.
Proof.
  intros s s'.
  pose proof (set_framing_limits_establishes_ranges s) as H.
  cbv zeta in H. fold s' in H.
  destruct H as ((_ & _ & _ & H1) & (_ & _ & H2) & (H3 & _) & H4 & _);
    [vm_compute; split; discriminate | vm_compute; split; discriminate
    | reflexivity | vm_compute; discriminate |].
  split; [etransitivity; [exact H1 | reflexivity]|].
  split; [etransitivity; [exact H2 | reflexivity]|].
  split; [|exact H4].
  etransitivity; [exact H3|]. rewrite H1. reflexivity.
Defined.

(** ** Formats *)

Lemma size_error_zero (m : arducam_64mp_mode) (w h : Z) :
  size_error m w h = 0 <-> width m = w /\ height m = h.
Proof. unfold size_error. lia. Qed.

(** A nearest entry is an exact match whenever the table has one. *)
Lemma first_nearest_exact (l : list arducam_64mp_mode)
  (m x : arducam_64mp_mode) (w h : Z) :
  first_nearest l m w h -> In x l -> width x = w -> height x = h ->
  width m = w /\ height m = h.
Proof.
  intros (l1 & l2 & Hl & H1 & H2) Hx Hw Hh.
  assert (Hx0 : size_error x w h = 0) by (apply size_error_zero; auto).
  assert (Hm : 0 <= size_error m w h) by (unfold size_error; lia).
  apply size_error_zero. rewrite Hl in Hx.
  apply in_app_or in Hx. destruct Hx as [Hx | [Hx | Hx]].
  - specialize (H1 x Hx). lia.
  - subst x. exact Hx0.
  - specialize (H2 x Hx). lia.
Qed.

Lemma set_pad_format_image_eq
  (s : arducam_64mp) (st : v4l2_subdev_state) (fmt : v4l2_subdev_format) :
  pad fmt = IMAGE_PAD ->
  exists m,
    In m supported_modes
    /\ first_nearest supported_modes m
         (f_width (format fmt)) (f_height (format fmt))
    /\ arducam_64mp_set_pad_format s st fmt
       = Some
           (let F := {| which := which fmt; pad := IMAGE_PAD;
                        format := image_format m
                                    (arducam_64mp_get_format_code s) |} in
            match which fmt with
            | V4L2_SUBDEV_FORMAT_TRY =>
                (0, F, store_try_format st IMAGE_PAD (format F), s)
            | V4L2_SUBDEV_FORMAT_ACTIVE =>
                (0, F, st,
                 arducam_64mp_set_framing_limits
                   (set_fmt_code (set_mode s m)
                      (arducam_64mp_get_format_code s)))
            end).
Proof.
  intros Hpad.
  destruct (find_nearest_size_first supported_modes
              (f_width (format fmt)) (f_height (format fmt)))
    as (m & Hm & Hfirst); [discriminate|].
  exists m. split.
  { destruct Hfirst as (l1 & l2 & Hl & _). rewrite Hl.
    apply in_or_app. right. left. reflexivity. }
  split; [exact Hfirst|].
  unfold arducam_64mp_set_pad_format. rewrite Hpad.
  change (IMAGE_PAD >=? NUM_PADS) with false.
  change (IMAGE_PAD =? IMAGE_PAD) with true. cbv iota.
  change (f_width (format (set_format_code fmt
            (arducam_64mp_get_format_code s)))) with (f_width (format fmt)).
  change (f_height (format (set_format_code fmt
            (arducam_64mp_get_format_code s)))) with (f_height (format fmt)).
  rewrite Hm.
  change (which (arducam_64mp_update_image_pad_format m
            (set_format_code fmt (arducam_64mp_get_format_code s))))
    with (which fmt).
  unfold arducam_64mp_update_image_pad_format, set_format_code,
    arducam_64mp_reset_colorspace, image_format.
  cbn [which pad format f_width f_height code field colorspace].
  rewrite Hpad. destruct (which fmt); reflexivity.
Qed.

Lemma s_ctrl_vblank_other (s : arducam_64mp) (v : Z) (id : v4l2_cid) :
  id <> V4L2_CID_VBLANK -> id <> V4L2_CID_EXPOSURE ->
  ctrl_handler (snd (__v4l2_ctrl_s_ctrl s V4L2_CID_VBLANK v)) id
  = ctrl_handler s id.
Proof.
  intros H1 H2. unfold __v4l2_ctrl_s_ctrl.
  destruct (_ || _); [reflexivity|].
  rewrite set_ctrl_vblank_handler.
  destruct id; try reflexivity; contradiction.
Qed.

(** A mode change touches the VBLANK, HBLANK and exposure descriptors and
    no other control. *)
Lemma set_framing_limits_other (s : arducam_64mp) (id : v4l2_cid) :
  id <> V4L2_CID_VBLANK -> id <> V4L2_CID_EXPOSURE ->
  id <> V4L2_CID_HBLANK ->
  ctrl_handler (arducam_64mp_set_framing_limits s) id = ctrl_handler s id.
Proof.
  intros H1 H2 H3. unfold arducam_64mp_set_framing_limits.
  set (s2 := update_ctrl (set_long_exp_shift s 0) V4L2_CID_VBLANK _).
  set (v := s32 _).
  pose proof (s_ctrl_vblank_other s2 v id H1 H2) as H.
  destruct (__v4l2_ctrl_s_ctrl s2 V4L2_CID_VBLANK v) as [r s3].
  cbn [snd] in H.
  assert (E : ctrl_handler s2 id = ctrl_handler s id)
    by (destruct id; try reflexivity; contradiction).
  rewrite <- E, <- H.
  destruct id; try reflexivity; contradiction.
Qed.

Lemma set_framing_limits_format_code (s : arducam_64mp) :
  arducam_64mp_get_format_code (arducam_64mp_set_framing_limits s)
  = arducam_64mp_get_format_code s.
Proof.
  unfold arducam_64mp_get_format_code, vflip, hflip.
  rewrite !set_framing_limits_other by discriminate. reflexivity.
Qed.

Lemma fmt_eqb_eq (a b : media_bus_fmt) : fmt_eqb a b = true <-> a = b.
Proof. destruct a, b; cbn; split; intros H; congruence. Qed.

(** X12. Every frame size that [arducam_64mp_enum_frame_size] lists for
    the image pad (index below the number of modes, current format code)
    is accepted unchanged by [arducam_64mp_set_pad_format], for try and
    active requests alike; the entry has equal minimum and maximum, and an
    index past the table is refused with -EINVAL. *)
Theorem enumerated_sizes_are_accepted
  (s : arducam_64mp) (st : v4l2_subdev_state)
  (wh : v4l2_subdev_format_whence) (i : Z) :
  0 <= i < ARRAY_SIZE supported_modes ->
  let query := fun j =>
    {| fse_index := j; fse_pad := IMAGE_PAD;
       fse_code := arducam_64mp_get_format_code s;
       min_width := 0; max_width := 0; min_height := 0; max_height := 0 |} in
  let res := arducam_64mp_enum_frame_size s (query i) in
  fst res = 0
  /\ min_width (snd res) = max_width (snd res)
  /\ min_height (snd res) = max_height (snd res)
  /\ (exists fmt' st' s',
        arducam_64mp_set_pad_format s st
          (image_request wh (min_width (snd res)) (min_height (snd res)))
        = Some (0, fmt', st', s')
        /\ f_width (format fmt') = min_width (snd res)
        /\ f_height (format fmt') = min_height (snd res))
  /\ (forall j, ARRAY_SIZE supported_modes <= j ->
        arducam_64mp_enum_frame_size s (query j) = (- EINVAL, query j)).
Proof.
  intros Hi query res.
  set (m := nth (Z.to_nat i) supported_modes (mode s)).
  assert (Hin : In m supported_modes).
  { apply nth_In. unfold ARRAY_SIZE in Hi. lia. }
  assert (Hres : res = (0, fse_set_sizes (query i) (width m) (height m))).
  { subst res. unfold arducam_64mp_enum_frame_size.
    change (fse_pad (query i)) with IMAGE_PAD.
    change (fse_index (query i)) with i.
    change (fse_code (query i)) with (arducam_64mp_get_format_code s).
    change (IMAGE_PAD >=? NUM_PADS) with false.
    change (IMAGE_PAD =? IMAGE_PAD) with true. cbv iota.
    destruct (Z.geb_spec i (ARRAY_SIZE supported_modes)); [lia|].
    rewrite (proj2 (fmt_eqb_eq _ _) eq_refl). reflexivity. }
  rewrite Hres. cbn [fst snd fse_set_sizes min_width max_width min_height
                     max_height].
  split; [reflexivity|]. split; [reflexivity|]. split; [reflexivity|].
  split.
  - destruct (set_pad_format_image_eq s st
                (image_request wh (width m) (height m)) eq_refl)
      as (m' & _ & Hfirst & Heq).
    destruct (first_nearest_exact _ _ m _ _ Hfirst Hin eq_refl eq_refl)
      as (Ew & Eh).
    rewrite Heq. cbv zeta. cbn [image_request which].
    destruct wh; eexists _, _, _; (split; [reflexivity|]); split; assumption.
  - intros j Hj. unfold arducam_64mp_enum_frame_size.
    change (fse_pad (query j)) with IMAGE_PAD.
    change (fse_index (query j)) with j.
    change (IMAGE_PAD >=? NUM_PADS) with false.
    change (IMAGE_PAD =? IMAGE_PAD) with true. cbv iota.
    destruct (Z.geb_spec j (ARRAY_SIZE supported_modes)); [reflexivity|lia].
Qed.

Lemma enumerated_sizes_are_accepted_witness :
  exists fmt' st' s',
    arducam_64mp_set_pad_format (probed []) blank_try_state
      (image_request V4L2_SUBDEV_FORMAT_TRY 3840 2160)
    = Some (0, fmt', st', s')
    /\ f_width (format fmt') = 3840 /\ f_height (format fmt') = 2160.
Proof.
  pose proof (enumerated_sizes_are_accepted (probed []) blank_try_state
                V4L2_SUBDEV_FORMAT_TRY 3) as H.
  cbv zeta in H.
  destruct H as (_ & _ & _ & H & _); [vm_compute; split; discriminate
                                     || (split; reflexivity)|].
  exact H.
Defined.

Lemma image_format_same_size (m m' : arducam_64mp_mode) (c : media_bus_fmt) :
  width m' = width m -> height m' = height m ->
  image_format m' c = image_format m c.
Proof. intros Hw Hh. unfold image_format. rewrite Hw, Hh. reflexivity. Qed.

(** X13. Format negotiation on the image pad is idempotent: the format a
    request comes back with, requested again on the resulting state, comes
    back unchanged; for a try request the second call changes neither the
    try state nor the device state. *)
Theorem set_pad_format_is_idempotent
  (s : arducam_64mp) (st : v4l2_subdev_state) (fmt : v4l2_subdev_format) :
  pad fmt = IMAGE_PAD ->
  exists fmt' st' s',
    arducam_64mp_set_pad_format s st fmt = Some (0, fmt', st', s')
    /\ exists st'' s'',
         arducam_64mp_set_pad_format s' st' fmt' = Some (0, fmt', st'', s'')
         /\ (which fmt = V4L2_SUBDEV_FORMAT_TRY -> st'' = st' /\ s'' = s').
Proof.
  intros Hpad.
  destruct (set_pad_format_image_eq s st fmt Hpad) as (m & Hin & _ & Heq).
  rewrite Heq. cbv zeta.
  set (F := {| which := which fmt; pad := IMAGE_PAD;
               format := image_format m (arducam_64mp_get_format_code s) |}).
  assert (Hsecond : forall s' st',
    arducam_64mp_get_format_code s' = arducam_64mp_get_format_code s ->
    exists m',
      width m' = width m /\ height m' = height m
      /\ arducam_64mp_set_pad_format s' st' F
         = Some
             match which fmt with
             | V4L2_SUBDEV_FORMAT_TRY =>
                 (0, F, store_try_format st' IMAGE_PAD (format F), s')
             | V4L2_SUBDEV_FORMAT_ACTIVE =>
                 (0, F, st',
                  arducam_64mp_set_framing_limits
                    (set_fmt_code (set_mode s' m')
                       (arducam_64mp_get_format_code s')))
             end).
  { intros s' st' Hc.
    destruct (set_pad_format_image_eq s' st' F eq_refl)
      as (m' & _ & Hfirst & Heq').
    destruct (first_nearest_exact _ _ m _ _ Hfirst Hin eq_refl eq_refl)
      as (Ew & Eh).
    exists m'. split; [exact Ew|]. split; [exact Eh|].
    rewrite Heq'. cbv zeta. change (which F) with (which fmt).
    rewrite Hc, (image_format_same_size m m' _ Ew Eh). reflexivity. }
  destruct (which fmt) eqn:Hw.
  - eexists F, _, s. split; [reflexivity|].
    destruct (Hsecond s (store_try_format st IMAGE_PAD (format F)) eq_refl)
      as (m' & _ & _ & E2).
    rewrite E2. eexists _, s. split; [reflexivity|].
    intros _. split; reflexivity.
  - eexists F, st, _. split; [reflexivity|].
    destruct (Hsecond
      (arducam_64mp_set_framing_limits
         (set_fmt_code (set_mode s m) (arducam_64mp_get_format_code s))) st)
      as (m' & _ & _ & E2);
      [rewrite set_framing_limits_format_code; reflexivity|].
    rewrite E2. eexists _, _. split; [reflexivity | discriminate].
Qed.

Lemma set_pad_format_is_idempotent_witness :
  exists fmt' st' s',
    arducam_64mp_set_pad_format (probed []) blank_try_state
      (image_request V4L2_SUBDEV_FORMAT_ACTIVE 2000 1100)
    = Some (0, fmt', st', s')
    /\ exists st'' s'',
         arducam_64mp_set_pad_format s' st' fmt' = Some (0, fmt', st'', s'')
         /\ (V4L2_SUBDEV_FORMAT_ACTIVE = V4L2_SUBDEV_FORMAT_TRY ->
             st'' = st' /\ s'' = s').
Proof.
  exact (set_pad_format_is_idempotent (probed []) blank_try_state
           (image_request V4L2_SUBDEV_FORMAT_ACTIVE 2000 1100) eq_refl).
Defined.

(** X14. Set and get agree on the image pad: after a successful
    [arducam_64mp_set_pad_format], [arducam_64mp_get_pad_format] on the
    resulting states returns exactly the format that the set call
    returned (size, code, field and colour space), for try and active
    requests, and changes nothing. *)
Theorem get_pad_format_returns_what_was_set
  (s : arducam_64mp) (st : v4l2_subdev_state) (fmt : v4l2_subdev_format) :
  pad fmt = IMAGE_PAD ->
  exists fmt' st' s',
    arducam_64mp_set_pad_format s st fmt = Some (0, fmt', st', s')
    /\ arducam_64mp_get_pad_format s' st' fmt' = (0, fmt', st').
Proof.
  intros Hpad.
  destruct (set_pad_format_image_eq s st fmt Hpad) as (m & Hin & _ & Heq).
  rewrite Heq. cbv zeta.
  destruct (which fmt) eqn:Hw.
  - eexists _, _, s. split; [reflexivity|].
    unfold arducam_64mp_get_pad_format. cbn [pad which].
    change (IMAGE_PAD >=? NUM_PADS) with false.
    unfold v4l2_subdev_get_try_format, store_try_format.
    change (IMAGE_PAD =? IMAGE_PAD) with true. cbv iota.
    reflexivity.
  - eexists _, st, _. split; [reflexivity|].
    unfold arducam_64mp_get_pad_format. cbn [pad which].
    change (IMAGE_PAD >=? NUM_PADS) with false.
    change (IMAGE_PAD =? IMAGE_PAD) with true. cbv iota.
    rewrite set_framing_limits_mode, set_framing_limits_format_code.
    reflexivity.
Qed.

Lemma get_pad_format_returns_what_was_set_witness :
  exists fmt' st' s',
    arducam_64mp_set_pad_format (probed []) blank_try_state
      request_1920x1080 = Some (0, fmt', st', s')
    /\ arducam_64mp_get_pad_format s' st' fmt' = (0, fmt', st').
Proof.
  exact (get_pad_format_returns_what_was_set (probed []) blank_try_state
           request_1920x1080 eq_refl).
Defined.

(** X15. The two enumerations agree.  For each pad,
    [arducam_64mp_enum_mbus_code] lists exactly one code (index 0; any
    further index is -EINVAL), and [arducam_64mp_enum_frame_size] at index
    0 accepts a code exactly when it is that listed code; on the image pad
    the listed code is the current flip-dependent format code.  Pads past
    the last one are refused by both with -EINVAL. *)
Theorem enum_frame_size_accepts_enumerated_codes
  (s : arducam_64mp) (p : Z) (c : media_bus_fmt) :
  p = IMAGE_PAD \/ p = METADATA_PAD ->
  let ce := arducam_64mp_enum_mbus_code s (mk_code_enum p 0 c) in
  let fs := arducam_64mp_enum_frame_size s (size_query p 0 c) in
  fst ce = 0
  /\ (fst fs = 0 <-> c = ce_code (snd ce))
  /\ (fst fs <> 0 -> fs = (- EINVAL, size_query p 0 c))
  /\ (p = IMAGE_PAD -> ce_code (snd ce) = arducam_64mp_get_format_code s)
  /\ (forall i, 0 < i ->
        arducam_64mp_enum_mbus_code s (mk_code_enum p i c)
        = (- EINVAL, mk_code_enum p i c))
  /\ (forall q i, NUM_PADS <= q ->
        arducam_64mp_enum_mbus_code s (mk_code_enum q i c)
        = (- EINVAL, mk_code_enum q i c)
        /\ arducam_64mp_enum_frame_size s (size_query q i c)
           = (- EINVAL, size_query q i c)).
Proof.
  intros Hp ce fs.
  assert (Hq : forall q i, NUM_PADS <= q ->
    arducam_64mp_enum_mbus_code s (mk_code_enum q i c)
    = (- EINVAL, mk_code_enum q i c)
    /\ arducam_64mp_enum_frame_size s (size_query q i c)
       = (- EINVAL, size_query q i c)).
  { intros q i Hge.
    unfold arducam_64mp_enum_mbus_code, arducam_64mp_enum_frame_size.
    cbn [ce_pad fse_pad size_query].
    destruct (Z.geb_spec q NUM_PADS); [split; reflexivity | lia]. }
  assert (Hi : forall i, 0 < i ->
    arducam_64mp_enum_mbus_code s (mk_code_enum p i c)
    = (- EINVAL, mk_code_enum p i c)).
  { intros i Hpos. unfold arducam_64mp_enum_mbus_code. cbn [ce_pad ce_index].
    destruct (Z.gtb_spec i 0); [|lia].
    destruct Hp as [-> | ->]; reflexivity. }
  destruct Hp as [-> | ->].
  - assert (Hfs : fs = if fmt_eqb c (arducam_64mp_get_format_code s)
                       then (0, fse_set_sizes (size_query IMAGE_PAD 0 c)
                                  (width (nth 0 supported_modes (mode s)))
                                  (height (nth 0 supported_modes (mode s))))
                       else (- EINVAL, size_query IMAGE_PAD 0 c)).
    { subst fs. unfold arducam_64mp_enum_frame_size.
      cbn [size_query fse_pad fse_index fse_code].
      change (IMAGE_PAD >=? NUM_PADS) with false.
      change (IMAGE_PAD =? IMAGE_PAD) with true.
      change (0 >=? ARRAY_SIZE supported_modes) with false. cbv iota.
      destruct (fmt_eqb c (arducam_64mp_get_format_code s)); reflexivity. }
    rewrite Hfs. subst ce. unfold arducam_64mp_enum_mbus_code.
    cbn [ce_pad ce_index fst snd ce_code].
    change (IMAGE_PAD >=? NUM_PADS) with false.
    change (IMAGE_PAD =? IMAGE_PAD) with true. change (0 >? 0) with false.
    cbn [fst snd ce_code].
    pose proof (fmt_eqb_eq c (arducam_64mp_get_format_code s)) as Hc.
    destruct (fmt_eqb c (arducam_64mp_get_format_code s)); cbn [fst].
    + split; [reflexivity|].
      split; [split; [intros _; apply Hc; reflexivity | reflexivity]|].
      split; [intros H; contradiction|].
      split; [reflexivity|]. split; [exact Hi | exact Hq].
    + split; [reflexivity|].
      split; [split; [intros E; vm_compute in E; discriminate
                     | intros E; apply Hc in E; discriminate]|].
      split; [reflexivity|].
      split; [reflexivity|]. split; [exact Hi | exact Hq].
  - assert (Hfs : fs = if fmt_eqb c MEDIA_BUS_FMT_SENSOR_DATA
                       then (0, fse_set_sizes (size_query METADATA_PAD 0 c)
                                  ARDUCAM_64MP_EMBEDDED_LINE_WIDTH
                                  ARDUCAM_64MP_NUM_EMBEDDED_LINES)
                       else (- EINVAL, size_query METADATA_PAD 0 c)).
    { subst fs. unfold arducam_64mp_enum_frame_size.
      cbn [size_query fse_pad fse_index fse_code].
      change (METADATA_PAD >=? NUM_PADS) with false.
      change (METADATA_PAD =? IMAGE_PAD) with false.
      change (0 >? 0) with false. cbv iota.
      destruct (fmt_eqb c MEDIA_BUS_FMT_SENSOR_DATA); reflexivity. }
    rewrite Hfs. subst ce. unfold arducam_64mp_enum_mbus_code.
    cbn [ce_pad ce_index fst snd ce_code].
    change (METADATA_PAD >=? NUM_PADS) with false.
    change (METADATA_PAD =? IMAGE_PAD) with false. change (0 >? 0) with false.
    cbn [fst snd ce_code].
    pose proof (fmt_eqb_eq c MEDIA_BUS_FMT_SENSOR_DATA) as Hc.
    destruct (fmt_eqb c MEDIA_BUS_FMT_SENSOR_DATA); cbn [fst].
    + split; [reflexivity|].
      split; [split; [intros _; apply Hc; reflexivity | reflexivity]|].
      split; [intros H; contradiction|].
      split; [intros E; vm_compute in E; discriminate|].
      split; [exact Hi | exact Hq].
    + split; [reflexivity|].
      split; [split; [intros E; vm_compute in E; discriminate
                     | intros E; apply Hc in E; discriminate]|].
      split; [reflexivity|].
      split; [intros E; vm_compute in E; discriminate|].
      split; [exact Hi | exact Hq].
Qed.

Lemma enum_frame_size_accepts_enumerated_codes_witness :
  fst (arducam_64mp_enum_frame_size (probed [])
         (size_query IMAGE_PAD 0 MEDIA_BUS_FMT_SBGGR10_1X10)) <> 0
  /\ fst (arducam_64mp_enum_frame_size (probed [])
            (size_query IMAGE_PAD 0 MEDIA_BUS_FMT_SRGGB10_1X10)) = 0.
Proof.
  pose proof (enum_frame_size_accepts_enumerated_codes (probed []) IMAGE_PAD
                MEDIA_BUS_FMT_SBGGR10_1X10 (or_introl eq_refl)) as H1.
  pose proof (enum_frame_size_accepts_enumerated_codes (probed []) IMAGE_PAD
                MEDIA_BUS_FMT_SRGGB10_1X10 (or_introl eq_refl)) as H2.
  cbv zeta in H1, H2.
  destruct H1 as (_ & H1 & _). destruct H2 as (_ & H2 & _).
  split.
  - intros E. apply H1 in E. vm_compute in E. discriminate.
  - apply H2. vm_compute. reflexivity.
Defined.

(** X16. The metadata pad.  An active request always comes back as the one
    embedded-data format, 34680 x 1 with the sensor-data code, whatever was
    asked for, and changes nothing.  A try request is stored exactly as
    given: a later try query returns the requested width and height, not
    the embedded-data geometry, with only the code set to sensor data. *)
Theorem metadata_try_format_is_stored_as_given
  (s : arducam_64mp) (st : v4l2_subdev_state) (fmt : v4l2_subdev_format) :
  pad fmt = METADATA_PAD ->
  (which fmt = V4L2_SUBDEV_FORMAT_ACTIVE ->
   exists fmt',
     arducam_64mp_set_pad_format s st fmt = Some (0, fmt', st, s)
     /\ f_width (format fmt') = 34680 /\ f_height (format fmt') = 1
     /\ code (format fmt') = MEDIA_BUS_FMT_SENSOR_DATA
     /\ field (format fmt') = V4L2_FIELD_NONE)
  /\ (which fmt = V4L2_SUBDEV_FORMAT_TRY ->
      exists st',
        arducam_64mp_set_pad_format s st fmt = Some (0, fmt, st', s)
        /\ try_fmt_meta st' = format fmt
        /\ try_fmt_img st' = try_fmt_img st
        /\ exists got st'',
             arducam_64mp_get_pad_format s st' fmt = (0, got, st'')
             /\ f_width (format got) = f_width (format fmt)
             /\ f_height (format got) = f_height (format fmt)
             /\ code (format got) = MEDIA_BUS_FMT_SENSOR_DATA).
Proof.
  intros Hpad. split; intros Hw.
  - unfold arducam_64mp_set_pad_format. rewrite Hpad, Hw.
    change (METADATA_PAD >=? NUM_PADS) with false.
    change (METADATA_PAD =? IMAGE_PAD) with false. cbv iota.
    eexists. split; [reflexivity|]. repeat split.
  - unfold arducam_64mp_set_pad_format, arducam_64mp_get_pad_format.
    rewrite Hpad, Hw.
    change (METADATA_PAD >=? NUM_PADS) with false.
    change (METADATA_PAD =? IMAGE_PAD) with false. cbv iota.
    unfold store_try_format, v4l2_subdev_get_try_format.
    change (METADATA_PAD =? IMAGE_PAD) with false. cbv iota.
    eexists. split; [reflexivity|]. cbn [try_fmt_meta try_fmt_img].
    split; [reflexivity|]. split; [reflexivity|].
    eexists _, _. split; [reflexivity|]. repeat split.
Qed.

Lemma metadata_try_format_is_stored_as_given_witness :
  let fmt := {| which := V4L2_SUBDEV_FORMAT_TRY; pad := METADATA_PAD;
                format := format request_1920x1080 |} in
  exists st' got st'',
    arducam_64mp_set_pad_format (probed []) blank_try_state fmt
    = Some (0, fmt, st', probed [])
    /\ arducam_64mp_get_pad_format (probed []) st' fmt = (0, got, st'')
    /\ f_width (format got) = 1920 /\ f_height (format got) = 1080.
Proof.
  intros fmt.
  destruct (metadata_try_format_is_stored_as_given (probed [])
              blank_try_state fmt eq_refl) as (_ & H).
  destruct (H eq_refl) as (st' & H1 & _ & _ & got & st'' & H2 & H3 & H4 & _).
  exists st', got, st''. repeat split; assumption.
Defined.

(** ** Streaming on a working adapter *)







Lemma run_stages_invariant (I : arducam_64mp -> Prop)
  (l : list (arducam_64mp -> Z * arducam_64mp)) :
  (forall f, In f l -> forall t, I t -> I (snd (f t))) ->
  forall t, I t -> I (snd (run_stages l t)).
Proof.
  induction l as [|f l IH]; intros Hf t Ht; cbn [run_stages snd].
  - exact Ht.
  - pose proof (Hf f (or_introl eq_refl) t Ht) as H1.
    destruct (f t) as [r t1]. cbn [snd] in H1.
    destruct (negb (r =? 0)); [exact H1|].
    apply IH; [|exact H1]. intros g Hg. apply Hf. right; exact Hg.
Qed.

(** [arducam_64mp_start_streaming] takes and drops its PM references in
    pairs and leaves the flip locks alone. *)
Lemma start_streaming_pm (s : arducam_64mp) :
  usage_count (dev (snd (arducam_64mp_start_streaming s)))
  = usage_count (dev s)
  /\ runtime_active (dev (snd (arducam_64mp_start_streaming s)))
     = runtime_active (dev s).
Proof.
  rewrite start_streaming_stages.
  apply (run_stages_invariant
           (fun t => usage_count (dev t) = usage_count (dev s)
                     /\ runtime_active (dev t) = runtime_active (dev s)));
    [|split; reflexivity].
  intros f Hf t [Hu Ha].
  destruct Hf as [<-|[<-|[<-|[<-|[]]]]].
  - unfold stage_common. destruct (negb (common_regs_written t));
      [|split; assumption].
    destruct (write_regs_frame t mode_common_regs
                (ARRAY_SIZE mode_common_regs)) as (_ & _ & _ & _ & _ & D & _).
    destruct (arducam_64mp_write_regs _ _ _) as [r t'].
    cbn [snd] in D. destruct (negb (r =? 0)); cbn [snd];
      change (dev (set_common_regs_written t' true)) with (dev t');
      rewrite D; split; assumption.
  - destruct (write_regs_frame t (regs (reg_list (mode t)))
                (num_of_regs (reg_list (mode t))))
      as (_ & _ & _ & _ & _ & D & _).
    unfold stage_mode. rewrite D. split; assumption.
  - destruct (ctrl_setup_loop_frame handler_ctrls t)
      as (_ & _ & _ & _ & _ & _ & B7 & B8 & _).
    unfold __v4l2_ctrl_handler_setup. rewrite B7, B8. split; assumption.
  - destruct (write_reg_frame t ARDUCAM_64MP_REG_MODE_SELECT
                ARDUCAM_64MP_REG_VALUE_08BIT ARDUCAM_64MP_MODE_STREAMING)
      as (_ & _ & _ & _ & _ & D & _).
    unfold stage_select. rewrite D. split; assumption.
Qed.



(** ** Stream requests, suspend and resume *)

Lemma stop_streaming_eq (s : arducam_64mp) :
  arducam_64mp_stop_streaming s
  = set_client s (sent (client s) standby_msg).
Proof.
  unfold arducam_64mp_stop_streaming, ARDUCAM_64MP_REG_VALUE_08BIT.
  rewrite write_reg_eq by lia. reflexivity.
Qed.

Lemma pm_runtime_get_sync_usage (s : arducam_64mp) :
  usage_count (dev (snd (pm_runtime_get_sync s))) = usage_count (dev s) + 1.
Proof.
  unfold pm_runtime_get_sync, arducam_64mp_power_on.
  cbn [dev set_dev set_usage_count set_rails regulator_ret clk_ret
       runtime_active usage_count].
  destruct (runtime_active (dev s)); [reflexivity|].
  destruct (negb (regulator_ret (dev s) =? 0)); cbn [negb];
    [destruct (negb (regulator_ret (dev s) =? 0)); reflexivity|].
  destruct (negb (clk_ret (dev s) =? 0)); cbn [negb];
    [destruct (negb (clk_ret (dev s) =? 0)); reflexivity|].
  reflexivity.
Qed.

Lemma set_stream_start_eq (s : arducam_64mp) (enable : Z) :
  Z.b2z (streaming s) <> enable -> enable <> 0 ->
  arducam_64mp_set_stream s enable =
    (if negb (fst (start_attempt s) =? 0) then start_attempt s
     else (0, stream_entered (snd (start_attempt s)) true)).
Proof.
  intros Hne He. unfold arducam_64mp_set_stream, start_attempt.
  destruct (Z.eqb_spec (Z.b2z (streaming s)) enable) as [|_];
    [contradiction|].
  destruct (Z.eqb_spec enable 0) as [|_]; [contradiction|].
  cbn [negb]. cbv iota.
  destruct (pm_runtime_get_sync s) as [r t].
  destruct (r <? 0).
  - cbn [fst snd]. destruct (negb (r =? 0)); reflexivity.
  - destruct (arducam_64mp_start_streaming t) as [r' t'].
    destruct (negb (r' =? 0)) eqn:E; cbn [fst snd].
    + rewrite E. reflexivity.
    + reflexivity.
Qed.

Lemma set_stream_stop_eq (s : arducam_64mp) :
  streaming s = true ->
  arducam_64mp_set_stream s 0
  = (0, stream_entered (pm_runtime_put (arducam_64mp_stop_streaming s))
          false).
Proof.
  intros Hs. unfold arducam_64mp_set_stream. rewrite Hs. reflexivity.
Qed.

Lemma start_attempt_usage (s : arducam_64mp) :
  usage_count (dev (snd (start_attempt s)))
  = usage_count (dev s) + (if fst (start_attempt s) =? 0 then 1 else 0).
Proof.
  unfold start_attempt.
  pose proof (pm_runtime_get_sync_usage s) as H1.
  destruct (pm_runtime_get_sync s) as [r t]. cbn [snd] in H1.
  destruct (r <? 0) eqn:Er.
  - cbn [fst snd]. apply Z.ltb_lt in Er.
    destruct (Z.eqb_spec r 0); [lia|].
    unfold pm_runtime_put. cbn [dev set_dev set_usage_count usage_count].
    lia.
  - destruct (start_streaming_pm t) as [H2 _].
    destruct (arducam_64mp_start_streaming t) as [r' t'].
    cbn [snd] in H2.
    destruct (Z.eqb_spec r' 0) as [->|Hr']; cbn [negb fst snd Z.eqb].
    + lia.
    + destruct (Z.eqb_spec r' 0); [contradiction|].
      unfold pm_runtime_put.
      cbn [dev set_dev set_usage_count usage_count]. lia.
Qed.

(** X18. A stop request on a streaming device cannot fail: whatever the
    adapter answers to the standby write, [arducam_64mp_set_stream]
    returns 0, clears the streaming flag, unlocks both flip controls and
    drops the PM reference.  Exactly one transfer is attempted, the write
    of the standby value to the mode-select register. *)
Theorem set_stream_stop_is_best_effort (s : arducam_64mp) :
  streaming s = true ->
  let res := arducam_64mp_set_stream s 0 in
  fst res = 0
  /\ streaming (snd res) = false
  /\ grabbed (vflip (snd res)) = false
  /\ grabbed (hflip (snd res)) = false
  /\ trace (client (snd res))
     = trace (client s)
       ++ [mk_event standby_msg (hd 3 (script (client s)))]
  /\ usage_count (dev (snd res)) = usage_count (dev s) - 1
  /\ common_regs_written (snd res) = common_regs_written s.
Proof.
  intros Hs res. subst res. rewrite set_stream_stop_eq by exact Hs.
  rewrite stop_streaming_eq. repeat split.
Qed.

Lemma set_stream_stop_is_best_effort_witness :
  let s := set_streaming (set_client (set_dev (probed []) device_in_use)
                            {| script := [-121]; trace := [] |}) true in
  fst (arducam_64mp_set_stream s 0) = 0
  /\ streaming (snd (arducam_64mp_set_stream s 0)) = false
  /\ trace (client (snd (arducam_64mp_set_stream s 0)))
     = [mk_event standby_msg (-121)].
Proof.
  intros s.
  destruct (set_stream_stop_is_best_effort s eq_refl)
    as (H1 & H2 & _ & _ & H5 & _).
  split; [exact H1|]. split; [exact H2|]. exact H5.
Defined.

(** X19. A stream request that differs from the current state either
    succeeds, and then the streaming flag and the lock of both flip
    controls are exactly "[enable] is nonzero", or fails, and then it was
    a start request and the streaming flag is what it was.  The device
    holds one PM reference more after a successful start, one less after
    a stop, and the same number after a failed start.  The flag is
    compared as an integer: a request with [enable] other than 0 and 1 on
    a streaming device is not a repeat, it runs the start sequence again
    and a success takes a further reference. *)
Theorem set_stream_flag_follows_request (s : arducam_64mp) (enable : Z) :
  Z.b2z (streaming s) <> enable ->
  let res := arducam_64mp_set_stream s enable in
  let en := negb (enable =? 0) in
  (fst res = 0 ->
     streaming (snd res) = en
     /\ grabbed (vflip (snd res)) = en
     /\ grabbed (hflip (snd res)) = en
     /\ usage_count (dev (snd res))
        = usage_count (dev s) + (if en then 1 else -1))
  /\ (fst res <> 0 ->
        enable <> 0
        /\ streaming (snd res) = streaming s
        /\ usage_count (dev (snd res)) = usage_count (dev s)).
Proof.
  intros Hne res en. subst res en.
  destruct (Z.eqb_spec enable 0) as [->|He]; cbn [negb].
  - assert (Hs : streaming s = true)
      by (destruct (streaming s); [reflexivity | contradiction Hne; reflexivity]).
    rewrite set_stream_stop_eq by exact Hs. rewrite stop_streaming_eq.
    split; [intros _; repeat split | intros H; contradiction H; reflexivity].
  - rewrite set_stream_start_eq by assumption.
    pose proof (start_attempt_usage s) as Hu.
    destruct (start_attempt_flags s) as [Hf _].
    destruct (start_attempt s) as [r t]. cbn [fst snd] in *.
    destruct (Z.eqb_spec r 0) as [->|Hr]; cbn [negb fst snd].
    + split; [intros _ | intros H; contradiction H; reflexivity].
      repeat split. exact Hu.
    + split; [intros H; contradiction|intros _].
      split; [exact He|]. split; [exact Hf | lia].
Qed.

Lemma set_stream_flag_follows_request_witness :
  let s := set_streaming (set_dev (probed []) device_in_use) true in
  fst (arducam_64mp_set_stream s 2) = 0
  /\ usage_count (dev (snd (arducam_64mp_set_stream s 2))) = 2.
Proof.
  intros s.
  assert (Hne : Z.b2z (streaming s) <> 2) by (vm_compute; discriminate).
  destruct (set_stream_flag_follows_request s 2 Hne) as [H1 _].
  assert (H0 : fst (arducam_64mp_set_stream s 2) = 0)
    by (vm_compute; reflexivity).
  split; [exact H0|].
  destruct (H1 H0) as (_ & _ & _ & H4). rewrite H4. reflexivity.
Defined.

(** X20. [arducam_64mp_resume] does nothing on a device that was not
    streaming.  On a streaming device it runs the start sequence; when
    that fails it returns the error, attempts the standby write as the
    last transfer and clears the streaming flag; when it succeeds the
    flag stays set.  [arducam_64mp_suspend] always returns 0 and never
    changes the flag: on a streaming device it attempts the standby
    write, otherwise it sends nothing. *)
Theorem resume_failure_clears_streaming (s : arducam_64mp) :
  let res := arducam_64mp_resume s in
  let sus := arducam_64mp_suspend s in
  (streaming s = false -> res = (0, s) /\ sus = (0, s))
  /\ (fst res = 0 -> streaming (snd res) = streaming s)
  /\ (fst res <> 0 ->
        streaming s = true
        /\ fst res = fst (arducam_64mp_start_streaming s)
        /\ streaming (snd res) = false
        /\ exists l r,
             trace (client (snd res))
             = trace (client s) ++ l ++ [mk_event standby_msg r])
  /\ fst sus = 0
  /\ streaming (snd sus) = streaming s
  /\ (streaming s = true ->
        trace (client (snd sus))
        = trace (client s)
          ++ [mk_event standby_msg (hd 3 (script (client s)))]).
Proof.
  intros res sus. subst res sus.
  unfold arducam_64mp_resume, arducam_64mp_suspend.
  destruct (streaming s) eqn:Hs.
  - destruct (start_streaming_frame s) as (F1 & _ & _ & [l Hl]).
    destruct (arducam_64mp_start_streaming s) as [r t]. cbn [fst snd] in *.
    rewrite !stop_streaming_eq.
    split; [discriminate|].
    destruct (Z.eqb_spec r 0) as [->|Hr]; cbn [negb fst snd].
    + split; [intros _; rewrite F1; exact Hs|].
      split; [intros H; contradiction H; reflexivity|].
      repeat split; exact Hs.
    + split; [intros H; contradiction|].
      split.
      * intros _. repeat split.
        exists l, (hd 3 (script (client t))).
        unfold set_streaming, set_client, sent. cbn [client trace].
        rewrite Hl, <- app_assoc. reflexivity.
      * repeat split; exact Hs.
  - cbn [fst snd]. split; [split; reflexivity|].
    split; [intros _; exact Hs|].
    split; [intros H; contradiction H; reflexivity|].
    split; [reflexivity|]. split; [exact Hs | discriminate].
Qed.



(** ** Power sequencing *)

(** X22. [arducam_64mp_power_on] on a device whose supplies and clock
    are off is all or nothing.  It returns 0 exactly when both
    the regulators and the clock could be enabled, and then supplies and
    clock are on and the reset line is released.  Otherwise it returns
    the error of the step that failed, regulators first, and the state is
    what it was: a failed clock enable switches the supplies off again
    and the reset line is not touched. *)
Theorem power_on_is_all_or_nothing (s : arducam_64mp) :
  supplies_on (dev s) = false -> xclk_on (dev s) = false ->
  let res := arducam_64mp_power_on s in
  (fst res = 0 <-> regulator_ret (dev s) = 0 /\ clk_ret (dev s) = 0)
  /\ fst res = (if regulator_ret (dev s) =? 0 then clk_ret (dev s)
                else regulator_ret (dev s))
  /\ (fst res = 0 ->
        supplies_on (dev (snd res)) = true
        /\ xclk_on (dev (snd res)) = true
        /\ reset_gpio (dev (snd res)) = 1)
  /\ (fst res <> 0 -> snd res = s).
Proof.
  intros Hsup Hclk res. subst res. unfold arducam_64mp_power_on.
  destruct s as [fc ch m st crw les cl d].
  destruct d as [uc ra rr cr so xo rg].
  cbn [dev set_dev set_rails regulator_ret clk_ret supplies_on xclk_on
       reset_gpio usage_count runtime_active] in *.
  subst so xo.
  destruct (Z.eqb_spec rr 0) as [->|Hr]; cbn [negb fst snd].
  - destruct (Z.eqb_spec cr 0) as [->|Hc]; cbn [negb fst snd dev supplies_on
                                                 xclk_on reset_gpio].
    + split; [split; [intros _; split; reflexivity | reflexivity]|].
      split; [reflexivity|].
      split; [intros _; repeat split | intros H; contradiction H; reflexivity].
    + split; [split; [intros H; contradiction | intros [_ H]; contradiction]|].
      split; [reflexivity|].
      split; [intros H; contradiction | intros _; reflexivity].
  - split; [split; [intros H; contradiction | intros [H _]; contradiction]|].
    split; [reflexivity|].
    split; [intros H; contradiction | intros _; reflexivity].
Qed.

Lemma power_on_is_all_or_nothing_witness :
  let s := set_dev (probed [])
             {| usage_count := 1; runtime_active := false;
                regulator_ret := 0; clk_ret := -5; supplies_on := false;
                xclk_on := false; reset_gpio := 0 |} in
  fst (arducam_64mp_power_on s) = -5
  /\ snd (arducam_64mp_power_on s) = s.
Proof.
  intros s.
  destruct (power_on_is_all_or_nothing s eq_refl eq_refl)
    as (_ & H2 & _ & H4).
  split; [exact H2|]. apply H4. rewrite H2. vm_compute. discriminate.
Defined.



(** ** The try state of a new file handle *)

(** X24. [arducam_64mp_open] always returns 0 and leaves a try state
    that the format operations accept as it is: reading the try format of
    either pad returns the stored format and does not change the try
    state, and requesting the stored image format again as a try format
    succeeds with the same size, code and field and changes nothing of
    the device. *)
Theorem open_try_state_is_stable
  (s : arducam_64mp) (st : v4l2_subdev_state) (f : v4l2_mbus_framefmt) :
  let st1 := snd (arducam_64mp_open s st) in
  let try_req := fun p g =>
    {| which := V4L2_SUBDEV_FORMAT_TRY; pad := p; format := g |} in
  fst (arducam_64mp_open s st) = 0
  /\ arducam_64mp_get_pad_format s st1 (try_req IMAGE_PAD f)
     = (0, try_req IMAGE_PAD (try_fmt_img st1), st1)
  /\ arducam_64mp_get_pad_format s st1 (try_req METADATA_PAD f)
     = (0, try_req METADATA_PAD (try_fmt_meta st1), st1)
  /\ exists g st2,
       arducam_64mp_set_pad_format s st1 (try_req IMAGE_PAD (try_fmt_img st1))
       = Some (0, try_req IMAGE_PAD g, st2, s)
       /\ try_fmt_img st2 = g
       /\ f_width g = f_width (try_fmt_img st1)
       /\ f_height g = f_height (try_fmt_img st1)
       /\ code g = code (try_fmt_img st1)
       /\ field g = field (try_fmt_img st1).
Proof.
  intros st1 try_req.
  split; [reflexivity|]. split; [reflexivity|]. split; [reflexivity|].
  destruct (set_pad_format_image_eq s st1
              (try_req IMAGE_PAD (try_fmt_img st1)) eq_refl)
    as (m & _ & Hfirst & Heq).
  set (m0 := nth 0 supported_modes (mode s)).
  destruct (first_nearest_exact supported_modes m m0
              (width m0) (height m0)) as [Hw Hh];
    [exact Hfirst | left; reflexivity | reflexivity | reflexivity |].
  rewrite Heq. cbn [which try_req].
  rewrite (image_format_same_size m0 m _ Hw Hh).
  eexists _, _. split; [reflexivity|]. repeat split.
Qed.
